(** * facettes: the speakers/content/users server of [server.js]

    A shallow embedding of the request handlers of [server.js] (the version
    with authentication), of its cache layer and of the JavaScript
    primitives they rely on, followed by the properties of the
    specification that concern them.

    Conventions of the model.
    - JSON documents are the inductive type [value]; objects are finite maps
      from property names to values, so that equality of documents is deep
      equality and does not depend on the order of keys.
    - Numbers are the integer-valued doubles, written as [Z].  What
      produces a number ([parseInt], addition, [JSON.parse] on a request)
      rounds to the nearest double ([to_double]); a result that is [NaN]
      or infinite is kept apart in the type [number].  Numbers with a
      fractional part are outside the model, and negative zero is not
      told from zero.
    - Strings are sequences of bytes (UTF-8).
    - A file is represented by the JSON document its text denotes:
      [JSON.stringify] followed by [JSON.parse] is the identity on documents.
    - Handlers run one at a time, to completion. *)

From Stdlib Require Import ZArith Ascii String Sorted.
From stdpp Require Import gmap strings list fin_maps pretty.

#[local] Open Scope string_scope.
#[local] Open Scope Z_scope.

(** ** JSON values *)

#[warnings="-register-all"]
Inductive value :=
  | VNull
  | VBool (b : bool)
  | VNum (n : Z)
  | VStr (s : string)
  | VArr (l : list value)
  | VObj (o : gmap string value).

Abbreviation obj := (gmap string value).

(** A JavaScript number as far as the handlers compute with one. *)
Inductive number :=
  | Int (n : Z)
  | NaN
  | Infinity (negative : bool).

#[export] Instance number_eq_dec : EqDecision number.
Proof. solve_decision. Defined.

(** An expression that may be [undefined] is an [option value]. *)
Abbreviation undefined := (@None value).

(** [!!v]: ToBoolean.  Arrays and objects are always truthy. *)
Class ToBoolean (A : Type) := truthy : A → bool.

#[export] Instance value_truthy : ToBoolean value := λ v,
  match v with
  | VNull => false
  | VBool b => b
  | VNum n => negb (n =? 0)
  | VStr s => negb (String.eqb s "")
  | VArr _ | VObj _ => true
  end.

#[export] Instance array_truthy {A} : ToBoolean (list A) := λ _, true.

#[export] Instance option_truthy {A} `{ToBoolean A} : ToBoolean (option A) := λ o,
  match o with
  | Some v => truthy v
  | None => false
  end.

(** [a === b].  Primitives compare by value.  Arrays and objects compare by
    identity; the operands the handlers compare always come from two
    different parses (a request and a file, or two requests), so they are
    never the same object. *)
Definition strict_eq (a b : option value) : bool :=
  match a, b with
  | None, None => true
  | Some VNull, Some VNull => true
  | Some (VBool x), Some (VBool y) => bool_decide (x = y)
  | Some (VNum x), Some (VNum y) => bool_decide (x = y)
  | Some (VStr x), Some (VStr y) => bool_decide (x = y)
  | _, _ => false
  end.

(** [v === n] for a number [n] that was computed, not read from a document
    ([NaN] is different from everything). *)
Definition strict_eq_number (v : option value) (n : number) : bool :=
  match v, n with
  | Some (VNum m), Int k => bool_decide (m = k)
  | _, _ => false
  end.

(** An object literal whose property values may be [undefined]; seen through
    [JSON.stringify], which leaves such properties out. *)
Definition object_literal (props : list (string * option value)) : obj :=
  list_to_map (omap (λ p, (p.1,.) <$> p.2) props).

(** ** Integers as doubles *)

(** The double nearest to the integer [n], ties going to the even
    significand: [n] itself below 2^53, and otherwise [n] rounded at the
    last of 53 significant bits, or an infinity when that reaches 2^1024. *)
Definition to_double (n : Z) : number :=
  let a := Z.abs n in
  if a <? 2 ^ 53 then Int n
  else
    let e := Z.log2 a - 52 in
    let q := a / 2 ^ e in
    let r := a mod 2 ^ e in
    let half := 2 ^ (e - 1) in
    let q' := if r <? half then q
              else if half <? r then q + 1
              else if Z.even q then q else q + 1 in
    if q' * 2 ^ e <? 2 ^ 1024 then Int (Z.sgn n * (q' * 2 ^ e))
    else Infinity (n <? 0).

(** [Number.MAX_SAFE_INTEGER] *)
Definition MAX_SAFE_INTEGER : Z := 2 ^ 53 - 1.

(** ** [parseInt(string)] with no radix argument *)

Definition code (c : ascii) : N := N_of_ascii c.

(** StrWhiteSpaceChar: white space and line terminators, as UTF-8. *)
Definition white1 (c : ascii) : bool :=
  let n := code c in
  ((9 <=? n) && (n <=? 13) || (n =? 32))%N.

Definition white2 (c1 c2 : ascii) : bool :=
  ((code c1 =? 194) && (code c2 =? 160))%N.               (* U+00A0 *)

Definition white3 (c1 c2 c3 : ascii) : bool :=
  let a := code c1 in let b := code c2 in let c := code c3 in
  ((a =? 225) && (b =? 154) && (c =? 128)                  (* U+1680 *)
   || (a =? 226) && (b =? 128) && (128 <=? c) && (c <=? 138)     (* U+2000-200A *)
   || (a =? 226) && (b =? 128) && ((c =? 168) || (c =? 169) || (c =? 175))
                                                      (* U+2028 U+2029 U+202F *)
   || (a =? 226) && (b =? 129) && (c =? 159)               (* U+205F *)
   || (a =? 227) && (b =? 128) && (c =? 128)               (* U+3000 *)
   || (a =? 239) && (b =? 187) && (c =? 191))%N.           (* U+FEFF *)

Fixpoint trim_start (s : string) : string :=
  match s with
  | String c1 s1 =>
      if white1 c1 then trim_start s1 else
      match s1 with
      | String c2 s2 =>
          if white2 c1 c2 then trim_start s2 else
          match s2 with
          | String c3 s3 => if white3 c1 c2 c3 then trim_start s3 else s
          | EmptyString => s
          end
      | EmptyString => s
      end
  | EmptyString => s
  end.

(** The value of a character as a digit: 0-9, then a-z or A-Z for 10-35. *)
Definition digit_value (c : ascii) : option Z :=
  let n := Z.of_N (code c) in
  if (48 <=? n) && (n <=? 57) then Some (n - 48)
  else if (97 <=? n) && (n <=? 122) then Some (n - 87)
  else if (65 <=? n) && (n <=? 90) then Some (n - 55)
  else None.

Definition radix_digit (R : Z) (c : ascii) : option Z :=
  d ← digit_value c; if d <? R then Some d else None.

(** The longest prefix of radix-[R] digits, read as an integer; [acc] is
    [None] until a digit has been seen. *)
Fixpoint parse_digits (R : Z) (s : string) (acc : option Z) : option Z :=
  match s with
  | String c s' =>
      match radix_digit R c with
      | Some d => parse_digits R s' (Some (R * default 0 acc + d))
      | None => acc
      end
  | EmptyString => acc
  end.

(** A leading [-] or [+]. *)
Definition strip_sign (s : string) : Z * string :=
  match s with
  | String c s' =>
      if Ascii.eqb c "-" then (-1, s')
      else if Ascii.eqb c "+" then (1, s')
      else (1, s)
  | EmptyString => (1, s)
  end.

(** A leading [0x] or [0X] selects radix 16; the radix is 10 otherwise. *)
Definition hex_prefixed (s : string) : bool :=
  match s with
  | String c1 (String c2 _) => Ascii.eqb c1 "0" && (Ascii.eqb c2 "x" || Ascii.eqb c2 "X")
  | _ => false
  end.

Definition strip_prefix (s : string) : Z * string :=
  match s with
  | String _ (String _ s') => if hex_prefixed s then (16, s') else (10, s)
  | _ => (10, s)
  end.

Definition parseInt (s : string) : number :=
  let '(sign, s1) := strip_sign (trim_start s) in
  let '(R, s2) := strip_prefix s1 in
  match parse_digits R s2 None with
  | Some m => to_double (sign * m)
  | None => NaN
  end.

(** ** [Math.max] over the ids of a non-empty collection *)

(** ToNumber.  The result is [None] where the conversion goes through
    ToPrimitive and StringToNumber (strings, arrays, objects), which this
    development does not model. *)
Definition ToNumber (v : option value) : option number :=
  match v with
  | None => Some NaN
  | Some VNull => Some (Int 0)
  | Some (VBool b) => Some (Int (if b then 1 else 0))
  | Some (VNum n) => Some (Int n)
  | Some (VStr _) | Some (VArr _) | Some (VObj _) => None
  end.

Definition number_max (a b : number) : number :=
  match a, b with
  | NaN, _ | _, NaN => NaN
  | Infinity false, _ | _, Infinity false => Infinity false
  | Infinity true, n | n, Infinity true => n
  | Int x, Int y => Int (Z.max x y)
  end.

(** [a + b]: the sum, rounded to the nearest double. *)
Definition number_add (a b : number) : number :=
  match a, b with
  | NaN, _ | _, NaN => NaN
  | Int x, Int y => to_double (x + y)
  | Infinity s, Int _ | Int _, Infinity s => Infinity s
  | Infinity s, Infinity t => if bool_decide (s = t) then Infinity s else NaN
  end.

(** [Math.max(x, ...xs)] once it is called: every argument is converted,
    any [NaN] wins.  The call itself, with its arguments spread, is
    [spread_call] below. *)
Fixpoint Math_max (x : option value) (xs : list (option value)) : option number :=
  match xs with
  | [] => ToNumber x
  | y :: ys => a ← ToNumber x; b ← Math_max y ys; Some (number_max a b)
  end.


(** ** The world the handlers run in *)

(** A file on disk: the document its text denotes ([None] when the text is
    not JSON) and its modification time.  [mtimeMs]
    is only ever compared with integer clock readings, so a fractional
    modification time is represented by its ceiling. *)
Record file (A : Type) := File { data : option A; mtimeMs : Z }.
Arguments File {A} _ _.
Arguments data {A} _.
Arguments mtimeMs {A} _.

(** The three data files, with the type of document each one holds.  The
    speakers and users files hold arrays of objects: they are created by
    [ensureDataFiles] and rewritten by the handlers only.  A speakers or
    users file that holds JSON of another shape, which only an edit from
    outside the server produces, is not among the files of the model. *)
Inductive path : Type → Type :=
  | SPEAKERS_FILE : path (list obj)
  | CONTENT_FILE : path value
  | USERS_FILE : path (list obj).

Definition path_name {A} (p : path A) : string :=
  match p with
  | SPEAKERS_FILE => "./data/speakers.json"
  | CONTENT_FILE => "./data/content.json"
  | USERS_FILE => "./data/users.json"
  end.

Definition basename {A} (p : path A) : string :=
  match p with
  | SPEAKERS_FILE => "speakers.json"
  | CONTENT_FILE => "content.json"
  | USERS_FILE => "users.json"
  end.

Record Files := {
  speakers_json : option (file (list obj));
  content_json : option (file value);
  users_json : option (file (list obj))
}.

(** The module-level variables of the cache system ([null] is [None]). *)
Record Cache := {
  speakersCache : option (list obj);
  speakersTimestamp : Z;
  contentCache : option value;
  contentTimestamp : Z
}.

Inductive io_event :=
  | Stat (f : string)
  | ReadFile (f : string)
  | WriteFile (f : string)
  | ConsoleLog (msg : string)
  | ConsoleError (msg : string).

(** The environment: [now k] is what the [k]-th consultation of the
    environment returns for [Date.now()], [mtime k] the modification time
    the file system stamps on a file written then; [io] records the file
    and console operations, most recent first; [max_arguments] is the
    number of arguments the engine has stack for in one call. *)
Record Env := {
  now : nat → Z;
  mtime : nat → Z;
  tick : nat;
  io : list io_event;
  max_arguments : N
}.

Record World := {
  files : Files;
  vars : Cache;
  env : Env
}.

Definition lookup_file {A} (p : path A) (fs : Files) : option (file A) :=
  match p in path T return option (file T) with
  | SPEAKERS_FILE => speakers_json fs
  | CONTENT_FILE => content_json fs
  | USERS_FILE => users_json fs
  end.

Definition store_file {A} (p : path A) (f : file A) (fs : Files) : Files :=
  match p in path T return file T → Files with
  | SPEAKERS_FILE => λ f,
      {| speakers_json := Some f; content_json := content_json fs; users_json := users_json fs |}
  | CONTENT_FILE => λ f,
      {| speakers_json := speakers_json fs; content_json := Some f; users_json := users_json fs |}
  | USERS_FILE => λ f,
      {| speakers_json := speakers_json fs; content_json := content_json fs; users_json := Some f |}
  end f.

Definition with_files (fs : Files) (w : World) : World :=
  {| files := fs; vars := vars w; env := env w |}.
Definition with_vars (c : Cache) (w : World) : World :=
  {| files := files w; vars := c; env := env w |}.
Definition with_env (e : Env) (w : World) : World :=
  {| files := files w; vars := vars w; env := e |}.

Definition record_io (ev : io_event) (e : Env) : Env :=
  {| now := now e; mtime := mtime e; tick := tick e; io := ev :: io e;
     max_arguments := max_arguments e |}.
Definition advance (e : Env) : Env :=
  {| now := now e; mtime := mtime e; tick := S (tick e); io := io e;
     max_arguments := max_arguments e |}.

(** ** A state and exception monad over the world *)

Inductive result (A : Type) :=
  | Ok (a : A)
  | Throw (e : string)
  | Unmodelled.
Arguments Ok {A} _.
Arguments Throw {A} _.
Arguments Unmodelled {A}.

Definition M (A : Type) : Type := World → result A * World.

Definition ret {A} (a : A) : M A := λ w, (Ok a, w).

Definition bind {A B} (m : M A) (k : A → M B) : M B := λ w,
  match m w with
  | (Ok a, w') => k a w'
  | (Throw e, w') => (Throw e, w')
  | (Unmodelled, w') => (Unmodelled, w')
  end.

Definition throw {A} (e : string) : M A := λ w, (Throw e, w).
Definition unmodelled {A} : M A := λ w, (Unmodelled, w).

(** [try { m } catch (err) { h }] *)
Definition try_catch {A} (m : M A) (h : M A) : M A := λ w,
  match m w with
  | (Throw e, w') => h w'
  | r => r
  end.

Declare Scope monad_scope.
Delimit Scope monad_scope with monad.
Notation "x <- m ;; k" := (bind m (λ x, k))
  (at level 100, m at next level, right associativity) : monad_scope.
Notation "m ;; k" := (bind m (λ _, k))
  (at level 100, right associativity) : monad_scope.
#[local] Open Scope monad_scope.

Definition console_log (msg : string) : M unit := λ w,
  (Ok (), with_env (record_io (ConsoleLog msg) (env w)) w).
Definition console_error (msg : string) : M unit := λ w,
  (Ok (), with_env (record_io (ConsoleError msg) (env w)) w).

Definition arguments_limit (w : World) : N := max_arguments (env w).

(** [f(...xs)]: the elements of [xs] go on the stack as the arguments of
    the call, which throws a [RangeError] when the engine has no room for
    them. *)
Definition spread_call {A} (xs : list A) : M unit := λ w,
  if (arguments_limit w <? N.of_nat (length xs))%N
  then (Throw "RangeError", w)
  else (Ok (), w).

(** [Date.now()] *)
Definition Date_now : M Z := λ w,
  (Ok (now (env w) (tick (env w))), with_env (advance (env w)) w).

(** [(await fs.stat(file)).mtimeMs] *)
Definition fs_stat {A} (p : path A) : M Z := λ w,
  let w' := with_env (record_io (Stat (path_name p)) (env w)) w in
  match lookup_file p (files w) with
  | Some f => (Ok (mtimeMs f), w')
  | None => (Throw "ENOENT", w')
  end.

(** [JSON.parse(await fs.readFile(file, 'utf8'))] *)
Definition readFile_parse {A} (p : path A) : M A := λ w,
  let w' := with_env (record_io (ReadFile (path_name p)) (env w)) w in
  match lookup_file p (files w) with
  | Some f =>
      match data f with
      | Some d => (Ok d, w')
      | None => (Throw "SyntaxError", w')
      end
  | None => (Throw "ENOENT", w')
  end.

(** [await fs.writeFile(file, JSON.stringify(d, null, 2))] *)
Definition writeFile_stringify {A} (p : path A) (d : A) : M unit := λ w,
  let e := env w in
  let f := File (Some d) (mtime e (tick e)) in
  (Ok (), with_env (advance (record_io (WriteFile (path_name p)) e))
            (with_files (store_file p f (files w)) w)).

(** ** Cache system *)

Definition CACHE_TTL : Z := 1000 * 60.

(** [readCached(file, cacheRef, timestampRef)].  The two wrapper objects are
    passed by their contents and handed back, with the result, in the state
    the call leaves them in. *)
Definition readCached {A} `{ToBoolean A} (f : path A)
    (cacheRef : option A) (timestampRef : Z) : M (A * (option A * Z)) :=
  modified <- fs_stat f ;;
  stale <- (if negb (truthy cacheRef) || (modified >? timestampRef)
            then ret true
            else (t <- Date_now ;; ret (t - timestampRef >? CACHE_TTL))) ;;
  match cacheRef, stale with
  | Some v, false => ret (v, (cacheRef, timestampRef))
  | _, _ =>
      d <- readFile_parse f ;;
      t <- Date_now ;;
      console_log ("🧠 Cache refreshed: " +:+ basename f) ;;
      ret (d, (Some d, t))
  end.

Definition get_vars : M Cache := λ w, (Ok (vars w), w).
Definition modify_vars (g : Cache → Cache) : M unit := λ w, (Ok (), with_vars (g (vars w)) w).

Definition set_speakersCache (v : option (list obj)) : M unit :=
  modify_vars (λ c, {| speakersCache := v; speakersTimestamp := speakersTimestamp c;
                       contentCache := contentCache c; contentTimestamp := contentTimestamp c |}).
Definition set_speakersTimestamp (t : Z) : M unit :=
  modify_vars (λ c, {| speakersCache := speakersCache c; speakersTimestamp := t;
                       contentCache := contentCache c; contentTimestamp := contentTimestamp c |}).
Definition set_contentCache (v : option value) : M unit :=
  modify_vars (λ c, {| speakersCache := speakersCache c; speakersTimestamp := speakersTimestamp c;
                       contentCache := v; contentTimestamp := contentTimestamp c |}).
Definition set_contentTimestamp (t : Z) : M unit :=
  modify_vars (λ c, {| speakersCache := speakersCache c; speakersTimestamp := speakersTimestamp c;
                       contentCache := contentCache c; contentTimestamp := t |}).

(** The wrappers [{ value: speakersCache }] and [{ value: speakersTimestamp }]
    are new objects holding copies of the two variables; nothing reads
    them after the call. *)
Definition readSpeakersCached : M (list obj) :=
  c <- get_vars ;;
  r <- readCached SPEAKERS_FILE (speakersCache c) (speakersTimestamp c) ;;
  ret r.1.

Definition writeSpeakersCached (d : list obj) : M unit :=
  set_speakersCache (Some d) ;;
  t <- Date_now ;;
  set_speakersTimestamp t ;;
  writeFile_stringify SPEAKERS_FILE d.

Definition readContentCached : M value :=
  c <- get_vars ;;
  r <- readCached CONTENT_FILE (contentCache c) (contentTimestamp c) ;;
  ret r.1.

Definition writeContentCached (d : value) : M unit :=
  set_contentCache (Some d) ;;
  t <- Date_now ;;
  set_contentTimestamp t ;;
  writeFile_stringify CONTENT_FILE d.

(** ** Requests and responses *)

(** [req.body] as [express.json()] leaves it: an object or an array. *)
Inductive Body :=
  | BObject (o : obj)
  | BArray (l : list value).

Definition body_value (b : Body) : value :=
  match b with
  | BObject o => VObj o
  | BArray l => VArr l
  end.

(** [b.k] for a property name [k] that is neither an index nor [length]. *)
Definition body_prop (b : Body) (k : string) : option value :=
  match b with
  | BObject o => o !! k
  | BArray _ => None
  end.

(** The own enumerable properties [{...b}] copies: the fields of an object,
    the elements of an array under their indices. *)
Definition spread (b : Body) : obj :=
  match b with
  | BObject o => o
  | BArray l => list_to_map (imap (λ i v, (pretty i, v)) l)
  end.

(** [JSON.parse] on the text of a request body, as far as its numbers go:
    every number literal becomes the nearest double.  The result is [None]
    when a literal lies beyond the doubles: it becomes an infinity, which
    [value] does not hold. *)
Fixpoint JSON_parse (doc : value) : option value :=
  match doc with
  | VNum n =>
      match to_double n with
      | Int k => Some (VNum k)
      | NaN | Infinity _ => None
      end
  | VArr l => VArr <$> mapM JSON_parse l
  | VObj o =>
      VObj <$> map_fold (λ k x acc, m ← acc; y ← JSON_parse x; Some (<[k := y]> m))
                 (Some ∅) o
  | VNull | VBool _ | VStr _ => Some doc
  end.

(** [app.use(express.json())], in its default strict mode, on a request
    that carries the JSON document [doc]: an object or an array is parsed
    and becomes [req.body]; any other document is refused with a 400 before
    a handler runs.  (So is a body of more than 100 kB, with a 413; sizes
    are not modelled.) *)
Definition express_json (doc : value) : M Body :=
  match doc with
  | VObj _ | VArr _ =>
      match JSON_parse doc with
      | Some (VObj o) => ret (BObject o)
      | Some (VArr l) => ret (BArray l)
      | _ => unmodelled
      end
  | VNull | VBool _ | VNum _ | VStr _ => throw "entity.parse.failed"
  end.

(** [req.session] for the fields the handlers use. *)
Record Session := {
  isAuthenticated : bool;
  username : option value
}.

Record Request := {
  session : Session;
  body : Body
}.

Record Response := {
  status : Z;
  json : value
}.

(** [res.status(code).json({ error: msg })] *)
Definition error_response (code : Z) (msg : string) : Response :=
  {| status := code; json := VObj {[ "error" := VStr msg ]} |}.

(** [res.json(v)] *)
Definition ok_response (v : value) : Response :=
  {| status := 200; json := v |}.

(** ** Authentication middleware *)

Definition requireAuth (req : Request) (next : M Response) : M Response :=
  if isAuthenticated (session req) then next
  else ret (error_response 401 "Unauthorized - Please login").

(** ** Speakers API *)

(** [sp => sp.id === n] *)
Definition has_id (n : number) (sp : obj) : bool :=
  strict_eq_number (sp !! "id") n.

(** [{ ...o, k: v }] where [v] may be [undefined], seen through
    [JSON.stringify]. *)
Definition set_prop (k : string) (v : option value) (o : obj) : obj :=
  match v with
  | Some x => <[k := x]> o
  | None => delete k o
  end.

Definition number_value (n : number) : option value :=
  match n with
  | Int k => Some (VNum k)
  | NaN | Infinity _ => None
  end.

(** [app.get('/api/speakers')] *)
Definition GET_speakers : M Response :=
  speakers <- readSpeakersCached ;;
  ret (ok_response (VArr (VObj <$> speakers))).

(** [app.get('/api/speakers/:id')] *)
Definition GET_speaker (id : string) : M Response :=
  speakers <- readSpeakersCached ;;
  match List.find (has_id (parseInt id)) speakers with
  | None => ret (error_response 404 "Speaker not found")
  | Some s => ret (ok_response (VObj s))
  end.

(** [speakers.length ? Math.max(...speakers.map(s => s.id)) + 1 : 1] *)
Definition next_id (speakers : list obj) : option number :=
  match (.!! "id") <$> speakers with
  | [] => Some (Int 1)
  | x :: xs => m ← Math_max x xs; Some (number_add m (Int 1))
  end.

(** [app.post('/api/speakers', requireAuth, ...)].  A computed id that is
    [NaN] or infinite, or that needs a conversion [ToNumber] does not
    cover, is outside the model. *)
Definition POST_speakers (req : Request) : M Response :=
  requireAuth req (
    speakers <- readSpeakersCached ;;
    spread_call ((.!! "id") <$> speakers) ;;
    match next_id speakers ≫= number_value with
    | None => unmodelled
    | Some id =>
        let newSpeaker := spread (body req) ∪ {[ "id" := id ]} in
        let speakers := (speakers ++ [newSpeaker])%list in
        writeSpeakersCached speakers ;;
        ret {| status := 201; json := VObj newSpeaker |}
    end).

(** [speakers.findIndex(p)]: [None] is [-1]. *)
Definition findIndex {A} (p : A → bool) (l : list A) : option nat :=
  fst <$> list_find (λ x, p x = true) l.

(** [app.put('/api/speakers/:id', requireAuth, ...)] *)
Definition PUT_speaker (id : string) (req : Request) : M Response :=
  requireAuth req (
    speakers <- readSpeakersCached ;;
    match findIndex (has_id (parseInt id)) speakers with
    | None => ret (error_response 404 "Speaker not found")
    | Some index =>
        let existing := default ∅ (speakers !! index) in
        let updated := set_prop "id" (existing !! "id") (spread (body req) ∪ existing) in
        let speakers := <[index := updated]> speakers in
        writeSpeakersCached speakers ;;
        ret (ok_response (VObj (default ∅ (speakers !! index))))
    end).

(** [app.delete('/api/speakers/:id', requireAuth, ...)] *)
Definition DELETE_speaker (id : string) (req : Request) : M Response :=
  requireAuth req (
    speakers <- readSpeakersCached ;;
    let filtered := List.filter (λ s, negb (has_id (parseInt id) s)) speakers in
    if (length filtered =? length speakers)%nat then ret (error_response 404 "Not found")
    else
      writeSpeakersCached filtered ;;
      ret (ok_response (VObj {[ "message" := VStr "Deleted" ]}))).

(** ** Content API *)

(** [app.get('/api/content')] *)
Definition GET_content : M Response :=
  content <- readContentCached ;;
  ret (ok_response content).

(** [app.put('/api/content', requireAuth, ...)] *)
Definition PUT_content (req : Request) : M Response :=
  requireAuth req (
    let updated := body_value (body req) in
    writeContentCached updated ;;
    ret (ok_response (VObj {[ "message" := VStr "Content updated successfully" ]}))).

(** ** Authentication and user management *)

Section Users.

(** [bcrypt.compare(data, hash)] of the bcrypt package: the boolean the
    promise resolves to, [None] when it rejects. *)
Variable bcrypt_compare : option value → option value → option bool.

Definition await_compare (d h : option value) : M bool :=
  match bcrypt_compare d h with
  | Some b => ret b
  | None => throw "bcrypt"
  end.

(** [app.post('/api/auth/login')]: the response, and [req.session] as the
    handler leaves it. *)
Definition POST_auth_login (req : Request) : M (Response * Session) :=
  try_catch (
    let username := body_prop (body req) "username" in
    let password := body_prop (body req) "password" in
    if negb (truthy username) || negb (truthy password)
    then ret (error_response 400 "Username and password required", session req)
    else
      users <- readFile_parse USERS_FILE ;;
      match List.find (λ u, strict_eq (u !! "username") username) users with
      | None => ret (error_response 401 "Invalid credentials", session req)
      | Some user =>
          isValid <- await_compare password (user !! "passwordHash") ;;
          if negb isValid
          then ret (error_response 401 "Invalid credentials", session req)
          else ret (ok_response (VObj (object_literal
                      [("success", Some (VBool true));
                       ("message", Some (VStr "Login successful"));
                       ("username", username)])),
                    {| isAuthenticated := true; username := username |})
      end)
    (console_error "Login error:" ;;
     ret (error_response 500 "Login failed", session req)).

End Users.

(** [app.get('/api/users', requireAuth, ...)] *)
Definition GET_users (req : Request) : M Response :=
  requireAuth req (
    try_catch (
      users <- readFile_parse USERS_FILE ;;
      let sanitizedUsers :=
        (λ u : obj, object_literal
           [("username", u !! "username");
            ("createdAt", u !! "createdAt");
            ("passwordChangedAt", u !! "passwordChangedAt");
            ("lastLogin", u !! "lastLogin")]) <$> users in
      ret (ok_response (VArr (VObj <$> sanitizedUsers))))
    (console_error "Get users error:" ;;
     ret (error_response 500 "Failed to get users"))).

(** [app.delete('/api/users/:username', requireAuth, ...)] *)
Definition DELETE_user (name : string) (req : Request) : M Response :=
  requireAuth req (
    try_catch (
      if strict_eq (Some (VStr name)) (username (session req))
      then ret (error_response 400 "Cannot delete your own account")
      else
        users <- readFile_parse USERS_FILE ;;
        if (length users <=? 1)%nat
        then ret (error_response 400 "Cannot delete the last user")
        else
          let filteredUsers :=
            List.filter (λ u : obj, negb (strict_eq (u !! "username") (Some (VStr name)))) users in
          if (length filteredUsers =? length users)%nat
          then ret (error_response 404 "User not found")
          else
            writeFile_stringify USERS_FILE filteredUsers ;;
            ret (ok_response (VObj {[ "success" := VBool true;
                                      "message" := VStr "User deleted successfully" ]})))
    (console_error "Delete user error:" ;;
     ret (error_response 500 "Failed to delete user"))).

(** ** Start-up *)

(** [try { await fs.access(file) } catch { create }] *)
Definition ensure {A} (p : path A) (create : M unit) : M unit := λ w,
  match lookup_file p (files w) with
  | Some _ => (Ok (), w)
  | None => create w
  end.

(** [ensureDataFiles()]; [defaultHash] is what [bcrypt.hash('changeme123', 10)]
    returned and [createdAt] what [new Date().toISOString()] returned. *)
Definition ensureDataFiles (defaultHash createdAt : string) : M unit :=
  ensure SPEAKERS_FILE (writeFile_stringify SPEAKERS_FILE []) ;;
  ensure CONTENT_FILE
    (writeFile_stringify CONTENT_FILE (VObj {[ "en" := VObj ∅; "fr" := VObj ∅ ]})) ;;
  ensure USERS_FILE (
    writeFile_stringify USERS_FILE
      [ ({[ "username" := VStr "admin";
            "passwordHash" := VStr defaultHash;
            "createdAt" := VStr createdAt ]} : obj) ] ;;
    console_log "⚠️  Default admin user created. Username: admin, Password: changeme123" ;;
    console_log "⚠️  PLEASE CHANGE THE PASSWORD IMMEDIATELY!").

(** The module-level variables as the module initialises them. *)
Definition initial_vars : Cache :=
  {| speakersCache := None; speakersTimestamp := 0;
     contentCache := None; contentTimestamp := 0 |}.

(** The server on a data directory with no file in it, before start-up. *)
Definition blank (e : Env) : World :=
  {| files := {| speakers_json := None; content_json := None; users_json := None |};
     vars := initial_vars;
     env := e |}.

(** The world after start-up. *)
Definition started (e : Env) (defaultHash createdAt : string) : World :=
  (ensureDataFiles defaultHash createdAt (blank e)).2.

(** * Notions used by the statements *)

(** ** The cache against the file *)

(** What a reload by [readCached] leaves in the log, on top of [before]. *)
Definition reload_logged {A} (p : path A) (before : list io_event) : list io_event :=
  ConsoleLog ("🧠 Cache refreshed: " +:+ basename p)
    :: ReadFile (path_name p) :: Stat (path_name p) :: before.

(** The file [p] holds the document [d], and the cache variable [c] is
    either still [null] or holds [d] too. *)
Definition coherent {A} (p : path A) (fs : Files) (c : option A) (d : A) : Prop :=
  ∃ f, lookup_file p fs = Some f ∧ data f = Some d ∧ (c = None ∨ c = Some d).

(** ** Ids and the assignment rule *)

(** The integer id of a record, when it has one. *)
Definition id_of (r : obj) : option Z :=
  match r !! "id" with
  | Some (VNum n) => Some n
  | _ => None
  end.

Definition ids (l : list obj) : list Z := omap id_of l.

Definition integer_ids (l : list obj) : Prop := Forall (λ r, is_Some (id_of r)) l.

(** The assignment rule in the specification's words: 1 on an empty
    collection, the greatest existing id plus one otherwise. *)
Definition assigned_id (l : list obj) : Z :=
  match ids l with
  | [] => 1
  | n :: ns => foldr Z.max n ns + 1
  end.

(** The ids of [l] are safe integers, and so are the ids that [k] more
    creations hand out; and the engine has room for the ids as arguments,
    those of [k] more records included. *)
Definition room_for (k : nat) (l : list obj) (w : World) : Prop :=
  Forall (λ n, - MAX_SAFE_INTEGER ≤ n ∧ n + Z.of_nat k ≤ MAX_SAFE_INTEGER) (ids l)
  ∧ Z.of_nat k ≤ MAX_SAFE_INTEGER
  ∧ (N.of_nat (length l + k) ≤ arguments_limit w)%N.

(** ** Sequences of requests *)

(** The read-only requests. *)
Inductive get :=
  | GetSpeakers
  | GetSpeaker (id : string)
  | GetContent.

Definition run_get (g : get) : M Response :=
  match g with
  | GetSpeakers => GET_speakers
  | GetSpeaker id => GET_speaker id
  | GetContent => GET_content
  end.

Fixpoint run_gets (gs : list get) : M (list Response) :=
  match gs with
  | [] => ret []
  | g :: gs' => r <- run_get g ;; rs <- run_gets gs' ;; ret (r :: rs)
  end.

(** Sequences of creations and deletions by one session. *)
Inductive op :=
  | Create (b : Body)
  | Delete (id : string).

Definition run_op (s : Session) (o : op) : M Response :=
  match o with
  | Create b => POST_speakers {| session := s; body := b |}
  | Delete id => DELETE_speaker id {| session := s; body := BObject ∅ |}
  end.

Fixpoint run_ops (s : Session) (os : list op) : M (list Response) :=
  match os with
  | [] => ret []
  | o :: os' => r <- run_op s o ;; rs <- run_ops s os' ;; ret (r :: rs)
  end.

(** The body of a creation names no id. *)
Definition names_no_id (o : op) : Prop :=
  match o with
  | Create b => spread b !! "id" = None
  | Delete _ => True
  end.

Definition is_create (o : op) : Prop :=
  match o with
  | Create _ => True
  | Delete _ => False
  end.

(** The number of creations in a sequence. *)
Definition creations (os : list op) : nat :=
  length (List.filter (λ o, match o with Create _ => true | Delete _ => false end) os).

(** The ids handed out, in order, as the 201 responses show them. *)
Definition assigned_ids (rs : list Response) : list Z :=
  omap (λ r, if status r =? 201
             then match json r with VObj o => id_of o | _ => None end
             else None) rs.

(** ** Decimal segments *)

(** Decimal digits, and the integer a string of them denotes. *)
Definition is_digit (c : ascii) : bool :=
  ((48 <=? code c) && (code c <=? 57))%N.

Fixpoint all_digits (s : string) : bool :=
  match s with
  | String c s' => is_digit c && all_digits s'
  | EmptyString => true
  end.

Fixpoint no_digits (s : string) : bool :=
  match s with
  | String c s' => negb (is_digit c) && no_digits s'
  | EmptyString => true
  end.

Definition starts_with_digit (s : string) : bool :=
  match s with
  | String c _ => is_digit c
  | EmptyString => false
  end.

Fixpoint decimal_from (acc : Z) (s : string) : Z :=
  match s with
  | String c s' => decimal_from (10 * acc + (Z.of_N (code c) - 48)) s'
  | EmptyString => acc
  end.

Definition decimal_value (s : string) : Z := decimal_from 0 s.

(** ** Sample worlds and requests *)

(** A clock that starts at 1000 ms and advances by one at each reading, in
    an engine with room for 100000 arguments. *)
Definition ticking : Env :=
  {| now := λ k, 1000 + Z.of_nat k; mtime := λ k, 1000 + Z.of_nat k; tick := 0; io := [];
     max_arguments := 100000 |}.

(** The environment [e] in an engine with room for [n] arguments. *)
Definition with_max_arguments (n : N) (e : Env) : Env :=
  {| now := now e; mtime := mtime e; tick := tick e; io := io e; max_arguments := n |}.

(** The server right after start-up on an empty data directory. *)
Definition fresh_server : World :=
  started ticking "$2b$10$N9qo8uLOickgx2ZMRZoMye" "2024-01-01T00:00:00.000Z".

(** A logged-in administrator. *)
Definition admin : Session :=
  {| isAuthenticated := true; username := Some (VStr "admin") |}.

Definition request (b : Body) : Request := {| session := admin; body := b |}.

(** The server of [fresh_server] with [l] in the speakers file. *)
Definition serving (l : list obj) : World :=
  with_files (store_file SPEAKERS_FILE (File (Some l) 1000) (files fresh_server))
    fresh_server.

Definition ada : obj :=
  {[ "id" := VNum 1; "name" := VStr "Ada"; "bio" := VStr "Analyst" ]}.

(** A stand-in for [bcrypt.compare] that accepts no password. *)
Definition reject_all (d h : option value) : option bool := Some false.

Definition credentials (u p : string) : Request :=
  {| session := {| isAuthenticated := false; username := None |};
     body := BObject {[ "username" := VStr u; "password" := VStr p ]} |}.

(** A users file with two accounts. *)
Definition two_users : list obj :=
  [ {[ "username" := VStr "admin"; "passwordHash" := VStr "$2b$10$aaaa" ]};
    {[ "username" := VStr "guest"; "passwordHash" := VStr "$2b$10$bbbb" ]} ].

(** ** Documents *)


(** [PUT /api/content] on a request that carries the document [doc]. *)
Definition replace_content (s : Session) (doc : value) : M Response :=
  b <- express_json doc ;;
  PUT_content {| session := s; body := b |}.

(** ** Four claims as the specification words them *)

(** C2 as the specification words it: over any sequence of creations (that
    name no id) and deletions, the ids handed out are strictly increasing,
    so that none is handed out twice. *)
Definition ids_never_reused : Prop :=
  ∀ os rs w,
    Forall names_no_id os →
    run_ops admin os fresh_server = (Ok rs, w) →
    StronglySorted Z.lt (assigned_ids rs).


(** C6 as the specification words it: deleting a user name that is in no
    record, and that is not the session's own, is answered 404. *)
Definition absent_user_is_not_found : Prop :=
  ∀ name req w f users,
    isAuthenticated (session req) = true →
    users_json (files w) = Some f → data f = Some users →
    strict_eq (Some (VStr name)) (username (session req)) = false →
    (∀ u, u ∈ users → u !! "username" ≠ Some (VStr name)) →
    (DELETE_user name req w).1 = Ok (error_response 404 "User not found").

(** C10 as the specification words it: a segment made of decimal digits
    followed by characters that are not digits is looked up as the digits
    alone are. *)
Definition trailing_characters_ignored : Prop :=
  ∀ ds rest w,
    ds ≠ "" → all_digits ds = true → rest ≠ "" → no_digits rest = true →
    (GET_speaker (ds +:+ rest) w).1 = (GET_speaker ds w).1.

(** * The rest of the server *)

(** ** [writeCached] (the first version of the file) *)

(** [writeCached(file, cacheRef, timestampRef, data)].  As for [readCached],
    the two wrapper objects are passed by their contents and handed back in
    the state the call leaves them in. *)
Definition writeCached {A} (f : path A) (cacheRef : option A) (timestampRef : Z)
    (d : A) : M (option A * Z) :=
  t <- Date_now ;;
  writeFile_stringify f d ;;
  ret (Some d, t).

(** ** Session routes *)

(** [app.get('/api/auth/check')] *)
Definition GET_auth_check (req : Request) : M Response :=
  if isAuthenticated (session req)
  then ret (ok_response (VObj (object_literal
              [("authenticated", Some (VBool true));
               ("username", username (session req))])))
  else ret (ok_response (VObj {[ "authenticated" := VBool false ]})).

(** [app.post('/api/auth/logout')].  [err] tells whether the session store
    reported an error to the callback of [req.session.destroy].  Besides the
    response, the result is what is left of the session: nothing once it is
    destroyed. *)
Definition POST_auth_logout (err : bool) (req : Request) : M (Response * option Session) :=
  if err then ret (error_response 500 "Logout failed", Some (session req))
  else ret (ok_response (VObj {[ "success" := VBool true;
                                 "message" := VStr "Logged out successfully" ]}),
            None).

(** The session a request arrives with: the stored one, or a new one in
    which nothing is set. *)
Definition anonymous : Session := {| isAuthenticated := false; username := None |}.
Definition arriving (stored : option Session) : Session := default anonymous stored.

(** ** Strings as the user routes look at them *)

(** [s.length]: the number of UTF-16 code units of a string given by its
    UTF-8 bytes.  Every byte that starts a character counts for one, and the
    first byte of a four-byte character for two. *)
Definition utf16_units (c : ascii) : nat :=
  let n := code c in
  if (n <? 128)%N then 1
  else if (n <? 192)%N then 0
  else if (n <? 240)%N then 1
  else 2.

Fixpoint utf16_length (s : string) : nat :=
  match s with
  | String c s' => (utf16_units c + utf16_length s')%nat
  | EmptyString => 0
  end.

(** [v.length] for a value that is not [null]. *)
Definition length_of (v : value) : option value :=
  match v with
  | VStr s => Some (VNum (Z.of_nat (utf16_length s)))
  | VArr l => Some (VNum (Z.of_nat (length l)))
  | VObj o => o !! "length"
  | VNull | VBool _ | VNum _ => None
  end.

(** [v.length < 8].  Reading [length] off [undefined] or [null] throws; a
    length that is not a number compares as [ToNumber] has it. *)
Definition shorter_than_8 (v : option value) : M bool :=
  match v with
  | None | Some VNull => throw "TypeError"
  | Some x =>
      match ToNumber (length_of x) with
      | Some (Int n) => ret (n <? 8)
      | Some NaN => ret false
      | Some (Infinity negative) => ret negative
      | None => unmodelled
      end
  end.

(** [xs.join(sep)] on strings. *)
Fixpoint join (sep : string) (xs : list string) : string :=
  match xs with
  | [] => ""
  | [x] => x
  | x :: xs' => x +:+ sep +:+ join sep xs'
  end.

(** ToString.  An array converts as [join(",")] does, its elements
    converted in turn and [null] giving the empty string; an object that is
    not an array converts to [[object Object]]; numbers print in plain
    decimal below 10^21, and in the exponent notation, which is not
    modelled ([None]), from there on. *)
Fixpoint ToString (v : value) : option string :=
  match v with
  | VNull => Some "null"
  | VBool b => Some (if b then "true" else "false")
  | VNum n => if Z.abs n <? 10 ^ 21 then Some (pretty n) else None
  | VStr s => Some s
  | VArr l =>
      join "," <$> mapM (λ x, match x with VNull => Some "" | _ => ToString x end) l
  | VObj _ => Some "[object Object]"
  end.

(** The class [[a-zA-Z0-9_-]]. *)
Definition username_char (c : ascii) : bool :=
  let n := code c in
  ((97 <=? n) && (n <=? 122) || (65 <=? n) && (n <=? 90) || (48 <=? n) && (n <=? 57)
   || (n =? 95) || (n =? 45))%N.

Fixpoint all_username_chars (s : string) : bool :=
  match s with
  | String c s' => username_char c && all_username_chars s'
  | EmptyString => true
  end.

(** [/^[a-zA-Z0-9_-]+$/.test(s)] *)
Definition username_pattern (s : string) : bool :=
  negb (String.eqb s "") && all_username_chars s.

Definition test_username (v : option value) : M bool :=
  match v with
  | None => ret (username_pattern "undefined")
  | Some x =>
      match ToString x with
      | Some s => ret (username_pattern s)
      | None => unmodelled
      end
  end.

(** ** User management and password routes *)

(** [req.session.username] *)
Definition session_username (req : Request) : option value := username (session req).

Section Accounts.

(** [bcrypt.compare], as in the login route. *)
Variable bcrypt_compare : option value → option value → option bool.

(** [bcrypt.hash(data, 10)]: the hash the promise resolves to, [None] when
    it rejects.  The salt is drawn at random; the first argument stands for
    the draw. *)
Variable bcrypt_hash : nat → option value → option string.

(** [Date.prototype.toISOString] on a time in milliseconds. *)
Variable toISOString : Z → string.

Definition await_hash (d : option value) : M string := λ w,
  match bcrypt_hash (tick (env w)) d with
  | Some h => (Ok h, w)
  | None => (Throw "bcrypt", w)
  end.

(** [new Date().toISOString()] *)
Definition new_Date_toISOString : M string :=
  t <- Date_now ;; ret (toISOString t).

(** [app.post('/api/users', requireAuth, ...)] *)
Definition POST_users (req : Request) : M Response :=
  requireAuth req (
    try_catch (
      let username := body_prop (body req) "username" in
      let password := body_prop (body req) "password" in
      if negb (truthy username) || negb (truthy password)
      then ret (error_response 400 "Username and password required")
      else
        short <- shorter_than_8 password ;;
        if short
        then ret (error_response 400 "Password must be at least 8 characters")
        else
          valid <- test_username username ;;
          if negb valid
          then ret (error_response 400
                 "Username can only contain letters, numbers, underscores, and hyphens")
          else
            users <- readFile_parse USERS_FILE ;;
            match List.find (λ u : obj, strict_eq (u !! "username") username) users with
            | Some _ => ret (error_response 400 "Username already exists")
            | None =>
                passwordHash <- await_hash password ;;
                createdAt <- new_Date_toISOString ;;
                let createdBy := session_username req in
                let newUser := object_literal
                  [("username", username);
                   ("passwordHash", Some (VStr passwordHash));
                   ("createdAt", Some (VStr createdAt));
                   ("createdBy", createdBy)] in
                writeFile_stringify USERS_FILE (users ++ [newUser])%list ;;
                ret {| status := 201;
                       json := VObj (object_literal
                         [("username", newUser !! "username");
                          ("createdAt", newUser !! "createdAt");
                          ("createdBy", newUser !! "createdBy")]) |}
            end)
      (console_error "Create user error:" ;;
       ret (error_response 500 "Failed to create user"))).

(** [app.post('/api/auth/change-password', requireAuth, ...)] *)
Definition POST_auth_change_password (req : Request) : M Response :=
  requireAuth req (
    try_catch (
      let currentPassword := body_prop (body req) "currentPassword" in
      let newPassword := body_prop (body req) "newPassword" in
      if negb (truthy currentPassword) || negb (truthy newPassword)
      then ret (error_response 400 "Current and new password required")
      else
        short <- shorter_than_8 newPassword ;;
        if short
        then ret (error_response 400 "New password must be at least 8 characters")
        else
          users <- readFile_parse USERS_FILE ;;
          match findIndex (λ u : obj, strict_eq (u !! "username") (session_username req))
                  users with
          | None => ret (error_response 404 "User not found")
          | Some userIndex =>
              let user := default ∅ (users !! userIndex) in
              isValid <- await_compare bcrypt_compare currentPassword (user !! "passwordHash") ;;
              if negb isValid
              then ret (error_response 401 "Current password is incorrect")
              else
                newHash <- await_hash newPassword ;;
                changedAt <- new_Date_toISOString ;;
                let user := <["passwordHash" := VStr newHash]> user in
                let user := <["passwordChangedAt" := VStr changedAt]> user in
                writeFile_stringify USERS_FILE (<[userIndex := user]> users) ;;
                ret (ok_response (VObj {[ "success" := VBool true;
                                          "message" := VStr "Password changed successfully" ]}))
          end)
      (console_error "Password change error:" ;;
       ret (error_response 500 "Failed to change password"))).

(** [app.post('/api/users/:username/reset-password', requireAuth, ...)] *)
Definition POST_users_reset_password (name : string) (req : Request) : M Response :=
  requireAuth req (
    try_catch (
      let newPassword := body_prop (body req) "newPassword" in
      if negb (truthy newPassword)
      then ret (error_response 400 "New password required")
      else
        short <- shorter_than_8 newPassword ;;
        if short
        then ret (error_response 400 "Password must be at least 8 characters")
        else
          users <- readFile_parse USERS_FILE ;;
          match findIndex (λ u : obj, strict_eq (u !! "username") (Some (VStr name))) users with
          | None => ret (error_response 404 "User not found")
          | Some userIndex =>
              let user := default ∅ (users !! userIndex) in
              passwordHash <- await_hash newPassword ;;
              changedAt <- new_Date_toISOString ;;
              let user := <["passwordHash" := VStr passwordHash]> user in
              let user := <["passwordChangedAt" := VStr changedAt]> user in
              let user := set_prop "passwordResetBy" (session_username req) user in
              writeFile_stringify USERS_FILE (<[userIndex := user]> users) ;;
              ret (ok_response (VObj {[ "success" := VBool true;
                                        "message" := VStr "Password reset successfully" ]}))
          end)
      (console_error "Reset password error:" ;;
       ret (error_response 500 "Failed to reset password"))).

End Accounts.

(** ** Stand-ins and samples for the user routes *)

(** A stand-in for bcrypt: the hash of a string is the string behind a
    marker; anything else is refused. *)
Definition toy_hash (k : nat) (d : option value) : option string :=
  match d with
  | Some (VStr p) => Some ("$toy$" +:+ p)
  | _ => None
  end.

Definition toy_compare (d h : option value) : option bool :=
  match d, h with
  | Some (VStr p), Some (VStr x) => Some (String.eqb x ("$toy$" +:+ p))
  | _, _ => None
  end.

(** A stand-in for [toISOString]. *)
Definition toy_date (t : Z) : string := "T" +:+ pretty t.

Definition toy_users : list obj :=
  [ {[ "username" := VStr "admin"; "passwordHash" := VStr "$toy$changeme123" ]};
    {[ "username" := VStr "guest"; "passwordHash" := VStr "$toy$guestguest" ]} ].

Definition toy_server : World :=
  with_files (store_file USERS_FILE (File (Some toy_users) 1002) (files fresh_server))
    fresh_server.

Definition from_admin (fields : obj) : Request :=
  {| session := admin; body := BObject fields |}.

(** ** What a route leaves alone *)

(** What the speakers routes have no business with: the content and users
    files and the two content variables; likewise for the content route and
    for the user routes. *)
Definition beside_speakers (w : World) :=
  (content_json (files w), users_json (files w),
   contentCache (vars w), contentTimestamp (vars w)).
Definition beside_content (w : World) :=
  (speakers_json (files w), users_json (files w),
   speakersCache (vars w), speakersTimestamp (vars w)).
Definition beside_users (w : World) :=
  (speakers_json (files w), content_json (files w), vars w).

(** The computation [m] leaves the part [g] of the world as it finds it,
    however it ends. *)
Definition preserves {A T} (g : World → T) (m : M A) : Prop :=
  ∀ w, g (m w).2 = g w.

(** ** The users file in good order *)

Definition usernames (users : list obj) : list (option value) :=
  (.!! "username") <$> users.

(** The users file parses, holds at least one account, and no two of its
    accounts carry the same user name. *)
Definition users_in_order (w : World) : Prop :=
  ∃ f users,
    users_json (files w) = Some f ∧ data f = Some users
    ∧ users ≠ [] ∧ NoDup (usernames users).

(** The user name a request carries is a string, if it carries one. *)
Definition string_name (req : Request) : Prop :=
  match body_prop (body req) "username" with
  | None | Some (VStr _) => True
  | Some _ => False
  end.

(** Requests to the login and user routes, in sequence. *)
Inductive account_op :=
  | Login (req : Request)
  | ListUsers (req : Request)
  | AddUser (req : Request)
  | RemoveUser (name : string) (req : Request)
  | ResetPassword (name : string) (req : Request)
  | ChangePassword (req : Request).

Section AccountOps.

Variable bcrypt_compare : option value → option value → option bool.
Variable bcrypt_hash : nat → option value → option string.
Variable toISOString : Z → string.

Definition run_account_op (o : account_op) : M Response :=
  match o with
  | Login req => r <- POST_auth_login bcrypt_compare req ;; ret r.1
  | ListUsers req => GET_users req
  | AddUser req => POST_users bcrypt_hash toISOString req
  | RemoveUser name req => DELETE_user name req
  | ResetPassword name req => POST_users_reset_password bcrypt_hash toISOString name req
  | ChangePassword req =>
      POST_auth_change_password bcrypt_compare bcrypt_hash toISOString req
  end.

Fixpoint run_account_ops (os : list account_op) : M (list Response) :=
  match os with
  | [] => ret []
  | o :: os' => r <- run_account_op o ;; rs <- run_account_ops os' ;; ret (r :: rs)
  end.

End AccountOps.

(** The creations of a sequence carry strings as user names. *)
Definition creates_string_names (o : account_op) : Prop :=
  match o with
  | AddUser req => string_name req
  | _ => True
  end.

(** * Properties *)

Ltac run :=
  unfold readSpeakersCached, readContentCached, writeSpeakersCached, writeContentCached,
    readCached, set_speakersCache, set_speakersTimestamp, set_contentCache,
    set_contentTimestamp, modify_vars, get_vars, console_log, console_error, Date_now,
    fs_stat, readFile_parse, writeFile_stringify, try_catch, bind, ret, throw,
    unmodelled in *.

Ltac wsimpl :=
  cbn [files vars env with_env with_vars with_files record_io advance
       now mtime tick io fst snd] in *.

(** ** Integers as doubles *)

Lemma to_double_safe n :
  - MAX_SAFE_INTEGER ≤ n ≤ MAX_SAFE_INTEGER → to_double n = Int n.
Proof.
  unfold to_double, MAX_SAFE_INTEGER. intros Hn. cbv zeta.
  assert ((Z.abs n <? 2 ^ 53) = true) as -> by lia. done.
Qed.

(** Past 2^53 not every integer is a double. *)
Example to_double_rounds :
  to_double (2 ^ 53 + 1) = Int (2 ^ 53) ∧ to_double (2 ^ 53 + 3) = Int (2 ^ 53 + 4)
  ∧ to_double (2 ^ 1024) = Infinity false.
Proof. vm_compute. repeat split; reflexivity. Qed.

(** ** parseInt on a few segments *)
Example parseInt_7abc : parseInt "7abc" = Int 7.
Proof. reflexivity. Qed.
Example parseInt_abc : parseInt "abc" = NaN.
Proof. reflexivity. Qed.
Example parseInt_hex : parseInt "0x1F" = Int 31.
Proof. reflexivity. Qed.
Example parseInt_neg : parseInt "  -12px" = Int (-12).
Proof. reflexivity. Qed.

(** ** The cache layer *)

Section CacheLayer.

Context {A : Type} `{ToBoolean A}.
Implicit Types (p : path A) (c : option A) (ts : Z) (w : World).

(** [readCached] writes neither the module variables nor the files. *)
Lemma readCached_frame p c ts w :
  vars (readCached p c ts w).2 = vars w ∧ files (readCached p c ts w).2 = files w.
Proof. run. repeat case_match; simplify_eq/=; done. Qed.

(** With nothing usable in the wrapper, [readCached] reads the file. *)
Lemma readCached_reload p c ts w f d :
  truthy c = false →
  lookup_file p (files w) = Some f → data f = Some d →
  ∃ w', readCached p c ts w = (Ok (d, (Some d, now (env w) (tick (env w)))), w')
        ∧ io (env w') = reload_logged p (io (env w)).
Proof.
  intros Hc Hf Hd. run. rewrite Hf, Hc. simpl.
  destruct c; wsimpl; rewrite Hf, Hd; eexists; split; reflexivity.
Qed.

(** A usable wrapper value that is neither older than the file nor older
    than the TTL is returned as it is, and the file is not read. *)
Lemma readCached_hit p v ts w f :
  truthy v = true →
  lookup_file p (files w) = Some f →
  (mtimeMs f >? ts) = false →
  (now (env w) (tick (env w)) - ts >? CACHE_TTL) = false →
  ∃ w', readCached p (Some v) ts w = (Ok (v, (Some v, ts)), w')
        ∧ io (env w') = Stat (path_name p) :: io (env w).
Proof.
  intros Hv Hf Hm Ht. run. rewrite Hf. simpl.
  unfold truthy at 1, option_truthy. rewrite Hv, Hm. simpl. rewrite Ht.
  eexists; split; reflexivity.
Qed.

(** A wrapper older than the file, or older than the TTL, is refreshed
    from the file. *)
Lemma readCached_stale p c ts w f d :
  lookup_file p (files w) = Some f → data f = Some d →
  (mtimeMs f >? ts) = true ∨ (now (env w) (tick (env w)) - ts >? CACHE_TTL) = true →
  ∃ t w', readCached p c ts w = (Ok (d, (Some d, t)), w')
          ∧ In (ReadFile (path_name p)) (firstn 2 (io (env w'))).
Proof.
  intros Hf Hd Hs. run. rewrite Hf. simpl.
  destruct (negb (truthy c) || (mtimeMs f >? ts)) eqn:E; simpl.
  - destruct c; wsimpl; rewrite Hf, Hd; do 2 eexists;
      (split; [reflexivity | simpl; auto]).
  - apply orb_false_iff in E as [_ E]. destruct Hs as [Hs|Hs]; [congruence|].
    rewrite Hs. destruct c; wsimpl; rewrite Hf, Hd; do 2 eexists;
      (split; [reflexivity | simpl; auto]).
Qed.

End CacheLayer.

Lemma readSpeakersCached_frame w :
  vars (readSpeakersCached w).2 = vars w ∧ files (readSpeakersCached w).2 = files w.
Proof.
  unfold readSpeakersCached, bind, get_vars, ret.
  pose proof (readCached_frame SPEAKERS_FILE (speakersCache (vars w))
                (speakersTimestamp (vars w)) w) as [Hv Hf].
  destruct (readCached _ _ _ w) as [[?| |] ?]; simpl in *; done.
Qed.

Lemma readContentCached_frame w :
  vars (readContentCached w).2 = vars w ∧ files (readContentCached w).2 = files w.
Proof.
  unfold readContentCached, bind, get_vars, ret.
  pose proof (readCached_frame CONTENT_FILE (contentCache (vars w))
                (contentTimestamp (vars w)) w) as [Hv Hf].
  destruct (readCached _ _ _ w) as [[?| |] ?]; simpl in *; done.
Qed.

Lemma run_get_frame g w :
  vars (run_get g w).2 = vars w ∧ files (run_get g w).2 = files w.
Proof.
  destruct g; simpl; unfold GET_speakers, GET_speaker, GET_content, bind, ret.
  - pose proof (readSpeakersCached_frame w) as [??].
    destruct (readSpeakersCached w) as [[?| |] ?]; simpl in *; done.
  - pose proof (readSpeakersCached_frame w) as [??].
    destruct (readSpeakersCached w) as [[?| |] ?]; simpl in *; [|done..].
    case_match; done.
  - pose proof (readContentCached_frame w) as [??].
    destruct (readContentCached w) as [[?| |] ?]; simpl in *; done.
Qed.

Lemma run_gets_frame gs w :
  vars (run_gets gs w).2 = vars w ∧ files (run_gets gs w).2 = files w.
Proof.
  revert w. induction gs as [|g gs IH]; intros w; simpl; [done|].
  unfold bind. pose proof (run_get_frame g w) as [Hv Hf].
  destruct (run_get g w) as [[r| |] w1]; simpl in *; [|done..].
  specialize (IH w1) as [Hv1 Hf1]. unfold ret.
  destruct (run_gets gs w1) as [[rs| |] w2]; simpl in *; split; congruence.
Qed.

Lemma readSpeakersCached_null w f d :
  speakersCache (vars w) = None →
  speakers_json (files w) = Some f → data f = Some d →
  ∃ w', readSpeakersCached w = (Ok d, w')
        ∧ io (env w') = reload_logged SPEAKERS_FILE (io (env w)).
Proof.
  intros Hc Hf Hd. unfold readSpeakersCached, bind, get_vars, ret. rewrite Hc.
  destruct (readCached_reload SPEAKERS_FILE None (speakersTimestamp (vars w)) w f d)
    as (w' & -> & Hio); eauto.
Qed.

Lemma readContentCached_null w f d :
  contentCache (vars w) = None →
  content_json (files w) = Some f → data f = Some d →
  ∃ w', readContentCached w = (Ok d, w')
        ∧ io (env w') = reload_logged CONTENT_FILE (io (env w)).
Proof.
  intros Hc Hf Hd. unfold readContentCached, bind, get_vars, ret. rewrite Hc.
  destruct (readCached_reload CONTENT_FILE None (contentTimestamp (vars w)) w f d)
    as (w' & -> & Hio); eauto.
Qed.

(** C9.  A cached read leaves the four module-level cache variables as they
    were: the refresh [readCached] performs lands in wrapper objects that are
    dropped; so does any sequence of read requests.  The two write helpers
    are what sets the variables.  Hence, as long as a cache variable is
    still [null], every read, after any number of earlier reads, goes to
    the file again. *)
Theorem cached_reads_never_store_the_refresh (w : World) :
  vars (readSpeakersCached w).2 = vars w
  ∧ vars (readContentCached w).2 = vars w
  ∧ (∀ d, vars (writeSpeakersCached d w).2 =
          {| speakersCache := Some d;
             speakersTimestamp := now (env w) (tick (env w));
             contentCache := contentCache (vars w);
             contentTimestamp := contentTimestamp (vars w) |})
  ∧ (∀ d, vars (writeContentCached d w).2 =
          {| speakersCache := speakersCache (vars w);
             speakersTimestamp := speakersTimestamp (vars w);
             contentCache := Some d;
             contentTimestamp := now (env w) (tick (env w)) |})
  ∧ (∀ gs, vars (run_gets gs w).2 = vars w)
  ∧ (∀ gs f d,
        speakersCache (vars w) = None →
        speakers_json (files w) = Some f → data f = Some d →
        let w1 := (run_gets gs w).2 in
        ∃ w2, readSpeakersCached w1 = (Ok d, w2)
              ∧ io (env w2) = reload_logged SPEAKERS_FILE (io (env w1)))
  ∧ (∀ gs f d,
        contentCache (vars w) = None →
        content_json (files w) = Some f → data f = Some d →
        let w1 := (run_gets gs w).2 in
        ∃ w2, readContentCached w1 = (Ok d, w2)
              ∧ io (env w2) = reload_logged CONTENT_FILE (io (env w1))).
Proof.
  split; [apply readSpeakersCached_frame|].
  split; [apply readContentCached_frame|].
  split; [reflexivity|]. split; [reflexivity|].
  split; [intros gs; apply run_gets_frame|].
  split; intros gs f d Hc Hf Hd w1; subst w1;
    destruct (run_gets_frame gs w) as [Hv Hfs].
  - apply readSpeakersCached_null with f; congruence.
  - apply readContentCached_null with f; congruence.
Qed.

Lemma cached_reads_never_store_the_refresh_witness :
  let gs := [GetSpeakers; GetContent; GetSpeaker "1"] in
  speakersCache (vars fresh_server) = None
  ∧ speakers_json (files fresh_server) = Some (File (Some []) 1000)
  ∧ ∃ w2, readSpeakersCached (run_gets gs fresh_server).2 = (Ok [], w2)
          ∧ io (env w2) = reload_logged SPEAKERS_FILE (io (env (run_gets gs fresh_server).2)).
Proof.
  intros gs. split; [reflexivity|]. split; [reflexivity|].
  destruct (cached_reads_never_store_the_refresh fresh_server) as (_ & _ & _ & _ & _ & Hs & _).
  apply (Hs gs (File (Some []) 1000) []); reflexivity.
Defined.

(** C3, at the input where it fails.  Right after start-up, two reads of the
    speakers follow each other within the TTL, the file untouched.  Both
    reload the file, and after them the cache is still empty and its
    time stamp still 0: the refresh is not kept. *)
Example read_does_not_reset_lastRefreshed :
  let r1 := readSpeakersCached fresh_server in
  let r2 := readSpeakersCached r1.2 in
  r1.1 = Ok []
  ∧ io (env r1.2) = reload_logged SPEAKERS_FILE (io (env fresh_server))
  ∧ vars r1.2 = initial_vars
  ∧ r2.1 = Ok []
  ∧ io (env r2.2) = reload_logged SPEAKERS_FILE (io (env r1.2))
  ∧ speakersCache (vars r2.2) = None
  ∧ speakersTimestamp (vars r2.2) = 0.
Proof. vm_compute. repeat split; reflexivity. Qed.

(** ** Cache and file in agreement *)

Lemma readCached_coherent {A} `{ToBoolean A} (p : path A) c ts w d :
  coherent p (files w) c d →
  ∃ r w', readCached p c ts w = (Ok (d, r), w').
Proof.
  intros (f & Hf & Hd & Hc). run. rewrite Hf. wsimpl.
  destruct Hc as [-> | ->].
  - simpl. rewrite Hf, Hd. eauto.
  - destruct (negb (truthy (Some d)) || (mtimeMs f >? ts)); wsimpl.
    + rewrite Hf, Hd. eauto.
    + destruct (_ >? CACHE_TTL); wsimpl; [rewrite Hf, Hd|]; eauto.
Qed.

Lemma readSpeakersCached_coherent w l :
  coherent SPEAKERS_FILE (files w) (speakersCache (vars w)) l →
  ∃ w', readSpeakersCached w = (Ok l, w') ∧ vars w' = vars w ∧ files w' = files w.
Proof.
  intros Hc. pose proof (readSpeakersCached_frame w) as [Hv Hf].
  unfold readSpeakersCached, bind, get_vars, ret in *.
  destruct (readCached_coherent SPEAKERS_FILE _ (speakersTimestamp (vars w)) w l Hc)
    as (r & w' & Hr).
  rewrite Hr in *. simpl in *. eauto.
Qed.


(** A write leaves cache and file in agreement on what was written. *)
Lemma writeSpeakersCached_run d w :
  ∃ w', writeSpeakersCached d w = (Ok (), w')
        ∧ coherent SPEAKERS_FILE (files w') (speakersCache (vars w')) d
        ∧ speakersCache (vars w') = Some d
        ∧ (data <$> speakers_json (files w')) = Some (Some d)
        ∧ content_json (files w') = content_json (files w)
        ∧ users_json (files w') = users_json (files w)
        ∧ contentCache (vars w') = contentCache (vars w)
        ∧ contentTimestamp (vars w') = contentTimestamp (vars w).
Proof.
  eexists. split; [reflexivity|]. simpl. repeat split.
  eexists. split; [reflexivity|]. simpl. auto.
Qed.


(** ** Running the monad *)

Lemma bind_ok {A B} (m : M A) (k : A → M B) w a w1 :
  m w = (Ok a, w1) → bind m k w = k a w1.
Proof. unfold bind. by intros ->. Qed.

(** ** Content *)







Example scalar_document_replaces_nothing :
  let r := replace_content admin (VStr "hello") fresh_server in
  r.1 = Throw "entity.parse.failed"
  ∧ files r.2 = files fresh_server ∧ vars r.2 = vars fresh_server
  ∧ (GET_content r.2).1 = Ok (ok_response (VObj {[ "en" := VObj ∅; "fr" := VObj ∅ ]})).
Proof. vm_compute. repeat split; reflexivity. Qed.

(** Nor is an integer that no double holds returned as it was sent. *)
Example content_number_is_rounded :
  let sent := VObj {[ "year" := VNum 9007199254740993 ]} in
  (GET_content (replace_content admin sent fresh_server).2).1
  = Ok (ok_response (VObj {[ "year" := VNum 9007199254740992 ]})).
Proof. vm_compute. reflexivity. Qed.

(** ** Speakers: lookup by id *)

Lemma has_id_NaN r : has_id NaN r = false.
Proof. unfold has_id, strict_eq_number. by repeat case_match. Qed.

Lemma has_id_Int n r : has_id (Int n) r = true ↔ r !! "id" = Some (VNum n).
Proof.
  unfold has_id, strict_eq_number. split.
  - repeat case_match; try done. intros ?%bool_decide_eq_true. by subst.
  - intros ->. by apply bool_decide_eq_true.
Qed.

Lemma has_id_lookup n r : has_id n r = true → ∃ k, n = Int k ∧ r !! "id" = Some (VNum k).
Proof.
  destruct n as [k| |s]; [|by rewrite has_id_NaN|].
  - intros ?%has_id_Int. eauto.
  - unfold has_id, strict_eq_number. by repeat case_match.
Qed.

Lemma find_none {A} (p : A → bool) l : (∀ x, x ∈ l → p x = false) → List.find p l = None.
Proof.
  induction l as [|x l IH]; intros Hl; simpl; [done|].
  rewrite (Hl x) by left. apply IH. intros y Hy. apply Hl. by right.
Qed.

Lemma filter_all {A} (p : A → bool) l : (∀ x, x ∈ l → p x = true) → List.filter p l = l.
Proof.
  induction l as [|x l IH]; intros Hl; simpl; [done|].
  rewrite (Hl x) by left. f_equal. apply IH. intros y Hy. apply Hl. by right.
Qed.

Lemma findIndex_none {A} (p : A → bool) l :
  (∀ x, x ∈ l → p x = false) → findIndex p l = None.
Proof.
  intros Hl. unfold findIndex.
  assert (list_find (λ x, p x = true) l = None) as ->; [|done].
  apply list_find_None, Forall_forall. intros x Hx. rewrite (Hl x Hx). done.
Qed.

Lemma findIndex_first {A} (p : A → bool) l i x :
  l !! i = Some x → p x = true →
  (∀ j y, (j < i)%nat → l !! j = Some y → p y = false) →
  findIndex p l = Some i.
Proof.
  intros Hi Hx Hfirst. unfold findIndex.
  assert (list_find (λ x, p x = true) l = Some (i, x)) as ->; [|done].
  apply list_find_Some. split_and!; [done..|].
  intros j y Hj Hlt. rewrite (Hfirst j y Hlt Hj). done.
Qed.

(** ** Speakers: update *)

Lemma PUT_speaker_not_found id req w l w1 :
  isAuthenticated (session req) = true →
  readSpeakersCached w = (Ok l, w1) →
  (∀ r, r ∈ l → has_id (parseInt id) r = false) →
  PUT_speaker id req w = (Ok (error_response 404 "Speaker not found"), w1).
Proof.
  intros Hauth Hread Hnone. unfold PUT_speaker, requireAuth. rewrite Hauth.
  by rewrite (bind_ok _ _ _ _ _ Hread), (findIndex_none (has_id (parseInt id)) l Hnone).
Qed.

(** C7.  A logged-in [PUT /api/speakers/:id] on the collection [l].  When
    [r], at index [i], is the first record whose id is the parsed [:id], the
    answer is 200 with a record that has the id of [r], takes every other
    field from the body where the body has it and from [r] where it has
    not, and replaces [r] at index [i] in both the cache and the file, the
    other records staying as they are.  When no record has that id the
    answer is 404 and nothing is written. *)
Theorem update_merges_and_keeps_id (id : string) (req : Request) (w w1 : World)
    (l : list obj) :
  isAuthenticated (session req) = true →
  readSpeakersCached w = (Ok l, w1) →
  (∀ i r,
      l !! i = Some r → has_id (parseInt id) r = true →
      (∀ j r0, (j < i)%nat → l !! j = Some r0 → has_id (parseInt id) r0 = false) →
      ∃ r' w2,
        PUT_speaker id req w = (Ok (ok_response (VObj r')), w2)
        ∧ r' !! "id" = r !! "id"
        ∧ (∀ k, k ≠ "id" →
             r' !! k = match spread (body req) !! k with
                       | Some v => Some v
                       | None => r !! k
                       end)
        ∧ speakersCache (vars w2) = Some (<[i := r']> l)
        ∧ (data <$> speakers_json (files w2)) = Some (Some (<[i := r']> l)))
  ∧ ((∀ r, r ∈ l → has_id (parseInt id) r = false) →
      PUT_speaker id req w = (Ok (error_response 404 "Speaker not found"), w1)
      ∧ vars w1 = vars w ∧ files w1 = files w).
Proof.
  intros Hauth Hread. split.
  - intros i r Hi Hid Hfirst. unfold PUT_speaker, requireAuth. rewrite Hauth.
    rewrite (bind_ok _ _ _ _ _ Hread).
    rewrite (findIndex_first _ l i r Hi Hid Hfirst). rewrite Hi.
    change (default ∅ (Some r)) with r.
    destruct (has_id_lookup _ _ Hid) as (n & _ & Hn). rewrite Hn. cbn [set_prop].
    set (r' := <["id" := VNum n]> (spread (body req) ∪ r)).
    unfold bind at 1.
    destruct (writeSpeakersCached_run (<[i := r']> l) w1) as (w2 & -> & _ & Hc & Hf & _).
    assert (<[i := r']> l !! i = Some r') as ->.
    { apply list_lookup_insert_eq. by eapply lookup_lt_Some. }
    exists r', w2. split_and!; [done| |  |done..].
    + subst r'. by rewrite lookup_insert_eq.
    + intros k Hk. subst r'. rewrite lookup_insert_ne by done.
      rewrite lookup_union. destruct (spread (body req) !! k), (r !! k); done.
  - intros Hnone. rewrite (PUT_speaker_not_found id req w l w1 Hauth Hread Hnone).
    pose proof (readSpeakersCached_frame w) as [??]. rewrite Hread in *. done.
Qed.

Lemma update_merges_and_keeps_id_witness :
  let w := serving [ada] in
  let req := request (BObject {[ "id" := VNum 99; "name" := VStr "Grace" ]}) in
  isAuthenticated (session req) = true
  ∧ readSpeakersCached w = (Ok [ada], (readSpeakersCached w).2)
  ∧ ∃ r' w2,
      PUT_speaker "1" req w = (Ok (ok_response (VObj r')), w2)
      ∧ r' !! "id" = Some (VNum 1)
      ∧ r' !! "name" = Some (VStr "Grace")
      ∧ r' !! "bio" = Some (VStr "Analyst")
      ∧ speakersCache (vars w2) = Some [r'].
Proof.
  intros w req.
  assert (readSpeakersCached w = (Ok [ada], (readSpeakersCached w).2)) as Hread
    by (vm_compute; reflexivity).
  split_and!; [reflexivity|exact Hread|].
  destruct (update_merges_and_keeps_id "1" req w _ [ada] eq_refl Hread) as [Hfound _].
  destruct (Hfound 0%nat ada eq_refl eq_refl) as (r' & w2 & Hrun & Hid & Hrest & Hcache & _).
  { intros j r0 Hj. lia. }
  exists r', w2. split_and!; [exact Hrun|exact Hid| | |exact Hcache].
  - rewrite (Hrest "name") by discriminate. reflexivity.
  - rewrite (Hrest "bio") by discriminate. reflexivity.
Defined.

(** ** The [:id] segment *)

Example parseInt_signed : parseInt "+7" = Int 7 ∧ parseInt "-7" = Int (-7).
Proof. split; reflexivity. Qed.
Example parseInt_0x : parseInt "0x" = NaN ∧ parseInt "0x1F" = Int 31 ∧ parseInt "0" = Int 0.
Proof. repeat split; reflexivity. Qed.

Lemma is_digit_code c : is_digit c = true → (48 ≤ code c ≤ 57)%N.
Proof. unfold is_digit. intros [?%N.leb_le ?%N.leb_le]%andb_true_iff. lia. Qed.

Lemma code_inj c1 c2 : code c1 = code c2 → c1 = c2.
Proof. unfold code. intros E. by rewrite <- (ascii_N_embedding c1), <- (ascii_N_embedding c2), E. Qed.

Lemma digit_ne c (k : ascii) : is_digit c = true → (code k < 48 ∨ 57 < code k)%N → Ascii.eqb c k = false.
Proof.
  intros Hd%is_digit_code Hk. apply Ascii.eqb_neq. intros ->. lia.
Qed.

Lemma trim_start_plain c s :
  (code c < 128)%N → white1 c = false → trim_start (String c s) = String c s.
Proof.
  intros Hc Hw. simpl. rewrite Hw.
  assert (∀ c2, white2 c c2 = false) as H2.
  { intros c2. unfold white2. destruct (N.eqb_spec (code c) 194); [lia|done]. }
  assert (∀ c2 c3, white3 c c2 c3 = false) as H3.
  { intros c2 c3. unfold white3. cbv zeta.
    destruct (N.eqb_spec (code c) 225); [lia|].
    destruct (N.eqb_spec (code c) 226); [lia|].
    destruct (N.eqb_spec (code c) 227); [lia|].
    destruct (N.eqb_spec (code c) 239); [lia|]. reflexivity. }
  destruct s as [|c2 [|c3 s]]; rewrite ?H2, ?H3; reflexivity.
Qed.

Lemma trim_start_digit c s : is_digit c = true → trim_start (String c s) = String c s.
Proof.
  intros Hd%is_digit_code. apply trim_start_plain; [lia|].
  unfold white1. cbv zeta.
  destruct (N.leb_spec 9 (code c)), (N.leb_spec (code c) 13), (N.eqb_spec (code c) 32);
    simpl; try reflexivity; lia.
Qed.

Lemma radix_digit_10 c :
  radix_digit 10 c = if is_digit c then Some (Z.of_N (code c) - 48) else None.
Proof.
  unfold radix_digit, digit_value, is_digit. cbv zeta.
  pose proof (N2Z.is_nonneg (code c)).
  destruct (N.leb_spec 48 (code c)), (N.leb_spec (code c) 57); simpl.
  all: repeat (match goal with
               | |- context [(?a <=? ?b)%Z] => destruct (Z.leb_spec a b); simpl
               | |- context [(?a <? ?b)%Z] => destruct (Z.ltb_spec a b); simpl
               end); try reflexivity; lia.
Qed.

Lemma parse_digits_decimal ds rest acc :
  all_digits ds = true → starts_with_digit rest = false → ds ≠ "" →
  parse_digits 10 (ds +:+ rest) acc = Some (decimal_from (default 0 acc) ds).
Proof.
  revert acc. induction ds as [|c ds IH]; intros acc Hds Hrest Hne; [done|].
  simpl in Hds. apply andb_true_iff in Hds as [Hc Hds].
  simpl. rewrite radix_digit_10, Hc.
  destruct ds as [|c' ds'].
  - simpl. destruct rest as [|c2 rest]; [done|].
    simpl in *. by rewrite radix_digit_10, Hrest.
  - rewrite IH by done. done.
Qed.

Lemma parseInt_decimal ds rest :
  ds ≠ "" → all_digits ds = true → starts_with_digit rest = false →
  hex_prefixed (ds +:+ rest) = false →
  parseInt (ds +:+ rest) = to_double (decimal_value ds).
Proof.
  intros Hne Hds Hrest Hhex. destruct ds as [|c ds]; [done|].
  pose proof Hds as Hds'. simpl in Hds'. apply andb_true_iff in Hds' as [Hc _].
  unfold parseInt. change (String c ds +:+ rest) with (String c (ds +:+ rest)) in *.
  rewrite trim_start_digit by done. unfold strip_sign.
  rewrite !(digit_ne c) by (done || (left; reflexivity)).
  assert (strip_prefix (String c (ds +:+ rest)) = (10, String c (ds +:+ rest))) as ->.
  { unfold strip_prefix. destruct (ds +:+ rest); [done|]. by rewrite Hhex. }
  change (String c (ds +:+ rest)) with (String c ds +:+ rest).
  rewrite parse_digits_decimal by done. unfold decimal_value. simpl default.
  f_equal. lia.
Qed.

Lemma all_digits_not_hex ds : all_digits ds = true → hex_prefixed ds = false.
Proof.
  destruct ds as [|c1 [|c2 ds]]; [done..|]. simpl.
  intros [_ [H2 _]%andb_true_iff]%andb_true_iff.
  rewrite !(digit_ne c2) by (done || (right; reflexivity)).
  by rewrite andb_false_r.
Qed.

Lemma append_empty_r s : s +:+ "" = s.
Proof.
  induction s as [|c s IH]; [done|].
  change (String c s +:+ "") with (String c (s +:+ "")). by rewrite IH.
Qed.

Lemma parseInt_digits ds :
  ds ≠ "" → all_digits ds = true → parseInt ds = to_double (decimal_value ds).
Proof.
  intros Hne Hds. rewrite <- (parseInt_decimal ds "") by
    (try done; rewrite append_empty_r; by apply all_digits_not_hex).
  by rewrite append_empty_r.
Qed.

(** A segment whose first character is plain ASCII and neither white
    space, nor a sign, nor a decimal digit holds no integer for [parseInt]. *)
Lemma parseInt_no_integer c s :
  (code c < 128)%N → white1 c = false →
  Ascii.eqb c "-" = false → Ascii.eqb c "+" = false → is_digit c = false →
  parseInt (String c s) = NaN.
Proof.
  intros Hc Hw Hminus Hplus Hd. unfold parseInt.
  rewrite trim_start_plain by done. unfold strip_sign. rewrite Hminus, Hplus.
  assert (strip_prefix (String c s) = (10, String c s)) as ->.
  { unfold strip_prefix, hex_prefixed. destruct s as [|c2 s]; [done|].
    destruct (Ascii.eqb_spec c "0") as [->|]; [done|done]. }
  simpl. by rewrite radix_digit_10, Hd.
Qed.

Lemma GET_speaker_run id w l w1 :
  readSpeakersCached w = (Ok l, w1) →
  GET_speaker id w =
    (Ok match List.find (has_id (parseInt id)) l with
        | Some s => ok_response (VObj s)
        | None => error_response 404 "Speaker not found"
        end, w1).
Proof.
  intros Hread. unfold GET_speaker. rewrite (bind_ok _ _ _ _ _ Hread).
  by destruct (List.find _ l).
Qed.

Lemma DELETE_speaker_not_found id req w l w1 :
  isAuthenticated (session req) = true →
  readSpeakersCached w = (Ok l, w1) →
  (∀ r, r ∈ l → has_id (parseInt id) r = false) →
  DELETE_speaker id req w = (Ok (error_response 404 "Not found"), w1).
Proof.
  intros Hauth Hread Hnone. unfold DELETE_speaker, requireAuth. rewrite Hauth.
  rewrite (bind_ok _ _ _ _ _ Hread). cbv zeta.
  rewrite filter_all; [by rewrite Nat.eqb_refl|].
  intros r Hr. by rewrite (Hnone r Hr).
Qed.

Lemma decimal_from_nonneg acc ds : all_digits ds = true → 0 ≤ acc → 0 ≤ decimal_from acc ds.
Proof.
  revert acc. induction ds as [|c ds IH]; intros acc Hds Hacc; [done|].
  simpl in *. apply andb_true_iff in Hds as [Hc%is_digit_code Hds].
  apply IH; [done|lia].
Qed.

Lemma parseInt_safe_decimal ds rest :
  ds ≠ "" → all_digits ds = true → starts_with_digit rest = false →
  hex_prefixed (ds +:+ rest) = false →
  decimal_value ds ≤ MAX_SAFE_INTEGER →
  parseInt (ds +:+ rest) = Int (decimal_value ds).
Proof.
  intros Hne Hds Hrest Hhex Hsafe. rewrite parseInt_decimal by done.
  apply to_double_safe. split; [|done].
  pose proof (decimal_from_nonneg 0 ds Hds ltac:(done)). unfold decimal_value, MAX_SAFE_INTEGER. lia.
Qed.

(** C10, amended.  The [:id] segment goes through [parseInt].  When
    [parseInt] finds no integer in it, as in the empty segment or in one
    that starts with a plain character other than white space, a sign or a
    digit, the get, update and delete handlers answer 404.  A segment made
    of decimal digits followed by something that does not start with a
    digit, and that does not start with [0x] or [0X], is read as the digits
    alone: the three handlers behave as they do on the digits.  When the
    digits denote a safe integer, at most 2^53 - 1, the segment is read as
    that integer and the get handler answers with the first speaker whose
    id it is. *)
Theorem id_segment_goes_through_parseInt :
  (parseInt "" = NaN
   ∧ ∀ c s, (code c < 128)%N → white1 c = false →
            Ascii.eqb c "-" = false → Ascii.eqb c "+" = false → is_digit c = false →
            parseInt (String c s) = NaN)
  ∧ (∀ seg req w l w1,
      isAuthenticated (session req) = true →
      readSpeakersCached w = (Ok l, w1) →
      parseInt seg = NaN →
      GET_speaker seg w = (Ok (error_response 404 "Speaker not found"), w1)
      ∧ PUT_speaker seg req w = (Ok (error_response 404 "Speaker not found"), w1)
      ∧ DELETE_speaker seg req w = (Ok (error_response 404 "Not found"), w1))
  ∧ (∀ ds rest,
      ds ≠ "" → all_digits ds = true → starts_with_digit rest = false →
      hex_prefixed (ds +:+ rest) = false →
      parseInt (ds +:+ rest) = parseInt ds
      ∧ (∀ req w,
           GET_speaker (ds +:+ rest) w = GET_speaker ds w
           ∧ PUT_speaker (ds +:+ rest) req w = PUT_speaker ds req w
           ∧ DELETE_speaker (ds +:+ rest) req w = DELETE_speaker ds req w)
      ∧ (decimal_value ds ≤ MAX_SAFE_INTEGER →
           parseInt (ds +:+ rest) = Int (decimal_value ds)
           ∧ ∀ w l w1 s,
               readSpeakersCached w = (Ok l, w1) →
               List.find (has_id (Int (decimal_value ds))) l = Some s →
               GET_speaker (ds +:+ rest) w = (Ok (ok_response (VObj s)), w1))).
Proof.
  split; [split; [reflexivity|apply parseInt_no_integer]|].
  split.
  - intros seg req w l w1 Hauth Hread Hnan.
    assert (∀ r, r ∈ l → has_id (parseInt seg) r = false) as Hnone.
    { intros r _. rewrite Hnan. apply has_id_NaN. }
    split_and!.
    + rewrite (GET_speaker_run _ _ _ _ Hread), find_none; done.
    + by apply PUT_speaker_not_found with l.
    + by apply DELETE_speaker_not_found with l.
  - intros ds rest Hne Hds Hrest Hhex.
    pose proof (parseInt_decimal ds rest Hne Hds Hrest Hhex) as Hp.
    pose proof (parseInt_digits ds Hne Hds) as Hp'.
    split; [by rewrite Hp, Hp'|]. split.
    + intros req w. unfold GET_speaker, PUT_speaker, DELETE_speaker.
      by rewrite Hp, Hp'.
    + intros Hsafe.
      pose proof (parseInt_safe_decimal ds rest Hne Hds Hrest Hhex Hsafe) as Hint.
      split; [done|]. intros w l w1 s Hread Hfind.
      by rewrite (GET_speaker_run _ _ _ _ Hread), Hint, Hfind.
Qed.

Lemma id_segment_goes_through_parseInt_witness :
  (isAuthenticated (session (request (BObject ∅))) = true
   ∧ readSpeakersCached (serving [ada]) = (Ok [ada], (readSpeakersCached (serving [ada])).2)
   ∧ parseInt "abc" = NaN
   ∧ GET_speaker "abc" (serving [ada])
     = (Ok (error_response 404 "Speaker not found"), (readSpeakersCached (serving [ada])).2))
  ∧ (all_digits "1" = true ∧ starts_with_digit "abc" = false
     ∧ hex_prefixed "1abc" = false
     ∧ decimal_value "1" ≤ MAX_SAFE_INTEGER
     ∧ GET_speaker "1abc" (serving [ada])
       = (Ok (ok_response (VObj ada)), (readSpeakersCached (serving [ada])).2)).
Proof.
  pose proof id_segment_goes_through_parseInt as (_ & HA & HB).
  assert (readSpeakersCached (serving [ada])
          = (Ok [ada], (readSpeakersCached (serving [ada])).2)) as Hread
    by (vm_compute; reflexivity).
  split.
  - split_and!; [reflexivity|exact Hread|reflexivity|].
    apply (HA "abc" (request (BObject ∅)) _ [ada] _); [reflexivity|exact Hread|reflexivity].
  - assert (decimal_value "1" ≤ MAX_SAFE_INTEGER) as Hsafe by (vm_compute; discriminate).
    split_and!; [reflexivity..|exact Hsafe|].
    destruct (HB "1" "abc") as (_ & _ & Hget); [done|reflexivity..|].
    destruct (Hget Hsafe) as [_ Hfound].
    apply (Hfound _ [ada] _ ada Hread). vm_compute. reflexivity.
Defined.

(** Digits beyond the safe integers are read as the nearest double:
    [9007199254740993] finds the speaker whose id is 2^53. *)
Example unsafe_segment_lookup :
  let big : obj := {[ "id" := VNum 9007199254740992; "name" := VStr "Grace" ]} in
  parseInt "9007199254740993" = Int 9007199254740992
  ∧ (GET_speaker "9007199254740993" (serving [big])).1 = Ok (ok_response (VObj big)).
Proof. vm_compute. split; reflexivity. Qed.

(** A segment that starts with [0x] is read in base 16: [0x10] finds the
    speaker with id 16, and [0x] finds none. *)
Example hex_segment_lookup :
  let w := serving [ {[ "id" := VNum 16; "name" := VStr "Grace" ]} ] in
  (GET_speaker "0x10" w).1
    = Ok (ok_response (VObj {[ "id" := VNum 16; "name" := VStr "Grace" ]}))
  ∧ (GET_speaker "0x" w).1 = Ok (error_response 404 "Speaker not found").
Proof. vm_compute. split; reflexivity. Qed.

(** C10 as worded does not hold: [0x] has the digit [0] followed by a
    character that is no digit, yet it is not looked up as [0] is. *)
Lemma trailing_characters_not_always_ignored : ¬ trailing_characters_ignored.
Proof.
  intros Hclaim.
  specialize (Hclaim "0" "x" (serving [ {[ "id" := VNum 0 ]} ])).
  vm_compute in Hclaim. specialize (Hclaim ltac:(discriminate) eq_refl ltac:(discriminate) eq_refl).
  discriminate Hclaim.
Qed.

(** ** Speakers: creation and deletion *)

(** The handlers leave the engine's limit alone. *)
Lemma limit_readSpeakersCached w : arguments_limit (readSpeakersCached w).2 = arguments_limit w.
Proof. unfold arguments_limit. run. repeat case_match; simplify_eq/=; done. Qed.

Lemma limit_writeSpeakersCached d w :
  arguments_limit (writeSpeakersCached d w).2 = arguments_limit w.
Proof. reflexivity. Qed.

Lemma spread_call_ok {A} (xs : list A) w :
  (N.of_nat (length xs) ≤ arguments_limit w)%N → spread_call xs w = (Ok (), w).
Proof. intros Hn. unfold spread_call. by destruct (N.ltb_spec (arguments_limit w) (N.of_nat (length xs))); [lia|]. Qed.

Lemma POST_speakers_run req w l w1 n :
  isAuthenticated (session req) = true →
  readSpeakersCached w = (Ok l, w1) →
  (N.of_nat (length l) ≤ arguments_limit w)%N →
  next_id l = Some (Int n) →
  let r := spread (body req) ∪ {[ "id" := VNum n ]} in
  ∃ w2, POST_speakers req w = (Ok {| status := 201; json := VObj r |}, w2)
        ∧ coherent SPEAKERS_FILE (files w2) (speakersCache (vars w2)) (l ++ [r])%list
        ∧ speakersCache (vars w2) = Some (l ++ [r])%list
        ∧ (data <$> speakers_json (files w2)) = Some (Some (l ++ [r])%list)
        ∧ arguments_limit w2 = arguments_limit w.
Proof.
  intros Hauth Hread Hroom Hnext r. unfold POST_speakers, requireAuth. rewrite Hauth.
  pose proof (limit_readSpeakersCached w) as Hlimit. rewrite Hread in Hlimit. simpl in Hlimit.
  rewrite (bind_ok _ _ _ _ _ Hread).
  rewrite (bind_ok _ _ _ _ _ (spread_call_ok ((.!! "id") <$> l) w1
             ltac:(by rewrite length_fmap, Hlimit))).
  rewrite Hnext. cbn [mbind option_bind number_value].
  cbv zeta. fold r. unfold bind at 1.
  pose proof (limit_writeSpeakersCached (l ++ [r])%list w1) as Hlimit'.
  destruct (writeSpeakersCached_run (l ++ [r])%list w1) as (w2 & Hw & Hc & Hv & Hf & _).
  rewrite Hw in Hlimit' |- *. exists w2. split_and!; [done..|]. simpl in Hlimit'. congruence.
Qed.

(** With more records than the engine has room for as arguments, a
    creation throws and answers nothing. *)
Lemma POST_speakers_too_many req w l w1 :
  isAuthenticated (session req) = true →
  readSpeakersCached w = (Ok l, w1) →
  (arguments_limit w < N.of_nat (length l))%N →
  POST_speakers req w = (Throw "RangeError", w1).
Proof.
  intros Hauth Hread Hmany. unfold POST_speakers, requireAuth. rewrite Hauth.
  pose proof (limit_readSpeakersCached w) as Hlimit. rewrite Hread in Hlimit. simpl in Hlimit.
  rewrite (bind_ok _ _ _ _ _ Hread). unfold bind, spread_call.
  rewrite length_fmap, Hlimit.
  by destruct (N.ltb_spec (arguments_limit w) (N.of_nat (length l))); [|lia].
Qed.

Lemma DELETE_speaker_run id req w l w1 :
  isAuthenticated (session req) = true →
  readSpeakersCached w = (Ok l, w1) →
  let filtered := List.filter (λ s, negb (has_id (parseInt id) s)) l in
  if (length filtered =? length l)%nat
  then DELETE_speaker id req w = (Ok (error_response 404 "Not found"), w1)
  else ∃ w2, DELETE_speaker id req w
               = (Ok (ok_response (VObj {[ "message" := VStr "Deleted" ]})), w2)
             ∧ coherent SPEAKERS_FILE (files w2) (speakersCache (vars w2)) filtered
             ∧ arguments_limit w2 = arguments_limit w1.
Proof.
  intros Hauth Hread filtered. unfold DELETE_speaker, requireAuth. rewrite Hauth.
  rewrite (bind_ok _ _ _ _ _ Hread). cbv zeta. fold filtered.
  destruct (_ =? _)%nat; [done|]. unfold bind at 1.
  pose proof (limit_writeSpeakersCached filtered w1) as Hlimit.
  destruct (writeSpeakersCached_run filtered w1) as (w2 & Hw & Hc & _).
  rewrite Hw in Hlimit |- *. exists w2. done.
Qed.

(** C1, at an input where it fails.  On the empty collection the rule
    assigns 1, but a body that names id 42 gets a record with id 42, stored
    and returned. *)
Example create_keeps_caller_id :
  let sent : obj := {[ "id" := VNum 42; "name" := VStr "Ada" ]} in
  let r := POST_speakers (request (BObject sent)) fresh_server in
  next_id [] = Some (Int 1)
  ∧ r.1 = Ok {| status := 201; json := VObj sent |}
  ∧ speakersCache (vars r.2) = Some [sent]
  ∧ (data <$> speakers_json (files r.2)) = Some (Some [sent]).
Proof. vm_compute. repeat split; reflexivity. Qed.

(** It is so for every body that names an id. *)
Lemma POST_speakers_caller_id req w l w1 n v :
  isAuthenticated (session req) = true →
  readSpeakersCached w = (Ok l, w1) →
  (N.of_nat (length l) ≤ arguments_limit w)%N →
  next_id l = Some (Int n) →
  spread (body req) !! "id" = Some v →
  ∃ r w2, POST_speakers req w = (Ok {| status := 201; json := VObj r |}, w2)
          ∧ r !! "id" = Some v.
Proof.
  intros Hauth Hread Hroom Hnext Hv.
  destruct (POST_speakers_run req w l w1 n Hauth Hread Hroom Hnext) as (w2 & Hr & _).
  do 2 eexists. split; [exact Hr|].
  by rewrite lookup_union, Hv.
Qed.

(** *** The assignment rule *)

Lemma foldr_max_swap n m ns : Z.max n (foldr Z.max m ns) = Z.max m (foldr Z.max n ns).
Proof. induction ns as [|k ns IH]; simpl; lia. Qed.

Lemma foldr_max_ge n ns k : k ∈ n :: ns → k ≤ foldr Z.max n ns.
Proof.
  induction ns as [|m ns IH]; simpl.
  - intros Hk%list_elem_of_singleton. lia.
  - rewrite !elem_of_cons. intros [Hk|[Hk|Hk]]; [| lia |].
    + assert (k ≤ foldr Z.max n ns) by (apply IH; rewrite Hk; left). lia.
    + assert (k ≤ foldr Z.max n ns) by (apply IH; right; done). lia.
Qed.

Lemma Math_max_integers n ns :
  Math_max (Some (VNum n)) ((λ k, Some (VNum k)) <$> ns) = Some (Int (foldr Z.max n ns)).
Proof.
  revert n. induction ns as [|m ns IH]; intros n; [done|].
  cbn [fmap list_fmap Math_max ToNumber]. rewrite IH. cbn.
  by rewrite foldr_max_swap.
Qed.

Lemma integer_ids_lookup l :
  integer_ids l → (.!! "id") <$> l = (λ k, Some (VNum k)) <$> ids l.
Proof.
  unfold ids. induction 1 as [|r l [n Hn] _ IH]; [done|].
  cbn [fmap list_fmap omap list_omap]. rewrite Hn. cbn. f_equal; [|done].
  unfold id_of in Hn. by repeat case_match; simplify_eq.
Qed.

Lemma foldr_max_in n ns : foldr Z.max n ns ∈ n :: ns.
Proof.
  induction ns as [|m ns IH]; simpl; [by left|].
  destruct (Z.max_spec m (foldr Z.max n ns)) as [[_ ->]|[_ ->]].
  - apply elem_of_cons in IH as [->|IH]; [by left|]. by do 2 right.
  - right. by left.
Qed.

(** On safe integers with room for one more, the code's id is the rule's. *)
Lemma next_id_integer l :
  integer_ids l →
  Forall (λ n, - MAX_SAFE_INTEGER ≤ n ∧ n + 1 ≤ MAX_SAFE_INTEGER) (ids l) →
  next_id l = Some (Int (assigned_id l)).
Proof.
  intros Hl Hsafe. unfold next_id, assigned_id. rewrite (integer_ids_lookup l Hl).
  destruct (ids l) as [|n ns]; [done|].
  cbn [fmap list_fmap]. rewrite Math_max_integers. cbn [mbind option_bind number_add].
  rewrite to_double_safe; [done|].
  pose proof (foldr_max_in n ns) as Hin.
  rewrite Forall_forall in Hsafe. specialize (Hsafe _ Hin). lia.
Qed.

Lemma assigned_id_gt l n : n ∈ ids l → n < assigned_id l.
Proof.
  unfold assigned_id. destruct (ids l) as [|m ms]; [by intros ?%elem_of_nil|].
  intros Hn%foldr_max_ge. lia.
Qed.

Lemma ids_app l r n : id_of r = Some n → ids (l ++ [r])%list = (ids l ++ [n])%list.
Proof. intros Hr. unfold ids. rewrite omap_app. simpl. by rewrite Hr. Qed.

Lemma id_of_created (fields : obj) n :
  fields !! "id" = None → id_of (fields ∪ {[ "id" := VNum n ]}) = Some n.
Proof.
  intros Hf. unfold id_of. by rewrite lookup_union_r, lookup_singleton_eq.
Qed.

Lemma integer_ids_filter (f : obj → bool) l : integer_ids l → integer_ids (List.filter f l).
Proof.
  unfold integer_ids. induction 1 as [|r l Hr _ IH]; simpl; [done|].
  destruct (f r); [by constructor|done].
Qed.

Lemma ids_filter_subset (f : obj → bool) l n : n ∈ ids (List.filter f l) → n ∈ ids l.
Proof.
  unfold ids. rewrite !list_elem_of_omap. intros (r & Hr & Hn).
  exists r. split; [|done]. apply list_elem_of_In, List.filter_In in Hr as [Hr _].
  by apply list_elem_of_In.
Qed.

Lemma filter_length_le {A} (f : A → bool) l : (length (List.filter f l) ≤ length l)%nat.
Proof. induction l as [|x l IH]; simpl; [done|]. destruct (f x); simpl; lia. Qed.

(** *** Room for more creations *)

Lemma room_for_one k l w :
  room_for (S k) l w →
  Forall (λ n, - MAX_SAFE_INTEGER ≤ n ∧ n + 1 ≤ MAX_SAFE_INTEGER) (ids l)
  ∧ (N.of_nat (length l) ≤ arguments_limit w)%N.
Proof.
  intros (Hids & _ & Hlen). split; [|lia].
  eapply Forall_impl; [exact Hids|]. simpl. intros n. lia.
Qed.

Lemma assigned_id_bounds k l w :
  room_for (S k) l w →
  - MAX_SAFE_INTEGER ≤ assigned_id l ∧ assigned_id l + Z.of_nat k ≤ MAX_SAFE_INTEGER.
Proof.
  intros (Hids & Hk & _). unfold assigned_id.
  destruct (ids l) as [|n ns]; [unfold MAX_SAFE_INTEGER in *; lia|].
  pose proof (foldr_max_in n ns) as Hin.
  rewrite Forall_forall in Hids. specialize (Hids _ Hin). lia.
Qed.

Lemma room_for_created k l w w' r :
  room_for (S k) l w →
  ids (l ++ [r])%list = (ids l ++ [assigned_id l])%list →
  arguments_limit w' = arguments_limit w →
  room_for k (l ++ [r])%list w'.
Proof.
  intros Hroom Hids Hlimit. pose proof (assigned_id_bounds k l w Hroom) as Hnew.
  destruct Hroom as (Hl & Hk & Hlen). split_and!.
  - rewrite Hids. apply Forall_app. split.
    + eapply Forall_impl; [exact Hl|]. simpl. intros n. lia.
    + by constructor.
  - lia.
  - rewrite Hlimit, length_app. simpl. lia.
Qed.

Lemma room_for_filter k (f : obj → bool) l w w' :
  room_for k l w →
  arguments_limit w' = arguments_limit w →
  room_for k (List.filter f l) w'.
Proof.
  intros (Hl & Hk & Hlen) Hlimit. split_and!; [|done|].
  - rewrite Forall_forall in Hl |- *. intros n Hn. by apply Hl, (ids_filter_subset f).
  - rewrite Hlimit. pose proof (filter_length_le f l). lia.
Qed.

(** A creation that names no id, on a collection of records with integer
    ids that cache and file agree on, with room for it. *)
Lemma create_follows_rule s b w l k :
  isAuthenticated s = true →
  coherent SPEAKERS_FILE (files w) (speakersCache (vars w)) l →
  integer_ids l →
  room_for (S k) l w →
  spread b !! "id" = None →
  let r := spread b ∪ {[ "id" := VNum (assigned_id l) ]} in
  ∃ w', POST_speakers {| session := s; body := b |} w
          = (Ok {| status := 201; json := VObj r |}, w')
        ∧ coherent SPEAKERS_FILE (files w') (speakersCache (vars w')) (l ++ [r])%list
        ∧ integer_ids (l ++ [r])%list
        ∧ ids (l ++ [r])%list = (ids l ++ [assigned_id l])%list
        ∧ room_for k (l ++ [r])%list w'.
Proof.
  intros Hauth Hc Hl Hroom Hb r.
  destruct (room_for_one k l w Hroom) as [Hsafe Hlen].
  destruct (readSpeakersCached_coherent w l Hc) as (w1 & Hread & _).
  destruct (POST_speakers_run {| session := s; body := b |} w l w1 (assigned_id l)
              Hauth Hread Hlen (next_id_integer l Hl Hsafe))
    as (w' & Hrun & Hc' & _ & _ & Hlimit).
  pose proof (id_of_created (spread b) (assigned_id l) Hb) as Hid.
  pose proof (ids_app l r _ Hid) as Hids.
  exists w'. split_and!; [done..| |done|by apply (room_for_created k l w)].
  apply Forall_app. split; [done|]. constructor; [|constructor]. eexists. exact Hid.
Qed.

(** A deletion, on a collection that cache and file agree on. *)
Lemma delete_keeps_order s id w l k :
  isAuthenticated s = true →
  coherent SPEAKERS_FILE (files w) (speakersCache (vars w)) l →
  integer_ids l →
  room_for k l w →
  ∃ r w' l',
    DELETE_speaker id {| session := s; body := BObject ∅ |} w = (Ok r, w')
    ∧ coherent SPEAKERS_FILE (files w') (speakersCache (vars w')) l'
    ∧ integer_ids l' ∧ room_for k l' w'
    ∧ ∀ n, n ∈ ids l' → n ∈ ids l.
Proof.
  intros Hauth Hc Hl Hroom.
  destruct (readSpeakersCached_coherent w l Hc) as (w1 & Hread & Hv & Hf).
  pose proof (limit_readSpeakersCached w) as Hlimit. rewrite Hread in Hlimit. simpl in Hlimit.
  pose proof (DELETE_speaker_run id {| session := s; body := BObject ∅ |} w l w1
                Hauth Hread) as Hd. cbv zeta in Hd.
  destruct (_ =? _)%nat.
  - exists (error_response 404 "Not found"), w1, l. split_and!; [done| |done| |done].
    + by rewrite Hv, Hf.
    + destruct Hroom as (? & ? & ?). split_and!; [done..|]. by rewrite Hlimit.
  - destruct Hd as (w2 & Hrun & Hc2 & Hlimit2). do 3 eexists.
    split_and!; [exact Hrun|exact Hc2|by apply integer_ids_filter| |].
    + apply (room_for_filter k _ l w); [done|]. congruence.
    + apply ids_filter_subset.
Qed.

Lemma creations_cons_create b os : creations (Create b :: os) = S (creations os).
Proof. reflexivity. Qed.

Lemma creations_cons_delete id os : creations (Delete id :: os) = creations os.
Proof. reflexivity. Qed.

Lemma run_ops_invariant s os w l k :
  isAuthenticated s = true →
  coherent SPEAKERS_FILE (files w) (speakersCache (vars w)) l →
  integer_ids l →
  room_for (creations os + k) l w →
  Forall names_no_id os →
  ∃ rs w' l',
    run_ops s os w = (Ok rs, w')
    ∧ length rs = length os
    ∧ coherent SPEAKERS_FILE (files w') (speakersCache (vars w')) l'
    ∧ integer_ids l'
    ∧ room_for k l' w'.
Proof.
  intros Hauth Hc Hl Hroom Hos. revert w l Hc Hl Hroom.
  induction Hos as [|o os Ho _ IH]; intros w l Hc Hl Hroom.
  { exists [], w, l. done. }
  assert (∃ r w1 l1, run_op s o w = (Ok r, w1)
            ∧ coherent SPEAKERS_FILE (files w1) (speakersCache (vars w1)) l1
            ∧ integer_ids l1
            ∧ room_for (creations os + k) l1 w1) as (r & w1 & l1 & Hr & Hc1 & Hl1 & Hroom1).
  { destruct o as [b|id]; cbn [names_no_id run_op] in *.
    - rewrite creations_cons_create in Hroom.
      destruct (create_follows_rule s b w l _ Hauth Hc Hl Hroom Ho) as (w1 & ? & ? & ? & _ & ?).
      eauto 10.
    - rewrite creations_cons_delete in Hroom.
      destruct (delete_keeps_order s id w l _ Hauth Hc Hl Hroom)
        as (r & w1 & l1 & ? & ? & ? & ? & _).
      eauto 10. }
  destruct (IH w1 l1 Hc1 Hl1 Hroom1) as (rs & w' & l' & Hrs & Hlen & ? & ? & ?).
  exists (r :: rs), w', l'. split; [|simpl; split_and!; [congruence|done..]].
  cbn [run_ops]. rewrite (bind_ok _ _ _ _ _ Hr), (bind_ok _ _ _ _ _ Hrs). done.
Qed.

Lemma is_create_creations os : Forall is_create os → creations os = length os.
Proof.
  induction 1 as [|o os Ho _ IH]; [done|].
  destruct o; [|done]. rewrite creations_cons_create. simpl. by rewrite IH.
Qed.

Lemma creations_increase s os w l k :
  isAuthenticated s = true →
  coherent SPEAKERS_FILE (files w) (speakersCache (vars w)) l →
  integer_ids l →
  room_for (creations os + k) l w →
  Forall names_no_id os → Forall is_create os →
  ∃ rs w',
    run_ops s os w = (Ok rs, w')
    ∧ StronglySorted Z.lt (assigned_ids rs)
    ∧ Forall (λ a, ∀ n, n ∈ ids l → n < a) (assigned_ids rs).
Proof.
  intros Hauth Hc Hl Hroom Hos Hcr. revert w l Hc Hl Hroom Hcr.
  induction Hos as [|o os Ho _ IH]; intros w l Hc Hl Hroom Hcr.
  { exists [], w. split_and!; [done|constructor|constructor]. }
  apply Forall_cons in Hcr as [Hco Hcr]. destruct o as [b|]; [|done]. simpl in Ho.
  rewrite creations_cons_create in Hroom.
  destruct (create_follows_rule s b w l _ Hauth Hc Hl Hroom Ho)
    as (w1 & Hr & Hc1 & Hl1 & Hids & Hroom1).
  destruct (IH w1 _ Hc1 Hl1 Hroom1 Hcr) as (rs & w' & Hrs & Hsorted & Hgt).
  eexists (_ :: rs), w'. split.
  { cbn [run_ops run_op]. rewrite (bind_ok _ _ _ _ _ Hr), (bind_ok _ _ _ _ _ Hrs). done. }
  assert (assigned_ids ({| status := 201;
                           json := VObj (spread b ∪ {[ "id" := VNum (assigned_id l) ]}) |} :: rs)
          = assigned_id l :: assigned_ids rs) as ->.
  { unfold assigned_ids. cbn [omap list_omap status json]. 
    change (201 =? 201) with true. cbv iota. by rewrite id_of_created. }
  rewrite Hids in Hgt. split.
  - constructor; [done|]. eapply Forall_impl; [exact Hgt|].
    intros a Ha. apply Ha. apply elem_of_app. right. by left.
  - constructor.
    + intros n Hn. by apply assigned_id_gt.
    + eapply Forall_impl; [exact Hgt|]. intros a Ha n Hn. apply Ha, elem_of_app. by left.
Qed.

(** C2, amended.  Start from a collection of records whose ids are safe
    integers, that cache and file agree on, and run any sequence of
    creations (whose bodies name no id) and deletions for which there is
    room: the ids stay safe integers and the records stay within the number
    of arguments the engine accepts, one more creation included.  Every
    request is answered, and a creation made then is given the id
    [assigned_id]: 1 on the empty collection, the greatest id present plus
    one otherwise, which is greater than every id present.  Over a sequence
    of creations alone the ids handed out are strictly increasing, each
    greater than the ids present at the start. *)
Theorem create_assigns_max_plus_one (s : Session) (os : list op) (w : World)
    (l : list obj) :
  isAuthenticated s = true →
  coherent SPEAKERS_FILE (files w) (speakersCache (vars w)) l →
  integer_ids l →
  room_for (S (creations os)) l w →
  Forall names_no_id os →
  ∃ rs w' l',
    run_ops s os w = (Ok rs, w')
    ∧ length rs = length os
    ∧ coherent SPEAKERS_FILE (files w') (speakersCache (vars w')) l'
    ∧ integer_ids l'
    ∧ (∀ b, spread b !! "id" = None →
         let r := spread b ∪ {[ "id" := VNum (assigned_id l') ]} in
         ∃ w'', POST_speakers {| session := s; body := b |} w'
                  = (Ok {| status := 201; json := VObj r |}, w'')
                ∧ speakersCache (vars w'') = Some (l' ++ [r])%list
                ∧ (data <$> speakers_json (files w'')) = Some (Some (l' ++ [r])%list))
    ∧ (ids l' = [] → assigned_id l' = 1)
    ∧ (∀ n, n ∈ ids l' → n < assigned_id l')
    ∧ (Forall is_create os →
         StronglySorted Z.lt (assigned_ids rs)
         ∧ Forall (λ a, ∀ n, n ∈ ids l → n < a) (assigned_ids rs)).
Proof.
  intros Hauth Hc Hl Hroom Hos.
  replace (S (creations os)) with (creations os + 1)%nat in Hroom by lia.
  destruct (run_ops_invariant s os w l 1 Hauth Hc Hl Hroom Hos)
    as (rs & w' & l' & Hrun & Hlen & Hc' & Hl' & Hroom').
  exists rs, w', l'. split_and!; [done..| | | |].
  - intros b Hb r.
    destruct (room_for_one 0 l' w' Hroom') as [Hsafe Hlen'].
    destruct (readSpeakersCached_coherent w' l' Hc') as (w1 & Hread & _).
    destruct (POST_speakers_run {| session := s; body := b |} w' l' w1 (assigned_id l')
                Hauth Hread Hlen' (next_id_integer l' Hl' Hsafe)) as (w'' & ? & _ & ? & ? & _).
    exists w''. done.
  - unfold assigned_id. by intros ->.
  - apply assigned_id_gt.
  - intros Hcr.
    destruct (creations_increase s os w l 1 Hauth Hc Hl Hroom Hos Hcr)
      as (rs2 & w2 & Hrun2 & ? & ?).
    rewrite Hrun in Hrun2. by simplify_eq.
Qed.

Lemma fresh_server_coherent :
  coherent SPEAKERS_FILE (files fresh_server) (speakersCache (vars fresh_server)) [].
Proof. exists (File (Some []) 1000). split_and!; [reflexivity..|by left]. Qed.

Lemma fresh_server_room k :
  (N.of_nat k ≤ 100000)%N → room_for k [] fresh_server.
Proof.
  intros Hk. split_and!; [apply Forall_nil_2|unfold MAX_SAFE_INTEGER; lia|].
  change (arguments_limit fresh_server) with 100000%N. simpl. lia.
Qed.

Lemma create_assigns_max_plus_one_witness :
  let os := [Create (BObject {[ "name" := VStr "Ada" ]}); Delete "7"] in
  isAuthenticated admin = true
  ∧ coherent SPEAKERS_FILE (files fresh_server) (speakersCache (vars fresh_server)) []
  ∧ integer_ids []
  ∧ room_for (S (creations os)) [] fresh_server
  ∧ Forall names_no_id os
  ∧ ∃ rs w' l',
      run_ops admin os fresh_server = (Ok rs, w')
      ∧ coherent SPEAKERS_FILE (files w') (speakersCache (vars w')) l'
      ∧ l' = [ {[ "name" := VStr "Ada"; "id" := VNum 1 ]} ]
      ∧ assigned_ids rs = [1]
      ∧ (∀ n, n ∈ ids l' → n < assigned_id l')
      ∧ ∃ w'', POST_speakers (request (BObject {[ "name" := VStr "Grace" ]})) w'
                 = (Ok {| status := 201;
                          json := VObj {[ "name" := VStr "Grace"; "id" := VNum 2 ]} |}, w'').
Proof.
  intros os.
  assert (Forall names_no_id os) as Hos by (repeat constructor).
  assert (room_for (S (creations os)) [] fresh_server) as Hroom
    by (apply fresh_server_room; vm_compute; discriminate).
  split_and!; [reflexivity|exact fresh_server_coherent|constructor|exact Hroom|exact Hos|].
  destruct (create_assigns_max_plus_one admin os fresh_server [] eq_refl
              fresh_server_coherent (Forall_nil_2 _) Hroom Hos)
    as (rs & w' & l' & Hrun & _ & Hc & _ & Hpost & _ & Hgt & _).
  assert (l' = [ {[ "name" := VStr "Ada"; "id" := VNum 1 ]} ]) as Hl'.
  { destruct Hc as (f & Hf & Hd & _).
    pose proof (f_equal (λ x, (data <$> speakers_json (files x.2))) Hrun) as Hfile.
    cbn [lookup_file] in Hf. cbn beta in Hfile. cbn [snd] in Hfile.
    rewrite Hf in Hfile. cbn [fmap option_fmap option_map] in Hfile. rewrite Hd in Hfile.
    vm_compute in Hfile. injection Hfile as <-. vm_compute. reflexivity. }
  assert (assigned_ids rs = [1]) as Hids.
  { assert (match (run_ops admin os fresh_server).1 with
            | Ok rs => assigned_ids rs
            | _ => []
            end = [1]) as Hrs by (vm_compute; reflexivity).
    by rewrite Hrun in Hrs. }
  exists rs, w', l'. split_and!; [exact Hrun|exact Hc|exact Hl'|exact Hids|exact Hgt|].
  assert (spread (BObject {[ "name" := VStr "Grace" ]}) !! "id" = None) as Hnoid
    by (vm_compute; reflexivity).
  destruct (Hpost (BObject {[ "name" := VStr "Grace" ]}) Hnoid) as (w'' & Hcreated & _).
  exists w''. unfold request. rewrite Hcreated, Hl'. vm_compute. reflexivity.
Defined.

(** C2 as worded does not hold: create, create, delete the record with id
    2, create again; the ids handed out are 1, 2 and 2. *)
Lemma ids_reused_after_delete : ¬ ids_never_reused.
Proof.
  intros Hclaim.
  set (os := [Create (BObject ∅); Create (BObject ∅); Delete "2"; Create (BObject ∅)]).
  assert (Forall names_no_id os) as Hos by (repeat constructor).
  destruct (run_ops admin os fresh_server) as [[rs| |] w] eqn:Hrun;
    [|by vm_compute in Hrun..].
  pose proof (Hclaim os rs w Hos Hrun) as Hsorted.
  assert (assigned_ids rs = [1; 2; 2]) as Hids.
  { assert (Ok rs = (run_ops admin os fresh_server).1) as Hrs by by rewrite Hrun.
    vm_compute in Hrs. injection Hrs as ->. vm_compute. reflexivity. }
  rewrite Hids in Hsorted.
  apply StronglySorted_inv in Hsorted as [Hsorted _].
  apply StronglySorted_inv in Hsorted as [_ Hlt].
  apply Forall_cons in Hlt as [Hlt _]. lia.
Qed.

(** Past the safe integers the rule breaks down: on a record with id 2^53
    the sum rounds back to 2^53, and the new record gets the id of the old
    one. *)
Example id_repeats_at_2_53 :
  let old : obj := {[ "id" := VNum 9007199254740992 ]} in
  next_id [old] = Some (Int 9007199254740992)
  ∧ (POST_speakers (request (BObject ∅)) (serving [old])).1
    = Ok {| status := 201; json := VObj old |}.
Proof. vm_compute. split; reflexivity. Qed.

(** ** Users *)

Lemma readFile_parse_users w f users :
  users_json (files w) = Some f → data f = Some users →
  readFile_parse USERS_FILE w
    = (Ok users, with_env (record_io (ReadFile (path_name USERS_FILE)) (env w)) w).
Proof. intros Hf Hd. unfold readFile_parse. cbn [lookup_file]. by rewrite Hf, Hd. Qed.

Lemma strict_eq_string v s : strict_eq v (Some (VStr s)) = true ↔ v = Some (VStr s).
Proof.
  split; [|intros ->; by apply bool_decide_eq_true].
  destruct v as [[]|]; simpl; try done. intros ?%bool_decide_eq_true. by subst.
Qed.

(** Two login attempts that both carry a user name and a password: the
    first names an existing user and its password is one that
    [bcrypt.compare] compares and finds wrong (it resolves to false), the
    second names no existing user.  Both get the same answer, 401 with
    [Invalid credentials], and neither session is changed. *)
Lemma login_failures_look_alike
    (bcrypt_compare : option value → option value → option bool)
    (w : World) (f : file (list obj)) (users : list obj)
    (req1 req2 : Request) (user : obj) :
  users_json (files w) = Some f → data f = Some users →
  truthy (body_prop (body req1) "username") = true →
  truthy (body_prop (body req1) "password") = true →
  truthy (body_prop (body req2) "username") = true →
  truthy (body_prop (body req2) "password") = true →
  List.find (λ u, strict_eq (u !! "username") (body_prop (body req1) "username")) users
    = Some user →
  bcrypt_compare (body_prop (body req1) "password") (user !! "passwordHash") = Some false →
  (∀ u, u ∈ users →
        strict_eq (u !! "username") (body_prop (body req2) "username") = false) →
  (POST_auth_login bcrypt_compare req1 w).1
    = Ok (error_response 401 "Invalid credentials", session req1)
  ∧ (POST_auth_login bcrypt_compare req2 w).1
    = Ok (error_response 401 "Invalid credentials", session req2).
Proof.
  intros Hf Hd Hu1 Hp1 Hu2 Hp2 Hfind Hcmp Hnone.
  unfold POST_auth_login, try_catch. cbv zeta.
  rewrite Hu1, Hp1, Hu2, Hp2. cbn [negb orb].
  rewrite !(bind_ok _ _ _ _ _ (readFile_parse_users w f users Hf Hd)).
  rewrite Hfind. unfold await_compare. rewrite Hcmp.
  rewrite (find_none _ users Hnone). done.
Qed.

Lemma login_failures_look_alike_witness :
  let w := fresh_server in
  let req1 := credentials "admin" "letmein" in
  let req2 := credentials "nobody" "letmein" in
  (∃ f users user,
     users_json (files w) = Some f ∧ data f = Some users
     ∧ List.find (λ u, strict_eq (u !! "username") (body_prop (body req1) "username")) users
       = Some user
     ∧ reject_all (body_prop (body req1) "password") (user !! "passwordHash") = Some false
     ∧ (∀ u, u ∈ users →
           strict_eq (u !! "username") (body_prop (body req2) "username") = false))
  ∧ (POST_auth_login reject_all req1 w).1
    = Ok (error_response 401 "Invalid credentials", session req1)
  ∧ (POST_auth_login reject_all req2 w).1
    = Ok (error_response 401 "Invalid credentials", session req2).
Proof.
  intros w req1 req2.
  set (users := default [] (users_json (files w) ≫= data)).
  set (user := default ∅ (head users)).
  assert (∀ u, u ∈ users →
            strict_eq (u !! "username") (body_prop (body req2) "username") = false) as Hnone.
  { intros u Hu. apply list_elem_of_singleton in Hu. subst u. reflexivity. }
  split.
  - exists (File (Some users) 1002), users, user.
    split_and!; [reflexivity..|exact Hnone].
  - apply (login_failures_look_alike reject_all w (File (Some users) 1002) users
             req1 req2 user); first [reflexivity | exact Hnone].
Defined.

(** C5, where it fails.  Two login attempts that both carry a user name and
    a password that [bcrypt.compare] refuses to compare, as it does a
    number: its promise is rejected.  The attempt that names an existing
    user ends in the [catch] and is answered 500 with [Login failed]; the
    attempt that names no existing user is answered 401 with
    [Invalid credentials], as an attempt with a wrong string is.  The two
    answers tell whether the user name exists. *)
Theorem login_tells_users_apart
    (bcrypt_compare : option value → option value → option bool)
    (w : World) (f : file (list obj)) (users : list obj)
    (req1 req2 : Request) (user : obj) :
  users_json (files w) = Some f → data f = Some users →
  truthy (body_prop (body req1) "username") = true →
  truthy (body_prop (body req1) "password") = true →
  truthy (body_prop (body req2) "username") = true →
  truthy (body_prop (body req2) "password") = true →
  List.find (λ u, strict_eq (u !! "username") (body_prop (body req1) "username")) users
    = Some user →
  bcrypt_compare (body_prop (body req1) "password") (user !! "passwordHash") = None →
  (∀ u, u ∈ users →
        strict_eq (u !! "username") (body_prop (body req2) "username") = false) →
  (POST_auth_login bcrypt_compare req1 w).1
    = Ok (error_response 500 "Login failed", session req1)
  ∧ (POST_auth_login bcrypt_compare req2 w).1
    = Ok (error_response 401 "Invalid credentials", session req2).
Proof.
  intros Hf Hd Hu1 Hp1 Hu2 Hp2 Hfind Hcmp Hnone.
  unfold POST_auth_login, try_catch. cbv zeta.
  rewrite Hu1, Hp1, Hu2, Hp2. cbn [negb orb].
  rewrite !(bind_ok _ _ _ _ _ (readFile_parse_users w f users Hf Hd)).
  rewrite Hfind. unfold await_compare. rewrite Hcmp.
  rewrite (find_none _ users Hnone). done.
Qed.

Lemma login_tells_users_apart_witness :
  let attempt (name : string) : Request :=
    {| session := anonymous;
       body := BObject {[ "username" := VStr name; "password" := VNum 12345 ]} |} in
  users_json (files toy_server) = Some (File (Some toy_users) 1002)
  ∧ (∃ user, user ∈ toy_users ∧ user !! "username" = Some (VStr "admin")
             ∧ toy_compare (Some (VNum 12345)) (user !! "passwordHash") = None)
  ∧ (∀ u, u ∈ toy_users → u !! "username" ≠ Some (VStr "nobody"))
  ∧ (POST_auth_login toy_compare (attempt "admin") toy_server).1
    = Ok (error_response 500 "Login failed", anonymous)
  ∧ (POST_auth_login toy_compare (attempt "nobody") toy_server).1
    = Ok (error_response 401 "Invalid credentials", anonymous).
Proof.
  intros attempt.
  assert (∀ u, u ∈ toy_users →
            strict_eq (u !! "username") (body_prop (body (attempt "nobody")) "username")
            = false) as Hnone.
  { intros u Hu. unfold toy_users in Hu.
    apply elem_of_cons in Hu as [->|Hu]; [reflexivity|].
    apply list_elem_of_singleton in Hu as ->. reflexivity. }
  split_and!.
  - reflexivity.
  - exists (default ∅ (head toy_users)). split_and!; [by left|reflexivity..].
  - intros u Hu Hname. specialize (Hnone u Hu).
    change (body_prop (body (attempt "nobody")) "username") with (Some (VStr "nobody")) in Hnone.
    apply (proj2 (strict_eq_string _ _)) in Hname. congruence.
  - apply (login_tells_users_apart toy_compare toy_server (File (Some toy_users) 1002) toy_users
             (attempt "admin") (attempt "nobody") (default ∅ (head toy_users)));
      first [reflexivity | exact Hnone].
  - apply (login_tells_users_apart toy_compare toy_server (File (Some toy_users) 1002) toy_users
             (attempt "admin") (attempt "nobody") (default ∅ (head toy_users)));
      first [reflexivity | exact Hnone].
Defined.

Lemma filter_length_lt {A} (p : A → bool) l x :
  x ∈ l → p x = false → (length (List.filter p l) < length l)%nat.
Proof.
  induction l as [|y l IH]; [by intros ?%elem_of_nil|].
  pose proof (List.filter_length_le p l).
  intros [->|Hx]%elem_of_cons Hp; simpl.
  - rewrite Hp. lia.
  - specialize (IH Hx Hp). destruct (p y); simpl; lia.
Qed.

(** C6, amended.  A logged-in [DELETE /api/users/:username].  The checks
    come in this order: the session's own name is refused with 400; then a
    users file of at most one record is refused with 400, whether or not it
    holds the name; then a name that no record carries is answered 404;
    otherwise the answer is 200 and the file keeps, in order, exactly the
    records that carry another name.  Only the last case writes. *)
Theorem delete_user_outcomes (name : string) (req : Request) (w : World)
    (f : file (list obj)) (users : list obj) :
  isAuthenticated (session req) = true →
  users_json (files w) = Some f → data f = Some users →
  let self := strict_eq (Some (VStr name)) (username (session req)) in
  let others :=
    List.filter (λ u : obj, negb (strict_eq (u !! "username") (Some (VStr name)))) users in
  let r := DELETE_user name req w in
  (self = true →
     r.1 = Ok (error_response 400 "Cannot delete your own account") ∧ files r.2 = files w)
  ∧ (self = false → (length users ≤ 1)%nat →
     r.1 = Ok (error_response 400 "Cannot delete the last user") ∧ files r.2 = files w)
  ∧ (self = false → (1 < length users)%nat →
     (∀ u, u ∈ users → u !! "username" ≠ Some (VStr name)) →
     r.1 = Ok (error_response 404 "User not found") ∧ files r.2 = files w)
  ∧ (self = false → (1 < length users)%nat →
     (∃ u, u ∈ users ∧ u !! "username" = Some (VStr name)) →
     r.1 = Ok (ok_response (VObj {[ "success" := VBool true;
                                    "message" := VStr "User deleted successfully" ]}))
     ∧ (data <$> users_json (files r.2)) = Some (Some others)
     ∧ speakers_json (files r.2) = speakers_json (files w)
     ∧ content_json (files r.2) = content_json (files w)
     ∧ (∀ u, u ∈ others ↔ u ∈ users ∧ u !! "username" ≠ Some (VStr name))).
Proof.
  intros Hauth Hf Hd self others r. subst r.
  unfold DELETE_user, requireAuth, try_catch. rewrite Hauth. fold self.
  split_and!.
  - intros ->. done.
  - intros -> Hlen.
    rewrite (bind_ok _ _ _ _ _ (readFile_parse_users w f users Hf Hd)).
    apply Nat.leb_le in Hlen. rewrite Hlen. done.
  - intros -> Hlen Habsent.
    rewrite (bind_ok _ _ _ _ _ (readFile_parse_users w f users Hf Hd)).
    apply Nat.leb_gt in Hlen. rewrite Hlen. cbv zeta.
    rewrite filter_all; [by rewrite Nat.eqb_refl|].
    intros u Hu. apply negb_true_iff, not_true_iff_false.
    rewrite strict_eq_string. by apply Habsent.
  - intros -> Hlen (u & Hu & Hname).
    rewrite (bind_ok _ _ _ _ _ (readFile_parse_users w f users Hf Hd)).
    apply Nat.leb_gt in Hlen. rewrite Hlen. cbv zeta. fold others.
    assert ((length others =? length users)%nat = false) as ->.
    { apply Nat.eqb_neq.
      assert (length others < length users)%nat; [|lia].
      apply (filter_length_lt _ users u Hu). rewrite Hname.
      apply negb_false_iff. by apply strict_eq_string. }
    split_and!; [done..|].
    intros u'. unfold others. rewrite list_elem_of_In, List.filter_In, <- list_elem_of_In.
    rewrite negb_true_iff, <- not_true_iff_false, strict_eq_string. done.
Qed.

Lemma delete_user_outcomes_witness :
  let w := with_files (store_file USERS_FILE (File (Some two_users) 1002) (files fresh_server))
             fresh_server in
  isAuthenticated (session (request (BObject ∅))) = true
  ∧ users_json (files w) = Some (File (Some two_users) 1002)
  ∧ (∃ u, u ∈ two_users ∧ u !! "username" = Some (VStr "guest"))
  ∧ (data <$> users_json (files (DELETE_user "guest" (request (BObject ∅)) w).2))
    = Some (Some [ {[ "username" := VStr "admin"; "passwordHash" := VStr "$2b$10$aaaa" ]} ]).
Proof.
  intros w.
  assert (∃ u, u ∈ two_users ∧ u !! "username" = Some (VStr "guest")) as Hin.
  { eexists. split; [right; left|reflexivity]. }
  split_and!; [reflexivity|reflexivity|exact Hin|].
  destruct (delete_user_outcomes "guest" (request (BObject ∅)) w
              (File (Some two_users) 1002) two_users eq_refl eq_refl eq_refl)
    as (_ & _ & _ & Hdel).
  destruct Hdel as (_ & Hdata & _); [reflexivity|simpl; lia|exact Hin|].
  exact Hdata.
Defined.

(** C6 as worded does not hold: with [admin] the only user, a logged-in
    request to delete [ghost], whom no record names, is answered 400. *)
Lemma absent_user_can_get_400 : ¬ absent_user_is_not_found.
Proof.
  intros Hclaim.
  specialize (Hclaim "ghost" (request (BObject ∅)) fresh_server
                (File (Some (default [] (users_json (files fresh_server) ≫= data))) 1002)
                _ eq_refl eq_refl eq_refl eq_refl).
  assert ((DELETE_user "ghost" (request (BObject ∅)) fresh_server).1
          = Ok (error_response 400 "Cannot delete the last user")) as Hcode
    by (vm_compute; reflexivity).
  rewrite Hcode in Hclaim.
  assert (Ok (error_response 400 "Cannot delete the last user")
          ≠ Ok (error_response 404 "User not found")) as Hne by (vm_compute; discriminate).
  apply Hne, Hclaim.
  intros u Hu%list_elem_of_singleton. subst u. vm_compute. discriminate.
Qed.

(** C8.  A logged-in [GET /api/users] on a readable users file answers 200
    with one object per stored user, in order, carrying that user's
    [username], [createdAt], [passwordChangedAt] and [lastLogin] where the
    record has them; no object of the answer has a [passwordHash] field. *)
Theorem users_list_strips_hashes (req : Request) (w : World)
    (f : file (list obj)) (users : list obj) :
  isAuthenticated (session req) = true →
  users_json (files w) = Some f → data f = Some users →
  ∃ out w',
    GET_users req w = (Ok (ok_response (VArr (VObj <$> out))), w')
    ∧ length out = length users
    ∧ (∀ i u, users !! i = Some u →
         ∃ o, out !! i = Some o
              ∧ o !! "username" = u !! "username"
              ∧ o !! "createdAt" = u !! "createdAt"
              ∧ o !! "passwordChangedAt" = u !! "passwordChangedAt"
              ∧ o !! "lastLogin" = u !! "lastLogin")
    ∧ (∀ o, o ∈ out → o !! "passwordHash" = None)
    ∧ files w' = files w.
Proof.
  intros Hauth Hf Hd. unfold GET_users, requireAuth, try_catch. rewrite Hauth.
  rewrite (bind_ok _ _ _ _ _ (readFile_parse_users w f users Hf Hd)). cbv zeta.
  do 2 eexists. split; [reflexivity|]. split_and!.
  - by rewrite length_fmap.
  - intros i u Hi. eexists. split; [by rewrite list_lookup_fmap, Hi|].
    destruct (u !! "username"), (u !! "createdAt"), (u !! "passwordChangedAt"),
      (u !! "lastLogin"); repeat split; reflexivity.
  - intros o (u & -> & _)%list_elem_of_fmap.
    destruct (u !! "username"), (u !! "createdAt"), (u !! "passwordChangedAt"),
      (u !! "lastLogin"); reflexivity.
  - done.
Qed.

Lemma users_list_strips_hashes_witness :
  let w := with_files (store_file USERS_FILE (File (Some two_users) 1002) (files fresh_server))
             fresh_server in
  isAuthenticated (session (request (BObject ∅))) = true
  ∧ users_json (files w) = Some (File (Some two_users) 1002)
  ∧ ∃ out w',
      GET_users (request (BObject ∅)) w = (Ok (ok_response (VArr (VObj <$> out))), w')
      ∧ length out = 2%nat
      ∧ (∀ o, o ∈ out → o !! "passwordHash" = None).
Proof.
  intros w. split_and!; [reflexivity..|].
  destruct (users_list_strips_hashes (request (BObject ∅)) w
              (File (Some two_users) 1002) two_users eq_refl eq_refl eq_refl)
    as (out & w' & Hrun & Hlen & _ & Hhash & _).
  exists out, w'. split_and!; [exact Hrun|exact Hlen|exact Hhash].
Defined.

(** * Further properties *)

(** ** The cache layer, on the wrappers *)

(** X1.  [readCached] on a readable file.  When the wrapper holds nothing
    usable or the file is newer than the wrapper's time stamp, the file is
    read and the wrappers get its document and the clock reading; so it is
    when the clock is more than [CACHE_TTL] past the time stamp, the
    wrappers then getting the next clock reading.  Otherwise the wrapper's
    value is returned after a [stat] alone and the wrappers stay as they
    are.  No case writes a file or a module variable. *)
Theorem readCached_refresh_rule {A} `{ToBoolean A} (p : path A) (c : option A) (ts : Z)
    (w : World) (f : file A) (d : A) :
  lookup_file p (files w) = Some f → data f = Some d →
  let e := env w in
  let r := readCached p c ts w in
  files r.2 = files w ∧ vars r.2 = vars w
  ∧ if negb (truthy c) || (mtimeMs f >? ts)
    then r.1 = Ok (d, (Some d, now e (tick e)))
         ∧ io (env r.2) = reload_logged p (io e)
    else if now e (tick e) - ts >? CACHE_TTL
    then r.1 = Ok (d, (Some d, now e (S (tick e))))
         ∧ io (env r.2) = reload_logged p (io e)
    else ∃ v, c = Some v ∧ r.1 = Ok (v, (c, ts))
              ∧ io (env r.2) = Stat (path_name p) :: io e.
Proof.
  intros Hf Hd e r. subst e r.
  destruct (readCached_frame p c ts w) as [Hv Hfs]. split_and!; [done..|].
  run. rewrite Hf. wsimpl.
  destruct (negb (truthy c) || (mtimeMs f >? ts)) eqn:E1; wsimpl.
  - destruct c; wsimpl; rewrite Hf, Hd; split; reflexivity.
  - destruct (now (env w) (tick (env w)) - ts >? CACHE_TTL) eqn:E2; wsimpl.
    + destruct c; wsimpl; rewrite Hf, Hd; split; reflexivity.
    + destruct c as [v|]; [|done]. exists v. split_and!; reflexivity.
Qed.

Lemma readCached_refresh_rule_witness :
  let w := serving [ada] in
  lookup_file SPEAKERS_FILE (files w) = Some (File (Some [ada]) 1000)
  ∧ (readCached SPEAKERS_FILE (Some [ada]) 1000 w).1 = Ok ([ada], (Some [ada], 1000))
  ∧ (readCached SPEAKERS_FILE (Some []) 999 w).1 = Ok ([ada], (Some [ada], 1003)).
Proof.
  intros w. split; [reflexivity|].
  split_and!.
  - destruct (readCached_refresh_rule SPEAKERS_FILE (Some [ada]) 1000 w
                (File (Some [ada]) 1000) [ada] eq_refl eq_refl) as (_ & _ & Hr).
    destruct Hr as (v & Hv & Hr & _). injection Hv as <-. exact Hr.
  - destruct (readCached_refresh_rule SPEAKERS_FILE (Some []) 999 w
                (File (Some [ada]) 1000) [ada] eq_refl eq_refl) as (_ & _ & Hr & _).
    exact Hr.
Defined.

(** X2.  [writeCached] puts the document and the clock reading in the
    wrappers and the document in the file; a [readCached] on the wrappers
    it leaves returns that document, whatever the clock and the file
    system's time stamp. *)
Theorem writeCached_then_readCached {A} `{ToBoolean A} (p : path A) (c : option A)
    (ts : Z) (d : A) (w : World) :
  ∃ w1 r w2,
    writeCached p c ts d w = (Ok (Some d, now (env w) (tick (env w))), w1)
    ∧ (data <$> lookup_file p (files w1)) = Some (Some d)
    ∧ vars w1 = vars w
    ∧ readCached p (Some d) (now (env w) (tick (env w))) w1 = (Ok (d, r), w2).
Proof.
  assert (∃ w1, writeCached p c ts d w = (Ok (Some d, now (env w) (tick (env w))), w1)
                ∧ lookup_file p (files w1)
                  = Some (File (Some d) (mtime (env w) (S (tick (env w)))))
                ∧ vars w1 = vars w) as (w1 & Hw & Hf & Hv).
  { eexists. split; [reflexivity|]. split; [|reflexivity]. by destruct p. }
  destruct (readCached_coherent p (Some d) (now (env w) (tick (env w))) w1 d)
    as (r & w2 & Hr).
  { eexists. split; [exact Hf|]. split; [reflexivity|by right]. }
  exists w1, r, w2. split_and!; [done| by rewrite Hf |done..].
Qed.

Lemma readCached_no_file {A} `{ToBoolean A} (p : path A) (c : option A) (ts : Z)
    (w : World) :
  lookup_file p (files w) = None →
  (readCached p c ts w).1 = Throw "ENOENT"
  ∧ io (env (readCached p c ts w).2) = Stat (path_name p) :: io (env w).
Proof. intros Hf. run. rewrite Hf. split; reflexivity. Qed.

(** X3.  Without the file, [readCached] throws at the [stat], whatever the
    wrappers hold.  With a file that does not parse, it throws when it has
    to reload, but a usable wrapper value that is neither older than the
    file nor older than the TTL is still returned. *)
Theorem readCached_unreadable_file {A} `{ToBoolean A} (p : path A) (c : option A) (ts : Z)
    (w : World) :
  (lookup_file p (files w) = None →
     (readCached p c ts w).1 = Throw "ENOENT"
     ∧ io (env (readCached p c ts w).2) = Stat (path_name p) :: io (env w))
  ∧ (∀ f, lookup_file p (files w) = Some f → data f = None →
       if negb (truthy c) || (mtimeMs f >? ts)
          || (now (env w) (tick (env w)) - ts >? CACHE_TTL)
       then (readCached p c ts w).1 = Throw "SyntaxError"
       else ∃ v, c = Some v ∧ (readCached p c ts w).1 = Ok (v, (c, ts))).
Proof.
  split; [apply readCached_no_file|].
  intros f Hf Hd. run. rewrite Hf. wsimpl.
  destruct (negb (truthy c) || (mtimeMs f >? ts)) eqn:E1; wsimpl.
  - destruct c; wsimpl; rewrite Hf, Hd; reflexivity.
  - destruct (now (env w) (tick (env w)) - ts >? CACHE_TTL) eqn:E2; wsimpl.
    + destruct c; wsimpl; rewrite Hf, Hd; reflexivity.
    + destruct c as [v|]; [|done]. exists v. split; reflexivity.
Qed.

Lemma readCached_unreadable_file_witness :
  lookup_file SPEAKERS_FILE (files (blank ticking)) = None
  ∧ (readCached SPEAKERS_FILE (Some [ada]) 1000 (blank ticking)).1 = Throw "ENOENT".
Proof.
  split; [reflexivity|].
  destruct (readCached_unreadable_file SPEAKERS_FILE (Some [ada]) 1000 (blank ticking))
    as [Hmissing _].
  destruct (Hmissing eq_refl) as [Hr _]. exact Hr.
Defined.

(** ** Read requests and start-up *)

(** X4.  No sequence of the three read routes writes a data file, whether
    the requests are answered or throw. *)
Theorem read_routes_write_no_file (gs : list get) (w : World) :
  files (run_gets gs w).2 = files w.
Proof. apply run_gets_frame. Qed.

(** X5.  The speakers and content routes have no [try]: without the
    speakers file the four speakers routes that get past [requireAuth]
    throw at the [stat] and send no response, and nothing is written. *)
Theorem speakers_routes_throw_without_file (id : string) (req : Request) (w : World) :
  isAuthenticated (session req) = true →
  speakers_json (files w) = None →
  let gone r := r.1 = @Throw Response "ENOENT" ∧ files r.2 = files w ∧ vars r.2 = vars w in
  gone (GET_speakers w) ∧ gone (GET_speaker id w) ∧ gone (POST_speakers req w)
  ∧ gone (PUT_speaker id req w) ∧ gone (DELETE_speaker id req w).
Proof.
  intros Hauth Hf gone. subst gone.
  assert (∃ w1, readSpeakersCached w = (Throw "ENOENT", w1)
                ∧ files w1 = files w ∧ vars w1 = vars w) as (w1 & Hr & Hfs & Hv).
  { unfold readSpeakersCached, bind, get_vars.
    destruct (readCached_no_file SPEAKERS_FILE (speakersCache (vars w))
                (speakersTimestamp (vars w)) w Hf) as [Hthrow _].
    destruct (readCached_frame SPEAKERS_FILE (speakersCache (vars w))
                (speakersTimestamp (vars w)) w) as [Hv Hfs].
    destruct (readCached _ _ _ w) as [r w1]. simpl in *. subst r. eauto. }
  unfold GET_speakers, GET_speaker, POST_speakers, PUT_speaker, DELETE_speaker, requireAuth.
  rewrite Hauth. unfold bind. rewrite Hr. done.
Qed.

Lemma speakers_routes_throw_without_file_witness :
  isAuthenticated (session (request (BObject ∅))) = true
  ∧ speakers_json (files (blank ticking)) = None
  ∧ (POST_speakers (request (BObject ∅)) (blank ticking)).1 = Throw "ENOENT".
Proof.
  split; [reflexivity|]. split; [reflexivity|].
  destruct (speakers_routes_throw_without_file "1" (request (BObject ∅)) (blank ticking)
              eq_refl eq_refl) as (_ & _ & [Hr _] & _).
  exact Hr.
Defined.

(** X6.  [ensureDataFiles] succeeds on any data directory.  Afterwards the
    three files exist; a file that was already there is left exactly as it
    was; a missing one holds its default ([[]] for the speakers, empty [en]
    and [fr] for the content, the one [admin] account for the users); the
    cache variables are not touched.  Running it again changes nothing. *)
Theorem ensureDataFiles_outcome (defaultHash createdAt : string) (w : World) :
  let r := ensureDataFiles defaultHash createdAt w in
  r.1 = Ok ()
  ∧ vars r.2 = vars w
  ∧ (∀ A (p : path A), is_Some (lookup_file p (files r.2)))
  ∧ (∀ A (p : path A) f, lookup_file p (files w) = Some f →
       lookup_file p (files r.2) = Some f)
  ∧ (speakers_json (files w) = None →
       (data <$> speakers_json (files r.2)) = Some (Some []))
  ∧ (content_json (files w) = None →
       (data <$> content_json (files r.2))
       = Some (Some (VObj {[ "en" := VObj ∅; "fr" := VObj ∅ ]})))
  ∧ (users_json (files w) = None →
       (data <$> users_json (files r.2))
       = Some (Some [ ({[ "username" := VStr "admin";
                          "passwordHash" := VStr defaultHash;
                          "createdAt" := VStr createdAt ]} : obj) ]))
  ∧ ensureDataFiles defaultHash createdAt r.2 = (Ok (), r.2).
Proof.
  intros r. subst r.
  destruct w as [[s c u] v e].
  destruct s as [fs|], c as [fc|], u as [fu|];
    unfold ensureDataFiles, ensure, bind, writeFile_stringify, console_log, ret;
    cbn [fst snd files vars env lookup_file store_file speakers_json content_json
         users_json with_env with_files with_vars record_io advance data fmap option_fmap
         option_map];
    (split_and!;
     [ reflexivity | reflexivity
     | intros A p; destruct p; cbn [lookup_file speakers_json content_json users_json];
       eauto
     | intros A p f0; destruct p; cbn [lookup_file speakers_json content_json users_json];
       done
     | done || (intros _; reflexivity) ..
     | reflexivity ]).
Qed.

Lemma ensureDataFiles_outcome_witness :
  let r := ensureDataFiles "$2b$10$hash" "2024-01-01T00:00:00.000Z" (blank ticking) in
  speakers_json (files (blank ticking)) = None
  ∧ (data <$> speakers_json (files r.2)) = Some (Some [])
  ∧ ensureDataFiles "$2b$10$hash" "2024-01-01T00:00:00.000Z" r.2 = (Ok (), r.2).
Proof.
  intros r. split; [reflexivity|].
  destruct (ensureDataFiles_outcome "$2b$10$hash" "2024-01-01T00:00:00.000Z" (blank ticking))
    as (_ & _ & _ & _ & Hs & _ & _ & Hagain).
  split; [exact (Hs eq_refl)|exact Hagain].
Defined.

(** ** Sessions *)

(** X7.  A request whose session is not authenticated gets 401 from every
    protected route, and the world is left exactly as it was: no file read
    or written, no variable set, no clock reading taken. *)
Theorem unauthenticated_requests_change_nothing
    (bcrypt_compare : option value → option value → option bool)
    (bcrypt_hash : nat → option value → option string) (toISOString : Z → string)
    (param : string) (req : Request) (w : World) :
  isAuthenticated (session req) = false →
  let refused := (Ok (error_response 401 "Unauthorized - Please login"), w) in
  POST_speakers req w = refused
  ∧ PUT_speaker param req w = refused
  ∧ DELETE_speaker param req w = refused
  ∧ PUT_content req w = refused
  ∧ GET_users req w = refused
  ∧ POST_users bcrypt_hash toISOString req w = refused
  ∧ DELETE_user param req w = refused
  ∧ POST_users_reset_password bcrypt_hash toISOString param req w = refused
  ∧ POST_auth_change_password bcrypt_compare bcrypt_hash toISOString req w = refused.
Proof.
  intros Hanon refused.
  unfold POST_speakers, PUT_speaker, DELETE_speaker, PUT_content, GET_users, POST_users,
    DELETE_user, POST_users_reset_password, POST_auth_change_password, requireAuth.
  rewrite Hanon. done.
Qed.

Lemma unauthenticated_requests_change_nothing_witness :
  let req := {| session := anonymous; body := BObject {[ "name" := VStr "Eve" ]} |} in
  isAuthenticated (session req) = false
  ∧ POST_speakers req fresh_server
    = (Ok (error_response 401 "Unauthorized - Please login"), fresh_server).
Proof.
  intros req. split; [reflexivity|].
  destruct (unauthenticated_requests_change_nothing reject_all (λ _ _, None) (λ _, "")
              "1" req fresh_server eq_refl) as (Hpost & _).
  exact Hpost.
Defined.

(** X8.  A login that names an existing user with the password
    [bcrypt.compare] accepts answers 200 and leaves the session
    authenticated under the name given; the users file is not written.
    With that session [/api/auth/check] reports the name and the protected
    routes run.  After a logout that the store completes, the next request
    arrives anonymous: [check] reports [authenticated: false] and the
    protected routes answer 401. *)
Theorem session_lifecycle
    (bcrypt_compare : option value → option value → option bool)
    (w : World) (f : file (list obj)) (users : list obj) (req : Request) (user : obj) :
  users_json (files w) = Some f → data f = Some users →
  truthy (body_prop (body req) "username") = true →
  truthy (body_prop (body req) "password") = true →
  List.find (λ u, strict_eq (u !! "username") (body_prop (body req) "username")) users
    = Some user →
  bcrypt_compare (body_prop (body req) "password") (user !! "passwordHash") = Some true →
  ∃ name s w',
    body_prop (body req) "username" = Some name
    ∧ POST_auth_login bcrypt_compare req w
      = (Ok (ok_response (VObj {[ "success" := VBool true;
                                  "message" := VStr "Login successful";
                                  "username" := name ]}), s), w')
    ∧ s = {| isAuthenticated := true; username := Some name |}
    ∧ files w' = files w ∧ vars w' = vars w
    ∧ (∀ b w0, GET_auth_check {| session := s; body := b |} w0
         = (Ok (ok_response (VObj {[ "authenticated" := VBool true; "username" := name ]})),
            w0))
    ∧ (∀ b next w0, requireAuth {| session := s; body := b |} next w0 = next w0)
    ∧ (∀ b w0, ∃ left,
         (POST_auth_logout false {| session := s; body := b |} w0).1
           = Ok (ok_response (VObj {[ "success" := VBool true;
                                      "message" := VStr "Logged out successfully" ]}), left)
         ∧ (∀ b' w1, GET_auth_check {| session := arriving left; body := b' |} w1
              = (Ok (ok_response (VObj {[ "authenticated" := VBool false ]})), w1))
         ∧ (∀ b' next w1, requireAuth {| session := arriving left; body := b' |} next w1
              = (Ok (error_response 401 "Unauthorized - Please login"), w1))).
Proof.
  intros Hf Hd Hu Hp Hfind Hcmp.
  destruct (body_prop (body req) "username") as [name|] eqn:Hname; [|done].
  exists name. do 2 eexists. split; [done|].
  unfold POST_auth_login, try_catch. cbv zeta. rewrite Hname, Hu, Hp. cbn [negb orb].
  rewrite (bind_ok _ _ _ _ _ (readFile_parse_users w f users Hf Hd)).
  rewrite Hfind. unfold await_compare. rewrite Hcmp.
  split_and!; [reflexivity..| | |].
  - intros b w0. reflexivity.
  - intros b next w0. reflexivity.
  - intros b w0. eexists. split; [reflexivity|]. split; intros; reflexivity.
Qed.

Lemma session_lifecycle_witness :
  let req := credentials "admin" "changeme123" in
  users_json (files toy_server) = Some (File (Some toy_users) 1002)
  ∧ List.find (λ u, strict_eq (u !! "username") (body_prop (body req) "username")) toy_users
    = head toy_users
  ∧ ∃ s w', POST_auth_login toy_compare req toy_server
            = (Ok (ok_response (VObj {[ "success" := VBool true;
                                        "message" := VStr "Login successful";
                                        "username" := VStr "admin" ]}), s), w')
            ∧ isAuthenticated s = true.
Proof.
  intros req. split; [reflexivity|]. split; [reflexivity|].
  destruct (session_lifecycle toy_compare toy_server (File (Some toy_users) 1002) toy_users
              req (default ∅ (head toy_users)) eq_refl eq_refl eq_refl eq_refl eq_refl eq_refl)
    as (name & s & w' & Hname & Hlogin & Hs & _).
  injection Hname as <-. exists s, w'. split; [exact Hlogin|].
  rewrite Hs. reflexivity.
Defined.

(** X9.  What else the login route answers.  Without a user name or a
    password (missing, empty, zero, false or null) it answers 400 before
    anything is read.  With both, a users file that is missing or does not
    parse, and a [bcrypt.compare] that rejects, end in the [catch]: 500 with
    [Login failed].  The session is never changed and no file is written. *)
Theorem login_error_answers
    (bcrypt_compare : option value → option value → option bool)
    (req : Request) (w : World) :
  let r := POST_auth_login bcrypt_compare req w in
  let username := body_prop (body req) "username" in
  let password := body_prop (body req) "password" in
  (truthy username = false ∨ truthy password = false →
     r = (Ok (error_response 400 "Username and password required", session req), w))
  ∧ (truthy username = true → truthy password = true →
     users_json (files w) = None ∨ (∃ f, users_json (files w) = Some f ∧ data f = None) →
     r.1 = Ok (error_response 500 "Login failed", session req)
     ∧ files r.2 = files w ∧ vars r.2 = vars w)
  ∧ (∀ f users user,
     truthy username = true → truthy password = true →
     users_json (files w) = Some f → data f = Some users →
     List.find (λ u, strict_eq (u !! "username") username) users = Some user →
     bcrypt_compare password (user !! "passwordHash") = None →
     r.1 = Ok (error_response 500 "Login failed", session req)
     ∧ files r.2 = files w ∧ vars r.2 = vars w).
Proof.
  intros r username password. subst r username password.
  unfold POST_auth_login, try_catch. cbv zeta. split_and!.
  - intros [-> | ->]; cbn [negb orb]; [done|]. by rewrite orb_true_r.
  - intros -> -> Hfile. cbn [negb orb].
    unfold bind, readFile_parse, console_error, ret. cbn [lookup_file].
    destruct Hfile as [-> | (f & -> & ->)]; done.
  - intros f users user -> -> Hf Hd Hfind Hcmp. cbn [negb orb].
    rewrite (bind_ok _ _ _ _ _ (readFile_parse_users w f users Hf Hd)).
    rewrite Hfind. unfold await_compare. rewrite Hcmp. done.
Qed.

Lemma login_error_answers_witness :
  let req := {| session := anonymous; body := BObject {[ "username" := VStr "admin" ]} |} in
  truthy (body_prop (body req) "password") = false
  ∧ POST_auth_login reject_all req fresh_server
    = (Ok (error_response 400 "Username and password required", anonymous), fresh_server).
Proof.
  intros req. split; [reflexivity|].
  destruct (login_error_answers reject_all req fresh_server) as (Hmissing & _).
  apply Hmissing. right. reflexivity.
Defined.

(** ** Speakers: deletion *)

Lemma readSpeakersCached_after_write d w w1 :
  writeSpeakersCached d w = (Ok (), w1) →
  ∃ w2, readSpeakersCached w1 = (Ok d, w2).
Proof.
  intros Hw. destruct (writeSpeakersCached_run d w) as (w1' & Hw' & Hc & _).
  rewrite Hw in Hw'. injection Hw' as <-.
  destruct (readSpeakersCached_coherent w1 d Hc) as (w2 & Hr & _). eauto.
Qed.

Lemma find_filter_agree {A} (p q : A → bool) l :
  (∀ x, p x = true → q x = true) → List.find p (List.filter q l) = List.find p l.
Proof.
  intros Hpq. induction l as [|x l IH]; [done|]. simpl.
  destruct (q x) eqn:Hq; simpl.
  - by rewrite IH.
  - destruct (p x) eqn:Hp; [|done]. rewrite (Hpq x Hp) in Hq. done.
Qed.

Lemma has_id_two n m r : has_id n r = true → has_id m r = true → n = m.
Proof.
  intros (k & -> & Hk)%has_id_lookup (k' & -> & Hk')%has_id_lookup. congruence.
Qed.

(** X10.  A logged-in [DELETE /api/speakers/:id] on the collection [l].
    When no record has the parsed id the answer is 404 and neither cache nor
    file is written.  Otherwise the answer is 200 and cache and file both
    hold [l] without the records of that id, every one of them, the other
    records in their order; the content and users files are not touched. *)
Theorem delete_speaker_outcomes (id : string) (req : Request) (w w1 : World)
    (l : list obj) :
  isAuthenticated (session req) = true →
  readSpeakersCached w = (Ok l, w1) →
  let kept := List.filter (λ s, negb (has_id (parseInt id) s)) l in
  ((∀ r, r ∈ l → has_id (parseInt id) r = false) →
     DELETE_speaker id req w = (Ok (error_response 404 "Not found"), w1)
     ∧ vars w1 = vars w ∧ files w1 = files w)
  ∧ ((∃ r, r ∈ l ∧ has_id (parseInt id) r = true) →
     ∃ w2, DELETE_speaker id req w
             = (Ok (ok_response (VObj {[ "message" := VStr "Deleted" ]})), w2)
           ∧ speakersCache (vars w2) = Some kept
           ∧ (data <$> speakers_json (files w2)) = Some (Some kept)
           ∧ (∀ r, r ∈ kept ↔ r ∈ l ∧ has_id (parseInt id) r = false)
           ∧ (length kept < length l)%nat
           ∧ content_json (files w2) = content_json (files w)
           ∧ users_json (files w2) = users_json (files w)).
Proof.
  intros Hauth Hread kept. pose proof (readSpeakersCached_frame w) as [Hv Hf].
  rewrite Hread in Hv, Hf. simpl in Hv, Hf. split.
  - intros Hnone. split; [|done]. by apply DELETE_speaker_not_found with l.
  - intros (r & Hr & Hid).
    assert (length kept < length l)%nat as Hlt.
    { apply (filter_length_lt _ l r Hr). by rewrite Hid. }
    unfold DELETE_speaker, requireAuth. rewrite Hauth.
    rewrite (bind_ok _ _ _ _ _ Hread). cbv zeta. fold kept.
    assert ((length kept =? length l)%nat = false) as -> by (apply Nat.eqb_neq; lia).
    unfold bind at 1.
    destruct (writeSpeakersCached_run kept w1) as (w2 & -> & _ & Hc & Hd & Hcj & Huj & _).
    exists w2. split_and!; [done..| |done|congruence|congruence].
    intros r0. unfold kept.
    rewrite list_elem_of_In, List.filter_In, <- list_elem_of_In, negb_true_iff. done.
Qed.

Lemma delete_speaker_outcomes_witness :
  let w := serving [ada] in
  isAuthenticated (session (request (BObject ∅))) = true
  ∧ readSpeakersCached w = (Ok [ada], (readSpeakersCached w).2)
  ∧ (∃ r, r ∈ [ada] ∧ has_id (parseInt "1") r = true)
  ∧ ∃ w2, DELETE_speaker "1" (request (BObject ∅)) w
            = (Ok (ok_response (VObj {[ "message" := VStr "Deleted" ]})), w2)
          ∧ speakersCache (vars w2) = Some [].
Proof.
  intros w.
  assert (readSpeakersCached w = (Ok [ada], (readSpeakersCached w).2)) as Hread
    by (vm_compute; reflexivity).
  assert (∃ r, r ∈ [ada] ∧ has_id (parseInt "1") r = true) as Hin.
  { exists ada. split; [left|reflexivity]. }
  split_and!; [reflexivity|exact Hread|exact Hin|].
  destruct (delete_speaker_outcomes "1" (request (BObject ∅)) w _ [ada] eq_refl Hread)
    as [_ Hdel].
  destruct (Hdel Hin) as (w2 & Hrun & Hcache & _).
  exists w2. split; [exact Hrun|exact Hcache].
Defined.

(** X11.  After a deletion that succeeded, a get of the same [:id] is
    answered 404, and a get of any segment that parses to another number,
    or to none, is answered as it was before the deletion. *)
Theorem deleted_speaker_is_gone (id : string) (req : Request) (w w1 : World)
    (l : list obj) :
  isAuthenticated (session req) = true →
  readSpeakersCached w = (Ok l, w1) →
  (∃ r, r ∈ l ∧ has_id (parseInt id) r = true) →
  ∃ w2, DELETE_speaker id req w
          = (Ok (ok_response (VObj {[ "message" := VStr "Deleted" ]})), w2)
        ∧ (GET_speaker id w2).1 = Ok (error_response 404 "Speaker not found")
        ∧ (∀ seg, parseInt seg ≠ parseInt id →
             (GET_speaker seg w2).1 = (GET_speaker seg w).1).
Proof.
  intros Hauth Hread (r & Hr & Hid).
  set (kept := List.filter (λ s, negb (has_id (parseInt id) s)) l).
  assert (length kept < length l)%nat as Hlt.
  { apply (filter_length_lt _ l r Hr). by rewrite Hid. }
  unfold DELETE_speaker, requireAuth. rewrite Hauth.
  rewrite (bind_ok _ _ _ _ _ Hread). cbv zeta. fold kept.
  assert ((length kept =? length l)%nat = false) as -> by (apply Nat.eqb_neq; lia).
  unfold bind at 1.
  destruct (writeSpeakersCached kept w1) as [[[]| |] w2] eqn:Hw;
    try (destruct (writeSpeakersCached_run kept w1) as (? & ? & _); congruence).
  destruct (readSpeakersCached_after_write kept w1 w2 Hw) as (w3 & Hread2).
  exists w2. split; [done|]. split.
  - rewrite (GET_speaker_run id w2 kept w3 Hread2). simpl.
    rewrite find_none; [done|].
    intros x. unfold kept.
    rewrite list_elem_of_In, List.filter_In, negb_true_iff. tauto.
  - intros seg Hseg.
    rewrite (GET_speaker_run seg w2 kept w3 Hread2), (GET_speaker_run seg w l w1 Hread).
    simpl. unfold kept. rewrite find_filter_agree; [done|].
    intros x Hx. apply negb_true_iff. destruct (has_id (parseInt id) x) eqn:Hx'; [|done].
    destruct Hseg. by apply (has_id_two _ _ x).
Qed.

Lemma deleted_speaker_is_gone_witness :
  let w := serving [ada] in
  isAuthenticated (session (request (BObject ∅))) = true
  ∧ readSpeakersCached w = (Ok [ada], (readSpeakersCached w).2)
  ∧ ∃ w2, DELETE_speaker "1" (request (BObject ∅)) w
            = (Ok (ok_response (VObj {[ "message" := VStr "Deleted" ]})), w2)
          ∧ (GET_speaker "1" w2).1 = Ok (error_response 404 "Speaker not found").
Proof.
  intros w.
  assert (readSpeakersCached w = (Ok [ada], (readSpeakersCached w).2)) as Hread
    by (vm_compute; reflexivity).
  split_and!; [reflexivity|exact Hread|].
  destruct (deleted_speaker_is_gone "1" (request (BObject ∅)) w _ [ada] eq_refl Hread)
    as (w2 & Hrun & Hgone & _).
  { exists ada. split; [left|reflexivity]. }
  exists w2. split; [exact Hrun|exact Hgone].
Defined.

(** ** Speakers: update and creation, followed by a get *)

Lemma find_first {A} (p : A → bool) l i x :
  l !! i = Some x → p x = true →
  (∀ j y, (j < i)%nat → l !! j = Some y → p y = false) →
  List.find p l = Some x.
Proof.
  revert i. induction l as [|y l IH]; intros i Hi Hx Hfirst; [done|].
  destruct i as [|i]; simpl in *.
  - simplify_eq. by rewrite Hx.
  - rewrite (Hfirst 0%nat y) by (done || lia).
    apply (IH i); [done..|]. intros j z Hj Hz. apply (Hfirst (S j)); [lia|done].
Qed.

Lemma find_insert_other {A} (p : A → bool) l i x x' :
  l !! i = Some x → p x = false → p x' = false →
  List.find p (<[i := x']> l) = List.find p l.
Proof.
  revert i. induction l as [|y l IH]; intros i Hi Hx Hx'; [done|].
  destruct i as [|i]; simpl in *.
  - simplify_eq. by rewrite Hx, Hx'.
  - destruct (p y); [done|]. by apply IH.
Qed.

Lemma PUT_speaker_run id req w l w1 i r :
  isAuthenticated (session req) = true →
  readSpeakersCached w = (Ok l, w1) →
  l !! i = Some r → has_id (parseInt id) r = true →
  (∀ j r0, (j < i)%nat → l !! j = Some r0 → has_id (parseInt id) r0 = false) →
  ∃ n w2,
    parseInt id = Int n
    ∧ let r' := <["id" := VNum n]> (spread (body req) ∪ r) in
      PUT_speaker id req w = (Ok (ok_response (VObj r')), w2)
      ∧ coherent SPEAKERS_FILE (files w2) (speakersCache (vars w2)) (<[i := r']> l)
      ∧ has_id (parseInt id) r' = true
      ∧ speakersCache (vars w2) = Some (<[i := r']> l)
      ∧ (data <$> speakers_json (files w2)) = Some (Some (<[i := r']> l)).
Proof.
  intros Hauth Hread Hi Hid Hfirst.
  destruct (has_id_lookup _ _ Hid) as (n & Hn & Hrid). exists n.
  unfold PUT_speaker, requireAuth. rewrite Hauth.
  rewrite (bind_ok _ _ _ _ _ Hread).
  rewrite (findIndex_first _ l i r Hi Hid Hfirst). rewrite Hi.
  change (default ∅ (Some r)) with r. rewrite Hrid. cbn [set_prop].
  set (r' := <["id" := VNum n]> (spread (body req) ∪ r)).
  unfold bind at 1.
  destruct (writeSpeakersCached_run (<[i := r']> l) w1) as (w2 & -> & Hc & Hv & Hd & _).
  assert (<[i := r']> l !! i = Some r') as ->.
  { apply list_lookup_insert_eq. by eapply lookup_lt_Some. }
  exists w2. split; [done|]. split_and!; [done..| |done|done].
  rewrite Hn. apply has_id_Int. subst r'. by rewrite lookup_insert_eq.
Qed.

(** X12.  After an update that succeeded, a get of the same [:id] answers
    with the updated record, and a get of any segment that parses to
    another number, or to none, is answered as it was before the update. *)
Theorem updated_speaker_is_served (id : string) (req : Request) (w w1 : World)
    (l : list obj) (i : nat) (r : obj) :
  isAuthenticated (session req) = true →
  readSpeakersCached w = (Ok l, w1) →
  l !! i = Some r → has_id (parseInt id) r = true →
  (∀ j r0, (j < i)%nat → l !! j = Some r0 → has_id (parseInt id) r0 = false) →
  ∃ r' w2,
    PUT_speaker id req w = (Ok (ok_response (VObj r')), w2)
    ∧ (GET_speaker id w2).1 = Ok (ok_response (VObj r'))
    ∧ (∀ seg, parseInt seg ≠ parseInt id →
         (GET_speaker seg w2).1 = (GET_speaker seg w).1).
Proof.
  intros Hauth Hread Hi Hid Hfirst.
  destruct (PUT_speaker_run id req w l w1 i r Hauth Hread Hi Hid Hfirst)
    as (n & w2 & Hn & Hrun & Hc & Hid' & _).
  cbv zeta in *. set (r' := <["id" := VNum n]> (spread (body req) ∪ r)) in *.
  destruct (readSpeakersCached_coherent w2 _ Hc) as (w3 & Hread2 & _).
  exists r', w2. split; [done|]. split.
  - rewrite (GET_speaker_run id w2 _ w3 Hread2). simpl.
    rewrite (find_first _ _ i r'); [done| |done|].
    + apply list_lookup_insert_eq. by eapply lookup_lt_Some.
    + intros j y Hj Hy. rewrite list_lookup_insert_ne in Hy by lia. by apply (Hfirst j).
  - intros seg Hseg.
    rewrite (GET_speaker_run seg w2 _ w3 Hread2), (GET_speaker_run seg w l w1 Hread).
    simpl. rewrite (find_insert_other _ l i r r'); [done..| |].
    + destruct (has_id (parseInt seg) r) eqn:E; [|done].
      destruct Hseg. by apply (has_id_two _ _ r).
    + destruct (has_id (parseInt seg) r') eqn:E; [|done].
      destruct Hseg. by apply (has_id_two _ _ r').
Qed.

Lemma updated_speaker_is_served_witness :
  let w := serving [ada] in
  let req := request (BObject {[ "name" := VStr "Grace" ]}) in
  isAuthenticated (session req) = true
  ∧ readSpeakersCached w = (Ok [ada], (readSpeakersCached w).2)
  ∧ ∃ r' w2, PUT_speaker "1" req w = (Ok (ok_response (VObj r')), w2)
             ∧ (GET_speaker "1" w2).1 = Ok (ok_response (VObj r')).
Proof.
  intros w req.
  assert (readSpeakersCached w = (Ok [ada], (readSpeakersCached w).2)) as Hread
    by (vm_compute; reflexivity).
  split_and!; [reflexivity|exact Hread|].
  destruct (updated_speaker_is_served "1" req w _ [ada] 0%nat ada eq_refl Hread
              eq_refl eq_refl) as (r' & w2 & Hrun & Hget & _).
  { intros j r0 Hj. lia. }
  exists r', w2. split; [exact Hrun|exact Hget].
Defined.

(** X13.  An update is idempotent: sending the same body to the same [:id]
    again gets the same answer and leaves the same collection in cache and
    file. *)
Theorem update_twice_is_update_once (id : string) (req : Request) (w w1 : World)
    (l : list obj) (i : nat) (r : obj) :
  isAuthenticated (session req) = true →
  readSpeakersCached w = (Ok l, w1) →
  l !! i = Some r → has_id (parseInt id) r = true →
  (∀ j r0, (j < i)%nat → l !! j = Some r0 → has_id (parseInt id) r0 = false) →
  ∃ r' w2 w3,
    PUT_speaker id req w = (Ok (ok_response (VObj r')), w2)
    ∧ PUT_speaker id req w2 = (Ok (ok_response (VObj r')), w3)
    ∧ speakersCache (vars w3) = speakersCache (vars w2)
    ∧ (data <$> speakers_json (files w3)) = (data <$> speakers_json (files w2))
    ∧ speakersCache (vars w2) = Some (<[i := r']> l).
Proof.
  intros Hauth Hread Hi Hid Hfirst.
  destruct (PUT_speaker_run id req w l w1 i r Hauth Hread Hi Hid Hfirst)
    as (n & w2 & Hn & Hrun & Hc & Hid' & Hv & Hd).
  cbv zeta in *. set (r' := <["id" := VNum n]> (spread (body req) ∪ r)) in *.
  destruct (readSpeakersCached_coherent w2 _ Hc) as (w2' & Hread2 & _).
  assert (i < length l)%nat as Hlen by by eapply lookup_lt_Some.
  destruct (PUT_speaker_run id req w2 (<[i := r']> l) w2' i r' Hauth Hread2)
    as (n' & w3 & Hn' & Hrun2 & _ & _ & Hv2 & Hd2).
  { by apply list_lookup_insert_eq. }
  { done. }
  { intros j y Hj Hy. rewrite list_lookup_insert_ne in Hy by lia. by apply (Hfirst j). }
  cbv zeta in *. assert (n' = n) as -> by congruence.
  assert (<["id" := VNum n]> (spread (body req) ∪ r') = r') as Hsame.
  { apply map_eq. intros k. destruct (decide (k = "id")) as [->|Hk].
    - subst r'. by rewrite !lookup_insert_eq.
    - rewrite lookup_insert_ne by done. subst r'.
      rewrite lookup_union, lookup_insert_ne, lookup_union by done.
      destruct (spread (body req) !! k), (r !! k); done. }
  rewrite Hsame in Hrun2, Hv2, Hd2. rewrite list_insert_insert_eq in Hv2, Hd2.
  exists r', w2, w3. split_and!; [done|done|congruence|congruence|done].
Qed.

Lemma update_twice_is_update_once_witness :
  let w := serving [ada] in
  let req := request (BObject {[ "name" := VStr "Grace" ]}) in
  isAuthenticated (session req) = true
  ∧ readSpeakersCached w = (Ok [ada], (readSpeakersCached w).2)
  ∧ ∃ r' w2 w3, PUT_speaker "1" req w = (Ok (ok_response (VObj r')), w2)
                ∧ PUT_speaker "1" req w2 = (Ok (ok_response (VObj r')), w3).
Proof.
  intros w req.
  assert (readSpeakersCached w = (Ok [ada], (readSpeakersCached w).2)) as Hread
    by (vm_compute; reflexivity).
  split_and!; [reflexivity|exact Hread|].
  destruct (update_twice_is_update_once "1" req w _ [ada] 0%nat ada eq_refl Hread
              eq_refl eq_refl) as (r' & w2 & w3 & Hrun & Hrun2 & _).
  { intros j r0 Hj. lia. }
  exists r', w2, w3. split; [exact Hrun|exact Hrun2].
Defined.

Lemma find_app_last {A} (p : A → bool) l x :
  (∀ y, y ∈ l → p y = false) → p x = true → List.find p (l ++ [x]) = Some x.
Proof.
  intros Hl Hx. induction l as [|y l IH]; simpl; [by rewrite Hx|].
  rewrite (Hl y) by left. apply IH. intros z Hz. apply Hl. by right.
Qed.

Lemma id_of_elem r l n : r ∈ l → id_of r = Some n → n ∈ ids l.
Proof.
  intros Hr Hn. unfold ids. apply list_elem_of_omap. eauto.
Qed.

(** X14.  A creation whose body names no id, on a collection of records
    whose ids are safe integers below 2^53 - 1, no more of them than the
    engine accepts as arguments: the record it answers with comes last in
    the list that [GET /api/speakers] returns next, after the records that
    were there, and a get of a segment that parses to its id answers with
    it. *)
Theorem created_speaker_can_be_fetched (s : Session) (b : Body) (seg : string)
    (w : World) (l : list obj) :
  isAuthenticated s = true →
  coherent SPEAKERS_FILE (files w) (speakersCache (vars w)) l →
  integer_ids l →
  room_for 1 l w →
  spread b !! "id" = None →
  parseInt seg = Int (assigned_id l) →
  ∃ r w1,
    POST_speakers {| session := s; body := b |} w
      = (Ok {| status := 201; json := VObj r |}, w1)
    ∧ (GET_speakers w1).1 = Ok (ok_response (VArr (VObj <$> (l ++ [r])%list)))
    ∧ (GET_speaker seg w1).1 = Ok (ok_response (VObj r)).
Proof.
  intros Hauth Hc Hl Hroom Hb Hseg.
  destruct (create_follows_rule s b w l 0 Hauth Hc Hl Hroom Hb) as (w1 & Hrun & Hc1 & _ & _).
  cbv zeta in *. set (r := spread b ∪ {[ "id" := VNum (assigned_id l) ]}) in *.
  destruct (readSpeakersCached_coherent w1 _ Hc1) as (w2 & Hread & _).
  exists r, w1. split; [done|]. split.
  - unfold GET_speakers. by rewrite (bind_ok _ _ _ _ _ Hread).
  - rewrite (GET_speaker_run seg w1 _ w2 Hread), Hseg. simpl.
    rewrite find_app_last; [done| |].
    + intros y Hy. destruct (has_id (Int (assigned_id l)) y) eqn:E; [|done].
      apply has_id_Int in E.
      assert (assigned_id l ∈ ids l) as Hin.
      { apply (id_of_elem y); [done|]. unfold id_of. by rewrite E. }
      apply assigned_id_gt in Hin. lia.
    + apply has_id_Int. subst r. by rewrite lookup_union_r, lookup_singleton_eq.
Qed.

Lemma created_speaker_can_be_fetched_witness :
  let b := BObject {[ "name" := VStr "Ada" ]} in
  isAuthenticated admin = true
  ∧ coherent SPEAKERS_FILE (files fresh_server) (speakersCache (vars fresh_server)) []
  ∧ integer_ids []
  ∧ room_for 1 [] fresh_server
  ∧ spread b !! "id" = None
  ∧ parseInt "1" = Int (assigned_id [])
  ∧ ∃ r w1,
      POST_speakers {| session := admin; body := b |} fresh_server
        = (Ok {| status := 201; json := VObj r |}, w1)
      ∧ (GET_speaker "1" w1).1 = Ok (ok_response (VObj r)).
Proof.
  intros b.
  assert (room_for 1 [] fresh_server) as Hroom
    by (apply fresh_server_room; vm_compute; discriminate).
  split_and!;
    [reflexivity|exact fresh_server_coherent|constructor|exact Hroom|reflexivity|reflexivity|].
  destruct (created_speaker_can_be_fetched admin b "1" fresh_server [] eq_refl
              fresh_server_coherent (Forall_nil_2 _) Hroom eq_refl eq_refl)
    as (r & w1 & Hrun & _ & Hget).
  exists r, w1. split; [exact Hrun|exact Hget].
Defined.

Lemma ids_filter_NoDup (f : obj → bool) l : NoDup (ids l) → NoDup (ids (List.filter f l)).
Proof.
  unfold ids. induction l as [|r l IH]; simpl; [done|].
  destruct (id_of r) as [n|] eqn:Hn.
  - intros [Hnotin Hnd]%NoDup_cons. destruct (f r); simpl; [|by apply IH].
    rewrite Hn. apply NoDup_cons. split; [|by apply IH].
    intros (y & Hy & Hyn)%list_elem_of_omap. apply Hnotin.
    apply list_elem_of_omap. exists y. split; [|done].
    apply list_elem_of_In in Hy. apply List.filter_In in Hy as [Hy _].
    by apply list_elem_of_In.
  - intros Hnd. destruct (f r); simpl; [rewrite Hn|]; by apply IH.
Qed.

(** X15.  Distinct ids stay distinct: on a collection of records whose ids
    are safe integers, no two alike, every sequence of deletions and of
    creations that name no id, for which there is room (the ids stay safe
    integers and the records within the number of arguments the engine
    accepts), is answered throughout and leaves a collection whose ids are
    again integers, no two alike. *)
Theorem ids_stay_distinct (s : Session) (os : list op) (w : World) (l : list obj) :
  isAuthenticated s = true →
  coherent SPEAKERS_FILE (files w) (speakersCache (vars w)) l →
  integer_ids l → NoDup (ids l) →
  room_for (creations os) l w →
  Forall names_no_id os →
  ∃ rs w' l',
    run_ops s os w = (Ok rs, w')
    ∧ length rs = length os
    ∧ coherent SPEAKERS_FILE (files w') (speakersCache (vars w')) l'
    ∧ integer_ids l' ∧ NoDup (ids l').
Proof.
  intros Hauth Hc Hl Hnd Hroom Hos. revert w l Hc Hl Hnd Hroom.
  induction Hos as [|o os Ho _ IH]; intros w l Hc Hl Hnd Hroom.
  { exists [], w, l. done. }
  assert (∃ r w1 l1, run_op s o w = (Ok r, w1)
            ∧ coherent SPEAKERS_FILE (files w1) (speakersCache (vars w1)) l1
            ∧ integer_ids l1 ∧ NoDup (ids l1)
            ∧ room_for (creations os) l1 w1)
    as (r & w1 & l1 & Hr & Hc1 & Hl1 & Hnd1 & Hroom1).
  { destruct o as [b|id]; cbn [names_no_id run_op] in *.
    - rewrite creations_cons_create in Hroom.
      destruct (create_follows_rule s b w l _ Hauth Hc Hl Hroom Ho)
        as (w1 & ? & ? & ? & Hids & ?).
      do 3 eexists. split_and!; [done..| |done]. rewrite Hids.
      apply NoDup_app. split_and!; [done| |apply NoDup_singleton].
      intros n Hn ->%list_elem_of_singleton. apply assigned_id_gt in Hn. lia.
    - rewrite creations_cons_delete in Hroom.
      destruct (readSpeakersCached_coherent w l Hc) as (w1 & Hread & Hv & Hf).
      pose proof (limit_readSpeakersCached w) as Hlimit.
      rewrite Hread in Hlimit. simpl in Hlimit.
      pose proof (DELETE_speaker_run id {| session := s; body := BObject ∅ |} w l w1
                    Hauth Hread) as Hd. cbv zeta in Hd.
      destruct (_ =? _)%nat.
      + do 3 eexists. split; [exact Hd|]. rewrite Hv, Hf. split_and!; [done..|].
        destruct Hroom as (? & ? & ?). split_and!; [done..|]. by rewrite Hlimit.
      + destruct Hd as (w2 & ? & ? & Hlimit2). do 3 eexists. split_and!; [done..| | |].
        * by apply integer_ids_filter.
        * by apply ids_filter_NoDup.
        * apply (room_for_filter _ _ l w); [done|]. congruence. }
  destruct (IH w1 l1 Hc1 Hl1 Hnd1 Hroom1) as (rs & w' & l' & Hrs & Hlen & ? & ? & ?).
  exists (r :: rs), w', l'. split_and!; [|simpl; by rewrite Hlen|done..].
  cbn [run_ops]. rewrite (bind_ok _ _ _ _ _ Hr), (bind_ok _ _ _ _ _ Hrs). done.
Qed.

Lemma ids_stay_distinct_witness :
  let os := [Create (BObject ∅); Create (BObject ∅); Delete "2"; Create (BObject ∅)] in
  isAuthenticated admin = true
  ∧ coherent SPEAKERS_FILE (files fresh_server) (speakersCache (vars fresh_server)) []
  ∧ integer_ids [] ∧ NoDup (ids [])
  ∧ room_for (creations os) [] fresh_server
  ∧ Forall names_no_id os
  ∧ ∃ rs w' l',
      run_ops admin os fresh_server = (Ok rs, w')
      ∧ coherent SPEAKERS_FILE (files w') (speakersCache (vars w')) l'
      ∧ ids l' = [1; 2]
      ∧ NoDup (ids l').
Proof.
  intros os.
  assert (Forall names_no_id os) as Hos by (repeat constructor).
  assert (room_for (creations os) [] fresh_server) as Hroom
    by (apply fresh_server_room; vm_compute; discriminate).
  split_and!;
    [reflexivity|exact fresh_server_coherent|constructor|constructor|exact Hroom|exact Hos|].
  destruct (ids_stay_distinct admin os fresh_server [] eq_refl fresh_server_coherent
              (Forall_nil_2 _) (NoDup_nil_2) Hroom Hos)
    as (rs & w' & l' & Hrun & _ & Hc & _ & Hnd).
  assert (ids l' = [1; 2]) as Hids.
  { destruct Hc as (f & Hf & Hd & _).
    assert (match speakers_json (files (run_ops admin os fresh_server).2) ≫= data with
            | Some l => ids l
            | None => []
            end = [1; 2]) as Hfile by (vm_compute; reflexivity).
    rewrite Hrun in Hfile. cbn [lookup_file snd] in Hf, Hfile.
    rewrite Hf in Hfile. cbn [mbind option_bind] in Hfile. by rewrite Hd in Hfile. }
  exists rs, w', l'. split_and!; [exact Hrun|exact Hc|exact Hids|exact Hnd].
Defined.


(** ** Each route keeps to its own file *)

Section Preserves.

Context {T : Type} (g : World → T).

Lemma preserves_ret {A} (a : A) : preserves g (ret a).
Proof. by intros w. Qed.

Lemma preserves_throw {A} e : preserves g (@throw A e).
Proof. by intros w. Qed.

Lemma preserves_unmodelled {A} : preserves g (@unmodelled A).
Proof. by intros w. Qed.

Lemma preserves_bind {A B} (m : M A) (k : A → M B) :
  preserves g m → (∀ a, preserves g (k a)) → preserves g (bind m k).
Proof.
  intros Hm Hk w. unfold bind. specialize (Hm w).
  destruct (m w) as [[a| |] w1]; simpl in *; [|done..].
  by rewrite (Hk a w1).
Qed.

Lemma preserves_try_catch {A} (m h : M A) :
  preserves g m → preserves g h → preserves g (try_catch m h).
Proof.
  intros Hm Hh w. unfold try_catch. specialize (Hm w).
  destruct (m w) as [[a| |] w1]; simpl in *; [done| |done].
  by rewrite (Hh w1).
Qed.

Lemma preserves_requireAuth req (next : M Response) :
  preserves g next → preserves g (requireAuth req next).
Proof. intros Hn. unfold requireAuth. destruct (isAuthenticated _); [done|]. apply preserves_ret. Qed.

(** What only touches the environment. *)
Hypothesis g_env : ∀ e w, g (with_env e w) = g w.

Lemma preserves_Date_now : preserves g Date_now.
Proof. intros w. apply g_env. Qed.

Lemma preserves_console_error msg : preserves g (console_error msg).
Proof. intros w. apply g_env. Qed.

Lemma preserves_console_log msg : preserves g (console_log msg).
Proof. intros w. apply g_env. Qed.

Lemma preserves_readFile_parse {A} (p : path A) : preserves g (readFile_parse p).
Proof. intros w. unfold readFile_parse. repeat case_match; apply g_env. Qed.

Lemma preserves_fs_stat {A} (p : path A) : preserves g (fs_stat p).
Proof. intros w. unfold fs_stat. repeat case_match; apply g_env. Qed.

End Preserves.

Lemma beside_users_env e w : beside_users (with_env e w) = beside_users w.
Proof. done. Qed.
Lemma beside_speakers_env e w : beside_speakers (with_env e w) = beside_speakers w.
Proof. done. Qed.
Lemma beside_content_env e w : beside_content (with_env e w) = beside_content w.
Proof. done. Qed.

Lemma preserves_write_users d : preserves beside_users (writeFile_stringify USERS_FILE d).
Proof. by intros w. Qed.

Lemma preserves_writeSpeakersCached d : preserves beside_speakers (writeSpeakersCached d).
Proof. by intros w. Qed.

Lemma preserves_writeContentCached d : preserves beside_content (writeContentCached d).
Proof. by intros w. Qed.

Lemma preserves_readSpeakersCached : preserves beside_speakers readSpeakersCached.
Proof.
  intros w. destruct (readSpeakersCached_frame w) as [Hv Hf]. unfold beside_speakers.
  by rewrite Hv, Hf.
Qed.

Lemma preserves_await_hash bcrypt_hash d : preserves beside_users (await_hash bcrypt_hash d).
Proof. intros w. unfold await_hash. by case_match. Qed.

Lemma preserves_await_compare bcrypt_compare d h :
  preserves beside_users (await_compare bcrypt_compare d h).
Proof. intros w. unfold await_compare. by case_match. Qed.

Lemma preserves_shorter_than_8 {T} (g : World → T) v : preserves g (shorter_than_8 v).
Proof. intros w. unfold shorter_than_8. by repeat case_match. Qed.

Lemma preserves_test_username {T} (g : World → T) v : preserves g (test_username v).
Proof. intros w. unfold test_username. by repeat case_match. Qed.

Lemma preserves_spread_call {T A} (g : World → T) (xs : list A) : preserves g (spread_call xs).
Proof. intros w. unfold spread_call. by case_match. Qed.

Ltac frame_step :=
  first
    [ apply preserves_requireAuth
    | apply preserves_readSpeakersCached
    | apply preserves_writeSpeakersCached
    | apply preserves_writeContentCached
    | apply preserves_write_users
    | apply preserves_shorter_than_8
    | apply preserves_test_username
    | apply preserves_spread_call
    | apply preserves_await_hash
    | apply preserves_await_compare
    | apply preserves_Date_now; intros; reflexivity
    | apply preserves_console_error; intros; reflexivity
    | apply preserves_readFile_parse; intros; reflexivity
    | apply preserves_ret
    | apply preserves_throw
    | apply preserves_unmodelled
    | apply preserves_try_catch
    | apply preserves_bind; [|intros ?]
    | match goal with
      | |- preserves _ (if ?b then _ else _) => destruct b
      | |- preserves _ (match ?x with _ => _ end) => destruct x
      end ].

Ltac frame := cbv zeta; repeat frame_step.

(** X16.  The three groups of routes keep to their own data, however a
    request ends.  The speakers routes touch neither the content file, the
    users file nor the content variables; the content route touches
    neither the speakers file, the users file nor the speakers variables;
    the login and user routes touch neither the speakers file, the content
    file nor any cache variable. *)
Theorem routes_keep_to_their_own_data
    (bcrypt_compare : option value → option value → option bool)
    (bcrypt_hash : nat → option value → option string) (toISOString : Z → string)
    (param : string) (req : Request) :
  (preserves beside_speakers GET_speakers
   ∧ preserves beside_speakers (GET_speaker param)
   ∧ preserves beside_speakers (POST_speakers req)
   ∧ preserves beside_speakers (PUT_speaker param req)
   ∧ preserves beside_speakers (DELETE_speaker param req))
  ∧ preserves beside_content (PUT_content req)
  ∧ (preserves beside_users (POST_auth_login bcrypt_compare req)
     ∧ preserves beside_users (GET_users req)
     ∧ preserves beside_users (DELETE_user param req)
     ∧ preserves beside_users (POST_users bcrypt_hash toISOString req)
     ∧ preserves beside_users (POST_users_reset_password bcrypt_hash toISOString param req)
     ∧ preserves beside_users
         (POST_auth_change_password bcrypt_compare bcrypt_hash toISOString req)).
Proof.
  split_and!.
  - unfold GET_speakers. frame.
  - unfold GET_speaker. frame.
  - unfold POST_speakers. frame.
  - unfold PUT_speaker. frame.
  - unfold DELETE_speaker. frame.
  - unfold PUT_content. frame.
  - unfold POST_auth_login. frame.
  - unfold GET_users. frame.
  - unfold DELETE_user. frame.
  - unfold POST_users, new_Date_toISOString. frame.
  - unfold POST_users_reset_password, new_Date_toISOString. frame.
  - unfold POST_auth_change_password, new_Date_toISOString. frame.
Qed.

(** ** Creating a user *)

Lemma truthy_string s : truthy (Some (VStr s)) = true ↔ s ≠ "".
Proof.
  unfold truthy, option_truthy, truthy, value_truthy. rewrite negb_true_iff.
  split.
  - intros Hs ->. done.
  - intros Hs. by apply String.eqb_neq.
Qed.

Lemma shorter_than_8_string p w :
  shorter_than_8 (Some (VStr p)) w = (Ok (Z.of_nat (utf16_length p) <? 8), w).
Proof. done. Qed.

Lemma test_username_string u w :
  test_username (Some (VStr u)) w = (Ok (username_pattern u), w).
Proof. done. Qed.

Lemma find_some_elem {A} (p : A → bool) l x : x ∈ l → p x = true → is_Some (List.find p l).
Proof.
  induction l as [|y l IH]; [by intros ?%elem_of_nil|].
  intros [->|Hx]%elem_of_cons Hp; simpl.
  - rewrite Hp. eauto.
  - destruct (p y); eauto.
Qed.

Section CreateUser.

Context (bcrypt_hash : nat → option value → option string) (toISOString : Z → string).

(** X17.  What a logged-in [POST /api/users] refuses, each with a 400 and
    nothing written: a missing or empty user name or password; a password
    of fewer than 8 code units; a user name that is not made of letters,
    digits, underscores and hyphens; a user name that a record of the users
    file already carries.  The checks come in this order, the file being
    read only for the last. *)
Theorem create_user_refusals (req : Request) (w : World) :
  isAuthenticated (session req) = true →
  let r := POST_users bcrypt_hash toISOString req w in
  let name := body_prop (body req) "username" in
  let password := body_prop (body req) "password" in
  (truthy name = false ∨ truthy password = false →
     r = (Ok (error_response 400 "Username and password required"), w))
  ∧ (∀ u p, name = Some (VStr u) → password = Some (VStr p) → u ≠ "" → p ≠ "" →
       ((utf16_length p < 8)%nat →
          r = (Ok (error_response 400 "Password must be at least 8 characters"), w))
       ∧ ((8 ≤ utf16_length p)%nat → username_pattern u = false →
          r = (Ok (error_response 400
                 "Username can only contain letters, numbers, underscores, and hyphens"), w))
       ∧ (∀ f users x,
            (8 ≤ utf16_length p)%nat → username_pattern u = true →
            users_json (files w) = Some f → data f = Some users →
            x ∈ users → x !! "username" = Some (VStr u) →
            r.1 = Ok (error_response 400 "Username already exists")
            ∧ files r.2 = files w ∧ vars r.2 = vars w)).
Proof.
  intros Hauth r name password. subst r name password.
  unfold POST_users, requireAuth, try_catch. rewrite Hauth. cbv zeta. split.
  - intros [-> | ->]; cbn [negb orb]; [done|]. by rewrite orb_true_r.
  - intros u p -> -> Hu%truthy_string Hp%truthy_string. rewrite Hu, Hp. cbn [negb orb].
    rewrite (bind_ok _ _ _ _ _ (shorter_than_8_string p w)). split_and!.
    + intros Hlen. assert ((Z.of_nat (utf16_length p) <? 8) = true) as -> by lia. done.
    + intros Hlen Hpat. assert ((Z.of_nat (utf16_length p) <? 8) = false) as -> by lia.
      rewrite (bind_ok _ _ _ _ _ (test_username_string u w)), Hpat. done.
    + intros f users x Hlen Hpat Hf Hd Hx Hname.
      assert ((Z.of_nat (utf16_length p) <? 8) = false) as -> by lia.
      rewrite (bind_ok _ _ _ _ _ (test_username_string u w)), Hpat. cbn [negb].
      rewrite (bind_ok _ _ _ _ _ (readFile_parse_users w f users Hf Hd)).
      destruct (find_some_elem (λ u0 : obj, strict_eq (u0 !! "username") (Some (VStr u)))
                  users x Hx) as [y ->].
      { rewrite Hname. by apply strict_eq_string. }
      done.
Qed.

(** The record [POST /api/users] stores. *)
Lemma POST_users_run req w f users u p h :
  isAuthenticated (session req) = true →
  body_prop (body req) "username" = Some (VStr u) →
  body_prop (body req) "password" = Some (VStr p) →
  u ≠ "" → (8 ≤ utf16_length p)%nat → username_pattern u = true →
  users_json (files w) = Some f → data f = Some users →
  (∀ x, x ∈ users → x !! "username" ≠ Some (VStr u)) →
  bcrypt_hash (tick (env w)) (Some (VStr p)) = Some h →
  let createdAt := toISOString (now (env w) (tick (env w))) in
  let newUser := object_literal
    [("username", Some (VStr u)); ("passwordHash", Some (VStr h));
     ("createdAt", Some (VStr createdAt)); ("createdBy", session_username req)] in
  ∃ w',
    POST_users bcrypt_hash toISOString req w
      = (Ok {| status := 201;
               json := VObj (object_literal
                 [("username", Some (VStr u)); ("createdAt", Some (VStr createdAt));
                  ("createdBy", session_username req)]) |}, w')
    ∧ users_json (files w')
      = Some (File (Some (users ++ [newUser])%list) (mtime (env w) (S (tick (env w))))).
Proof.
  intros Hauth Hu Hp Hne Hlen Hpat Hf Hd Hfree Hh createdAt newUser.
  assert (p ≠ "") as Hpne by (intros ->; simpl in Hlen; lia).
  unfold POST_users, requireAuth, try_catch. rewrite Hauth. cbv zeta.
  rewrite Hu, Hp. rewrite (proj2 (truthy_string u) Hne), (proj2 (truthy_string p) Hpne).
  cbn [negb orb].
  rewrite (bind_ok _ _ _ _ _ (shorter_than_8_string p w)).
  assert ((Z.of_nat (utf16_length p) <? 8) = false) as -> by lia.
  rewrite (bind_ok _ _ _ _ _ (test_username_string u w)), Hpat. cbn [negb].
  rewrite (bind_ok _ _ _ _ _ (readFile_parse_users w f users Hf Hd)).
  rewrite find_none.
  2:{ intros x Hx. apply not_true_iff_false. rewrite strict_eq_string. by apply Hfree. }
  unfold bind at 1, await_hash. wsimpl. rewrite Hh.
  unfold new_Date_toISOString, bind, Date_now, ret, writeFile_stringify. wsimpl.
  subst newUser createdAt.
  destruct (session_username req); eexists; (split; [reflexivity|reflexivity]).
Qed.

(** X18.  A logged-in [POST /api/users] with a user name of letters, digits,
    underscores and hyphens that no record carries, and a password of at
    least 8 code units that [bcrypt.hash] accepts: the answer is 201 with
    the name, the creation time and the creator, and neither the password
    nor its hash; the users file keeps its records, in order, followed by
    one new record with the name, the hash, the creation time and the
    creator. *)
Theorem create_user_appends (req : Request) (w : World) (f : file (list obj))
    (users : list obj) (u p h : string) :
  isAuthenticated (session req) = true →
  body_prop (body req) "username" = Some (VStr u) →
  body_prop (body req) "password" = Some (VStr p) →
  u ≠ "" → (8 ≤ utf16_length p)%nat → username_pattern u = true →
  users_json (files w) = Some f → data f = Some users →
  (∀ x, x ∈ users → x !! "username" ≠ Some (VStr u)) →
  bcrypt_hash (tick (env w)) (Some (VStr p)) = Some h →
  ∃ answer newUser w',
    POST_users bcrypt_hash toISOString req w
      = (Ok {| status := 201; json := VObj answer |}, w')
    ∧ answer !! "username" = Some (VStr u)
    ∧ answer !! "createdAt" = Some (VStr (toISOString (now (env w) (tick (env w)))))
    ∧ answer !! "createdBy" = session_username req
    ∧ answer !! "passwordHash" = None ∧ answer !! "password" = None
    ∧ (data <$> users_json (files w')) = Some (Some (users ++ [newUser])%list)
    ∧ newUser !! "username" = Some (VStr u)
    ∧ newUser !! "passwordHash" = Some (VStr h)
    ∧ newUser !! "createdAt" = Some (VStr (toISOString (now (env w) (tick (env w)))))
    ∧ newUser !! "createdBy" = session_username req
    ∧ newUser !! "password" = None.
Proof.
  intros Hauth Hu Hp Hne Hlen Hpat Hf Hd Hfree Hh.
  destruct (POST_users_run req w f users u p h Hauth Hu Hp Hne Hlen Hpat Hf Hd Hfree Hh)
    as (w' & Hrun & Hfile).
  cbv zeta in Hrun, Hfile.
  eexists _, (object_literal
    [("username", Some (VStr u)); ("passwordHash", Some (VStr h));
     ("createdAt", Some (VStr (toISOString (now (env w) (tick (env w))))));
     ("createdBy", session_username req)]), w'.
  split; [exact Hrun|]. rewrite Hfile. clear Hrun Hfile.
  destruct (session_username req); split_and!; reflexivity.
Qed.

End CreateUser.

Lemma create_user_refusals_witness :
  let req := from_admin {[ "username" := VStr "eve"; "password" := VStr "short" ]} in
  isAuthenticated (session req) = true
  ∧ (utf16_length "short" < 8)%nat
  ∧ POST_users toy_hash toy_date req toy_server
    = (Ok (error_response 400 "Password must be at least 8 characters"), toy_server).
Proof.
  intros req. split; [reflexivity|]. split; [simpl; lia|].
  destruct (create_user_refusals toy_hash toy_date req toy_server eq_refl) as [_ Hrest].
  destruct (Hrest "eve" "short" eq_refl eq_refl) as (Hshort & _); [discriminate..|].
  apply Hshort. simpl. lia.
Defined.

Lemma create_user_appends_witness :
  let req := from_admin {[ "username" := VStr "eve"; "password" := VStr "longenough" ]} in
  isAuthenticated (session req) = true
  ∧ username_pattern "eve" = true
  ∧ users_json (files toy_server) = Some (File (Some toy_users) 1002)
  ∧ (∀ x, x ∈ toy_users → x !! "username" ≠ Some (VStr "eve"))
  ∧ toy_hash (tick (env toy_server)) (Some (VStr "longenough")) = Some "$toy$longenough"
  ∧ ∃ answer newUser w',
      POST_users toy_hash toy_date req toy_server
        = (Ok {| status := 201; json := VObj answer |}, w')
      ∧ answer !! "passwordHash" = None
      ∧ (data <$> users_json (files w')) = Some (Some (toy_users ++ [newUser])%list)
      ∧ newUser !! "passwordHash" = Some (VStr "$toy$longenough").
Proof.
  intros req.
  assert (∀ x, x ∈ toy_users → x !! "username" ≠ Some (VStr "eve")) as Hfree.
  { intros x Hx. unfold toy_users in Hx.
    apply elem_of_cons in Hx as [->|Hx]; [discriminate|].
    apply list_elem_of_singleton in Hx as ->. discriminate. }
  split_and!; [reflexivity|reflexivity|reflexivity|exact Hfree|reflexivity|].
  destruct (create_user_appends toy_hash toy_date req toy_server (File (Some toy_users) 1002)
              toy_users "eve" "longenough" "$toy$longenough" eq_refl eq_refl eq_refl)
    as (answer & newUser & w' & Hrun & _ & _ & _ & Hnohash & _ & Hfile & _ & Hhash & _);
    [discriminate|simpl; lia|reflexivity|reflexivity|reflexivity|exact Hfree|reflexivity|].
  exists answer, newUser, w'. split_and!; [exact Hrun|exact Hnohash|exact Hfile|exact Hhash].
Defined.

(** X19.  A user that was just created can log in: when [bcrypt.compare]
    accepts the password against the hash [bcrypt.hash] gave, a login with
    the new name and that password answers 200 and leaves the session
    authenticated under the new name. *)
Theorem created_user_can_log_in
    (bcrypt_compare : option value → option value → option bool)
    (bcrypt_hash : nat → option value → option string) (toISOString : Z → string)
    (req login : Request) (w : World) (f : file (list obj)) (users : list obj)
    (u p h : string) :
  isAuthenticated (session req) = true →
  body_prop (body req) "username" = Some (VStr u) →
  body_prop (body req) "password" = Some (VStr p) →
  u ≠ "" → (8 ≤ utf16_length p)%nat → username_pattern u = true →
  users_json (files w) = Some f → data f = Some users →
  (∀ x, x ∈ users → x !! "username" ≠ Some (VStr u)) →
  bcrypt_hash (tick (env w)) (Some (VStr p)) = Some h →
  bcrypt_compare (Some (VStr p)) (Some (VStr h)) = Some true →
  body_prop (body login) "username" = Some (VStr u) →
  body_prop (body login) "password" = Some (VStr p) →
  ∃ created w1 w2,
    POST_users bcrypt_hash toISOString req w = (Ok {| status := 201; json := created |}, w1)
    ∧ POST_auth_login bcrypt_compare login w1
      = (Ok (ok_response (VObj {[ "success" := VBool true;
                                  "message" := VStr "Login successful";
                                  "username" := VStr u ]}),
             {| isAuthenticated := true; username := Some (VStr u) |}), w2).
Proof.
  intros Hauth Hu Hp Hne Hlen Hpat Hf Hd Hfree Hh Hcmp Hlu Hlp.
  assert (p ≠ "") as Hpne by (intros ->; simpl in Hlen; lia).
  destruct (POST_users_run bcrypt_hash toISOString req w f users u p h
              Hauth Hu Hp Hne Hlen Hpat Hf Hd Hfree Hh) as (w1 & Hrun & Hfile).
  cbv zeta in Hrun, Hfile.
  eexists _, w1, _. split; [exact Hrun|].
  unfold POST_auth_login, try_catch. cbv zeta. rewrite Hlu, Hlp.
  rewrite (proj2 (truthy_string u) Hne), (proj2 (truthy_string p) Hpne). cbn [negb orb].
  rewrite (bind_ok _ _ _ _ _ (readFile_parse_users w1 _ _ Hfile eq_refl)).
  rewrite find_app_last.
  - unfold await_compare.
    assert (∀ c, object_literal
      [("username", Some (VStr u)); ("passwordHash", Some (VStr h));
       ("createdAt", Some (VStr (toISOString (now (env w) (tick (env w))))));
       ("createdBy", c)] !! "passwordHash" = Some (VStr h)) as ->
      by (intros [?|]; reflexivity).
    rewrite Hcmp. reflexivity.
  - intros x Hx. apply not_true_iff_false. rewrite strict_eq_string. by apply Hfree.
  - apply strict_eq_string. destruct (session_username req); reflexivity.
Qed.

Lemma created_user_can_log_in_witness :
  let req := from_admin {[ "username" := VStr "eve"; "password" := VStr "longenough" ]} in
  let login := credentials "eve" "longenough" in
  (∀ x, x ∈ toy_users → x !! "username" ≠ Some (VStr "eve"))
  ∧ toy_compare (Some (VStr "longenough")) (Some (VStr "$toy$longenough")) = Some true
  ∧ ∃ created w1 w2,
      POST_users toy_hash toy_date req toy_server
        = (Ok {| status := 201; json := created |}, w1)
      ∧ POST_auth_login toy_compare login w1
        = (Ok (ok_response (VObj {[ "success" := VBool true;
                                    "message" := VStr "Login successful";
                                    "username" := VStr "eve" ]}),
               {| isAuthenticated := true; username := Some (VStr "eve") |}), w2).
Proof.
  intros req login.
  assert (∀ x, x ∈ toy_users → x !! "username" ≠ Some (VStr "eve")) as Hfree.
  { intros x Hx. unfold toy_users in Hx.
    apply elem_of_cons in Hx as [->|Hx]; [discriminate|].
    apply list_elem_of_singleton in Hx as ->. discriminate. }
  split_and!; [exact Hfree|reflexivity|].
  apply (created_user_can_log_in toy_compare toy_hash toy_date req login toy_server
           (File (Some toy_users) 1002) toy_users "eve" "longenough" "$toy$longenough");
    first [reflexivity | discriminate | exact Hfree | (simpl; lia)].
Defined.

(** ** Changing and resetting a password *)

Section Passwords.

Context (bcrypt_compare : option value → option value → option bool)
        (bcrypt_hash : nat → option value → option string) (toISOString : Z → string).

Lemma await_compare_ok d x b w :
  bcrypt_compare d x = Some b → await_compare bcrypt_compare d x w = (Ok b, w).
Proof. unfold await_compare. by intros ->. Qed.

Lemma await_hash_ok d h w :
  bcrypt_hash (tick (env w)) d = Some h → await_hash bcrypt_hash d w = (Ok h, w).
Proof. unfold await_hash. by intros ->. Qed.

(** X20.  A logged-in [POST /api/auth/change-password].  Refused with 400
    and nothing read: a missing or empty current or new password, then a
    new password of fewer than 8 code units.  With the users file read:
    404 when no record carries the session's user name; 401 when
    [bcrypt.compare] does not accept the current password against the hash
    of the first such record, the file staying as it is; otherwise 200,
    and the file holds the same records with, in that one, the new hash
    and the time of the change, every other field kept. *)
Theorem change_password_outcomes (req : Request) (w : World) :
  isAuthenticated (session req) = true →
  let r := POST_auth_change_password bcrypt_compare bcrypt_hash toISOString req w in
  let current := body_prop (body req) "currentPassword" in
  let new := body_prop (body req) "newPassword" in
  let mine := λ x : obj, strict_eq (x !! "username") (session_username req) in
  (truthy current = false ∨ truthy new = false →
     r = (Ok (error_response 400 "Current and new password required"), w))
  ∧ (∀ c p, current = Some (VStr c) → new = Some (VStr p) → c ≠ "" → p ≠ "" →
       ((utf16_length p < 8)%nat →
          r = (Ok (error_response 400 "New password must be at least 8 characters"), w))
       ∧ (∀ f users,
            (8 ≤ utf16_length p)%nat →
            users_json (files w) = Some f → data f = Some users →
            ((∀ x, x ∈ users → mine x = false) →
               r.1 = Ok (error_response 404 "User not found") ∧ files r.2 = files w)
            ∧ (∀ i user,
                 users !! i = Some user → mine user = true →
                 (∀ j x, (j < i)%nat → users !! j = Some x → mine x = false) →
                 (bcrypt_compare (Some (VStr c)) (user !! "passwordHash") = Some false →
                    r.1 = Ok (error_response 401 "Current password is incorrect")
                    ∧ files r.2 = files w)
                 ∧ (∀ h,
                      bcrypt_compare (Some (VStr c)) (user !! "passwordHash") = Some true →
                      bcrypt_hash (tick (env w)) (Some (VStr p)) = Some h →
                      r.1 = Ok (ok_response (VObj
                              {[ "success" := VBool true;
                                 "message" := VStr "Password changed successfully" ]}))
                      ∧ (data <$> users_json (files r.2))
                        = Some (Some (<[i :=
                            <["passwordChangedAt" :=
                                VStr (toISOString (now (env w) (tick (env w))))]>
                              (<["passwordHash" := VStr h]> user)]> users)))))).
Proof.
  intros Hauth r current new mine. subst r current new.
  unfold POST_auth_change_password, requireAuth, try_catch. rewrite Hauth. cbv zeta. split.
  - intros [-> | ->]; cbn [negb orb]; [done|]. by rewrite orb_true_r.
  - intros c p -> -> Hc%truthy_string Hp%truthy_string. rewrite Hc, Hp. cbn [negb orb].
    rewrite (bind_ok _ _ _ _ _ (shorter_than_8_string p w)). split.
    { intros Hlen. assert ((Z.of_nat (utf16_length p) <? 8) = true) as -> by lia. done. }
    intros f users Hlen Hf Hd.
    assert ((Z.of_nat (utf16_length p) <? 8) = false) as -> by lia.
    rewrite (bind_ok _ _ _ _ _ (readFile_parse_users w f users Hf Hd)). fold mine. split.
    { intros Hnone. by rewrite (findIndex_none mine users Hnone). }
    intros i user Hi Hmine Hfirst.
    rewrite (findIndex_first mine users i user Hi Hmine Hfirst), Hi.
    change (default ∅ (Some user)) with user.
    split.
    + intros Hcmp. by rewrite (bind_ok _ _ _ _ _ (await_compare_ok _ _ _ _ Hcmp)).
    + intros h Hcmp Hh. rewrite (bind_ok _ _ _ _ _ (await_compare_ok _ _ _ _ Hcmp)).
      cbn [negb].
      rewrite (bind_ok _ _ _ _ _
        (await_hash_ok _ h (with_env (record_io (ReadFile (path_name USERS_FILE)) (env w)) w)
           Hh)).
      split; reflexivity.
Qed.

Lemma reset_password_run (name : string) (req : Request) (w : World) (p : string)
    (f : file (list obj)) (users : list obj) (i : nat) (user : obj) (h : string) :
  let named := λ x : obj, strict_eq (x !! "username") (Some (VStr name)) in
  isAuthenticated (session req) = true →
  body_prop (body req) "newPassword" = Some (VStr p) → p ≠ "" →
  (8 ≤ utf16_length p)%nat →
  users_json (files w) = Some f → data f = Some users →
  users !! i = Some user → named user = true →
  (∀ j x, (j < i)%nat → users !! j = Some x → named x = false) →
  bcrypt_hash (tick (env w)) (Some (VStr p)) = Some h →
  let r := POST_users_reset_password bcrypt_hash toISOString name req w in
  r.1 = Ok (ok_response (VObj {[ "success" := VBool true;
                                 "message" := VStr "Password reset successfully" ]}))
  ∧ (data <$> users_json (files r.2))
    = Some (Some (<[i :=
        set_prop "passwordResetBy" (session_username req)
          (<["passwordChangedAt" := VStr (toISOString (now (env w) (tick (env w))))]>
             (<["passwordHash" := VStr h]> user))]> users)).
Proof.
  intros named Hauth Hnew Hp%truthy_string Hlen Hf Hd Hi Hnamed Hfirst Hh r. subst r.
  unfold POST_users_reset_password, requireAuth, try_catch. rewrite Hauth. cbv zeta.
  rewrite Hnew, Hp. cbn [negb].
  rewrite (bind_ok _ _ _ _ _ (shorter_than_8_string p w)).
  assert ((Z.of_nat (utf16_length p) <? 8) = false) as -> by lia.
  rewrite (bind_ok _ _ _ _ _ (readFile_parse_users w f users Hf Hd)). fold named.
  rewrite (findIndex_first named users i user Hi Hnamed Hfirst), Hi.
  change (default ∅ (Some user)) with user.
  rewrite (bind_ok _ _ _ _ _
    (await_hash_ok _ h (with_env (record_io (ReadFile (path_name USERS_FILE)) (env w)) w)
       Hh)).
  split; reflexivity.
Qed.

(** X21.  A logged-in [POST /api/users/:username/reset-password].  Refused
    with 400 and nothing read: a missing or empty new password, then one of
    fewer than 8 code units.  With the users file read: 404 when no record
    carries the name; otherwise 200, and the file holds the same records
    with, in the first record of that name, the new hash, the time of the
    change and the name of the session that reset it, every other field
    kept.  The current password is not asked for. *)
Theorem reset_password_outcomes (name : string) (req : Request) (w : World) :
  isAuthenticated (session req) = true →
  let r := POST_users_reset_password bcrypt_hash toISOString name req w in
  let new := body_prop (body req) "newPassword" in
  let named := λ x : obj, strict_eq (x !! "username") (Some (VStr name)) in
  (truthy new = false → r = (Ok (error_response 400 "New password required"), w))
  ∧ (∀ p, new = Some (VStr p) → p ≠ "" →
       ((utf16_length p < 8)%nat →
          r = (Ok (error_response 400 "Password must be at least 8 characters"), w))
       ∧ (∀ f users,
            (8 ≤ utf16_length p)%nat →
            users_json (files w) = Some f → data f = Some users →
            ((∀ x, x ∈ users → named x = false) →
               r.1 = Ok (error_response 404 "User not found") ∧ files r.2 = files w)
            ∧ (∀ i user h,
                 users !! i = Some user → named user = true →
                 (∀ j x, (j < i)%nat → users !! j = Some x → named x = false) →
                 bcrypt_hash (tick (env w)) (Some (VStr p)) = Some h →
                 r.1 = Ok (ok_response (VObj
                         {[ "success" := VBool true;
                            "message" := VStr "Password reset successfully" ]}))
                 ∧ (data <$> users_json (files r.2))
                   = Some (Some (<[i :=
                       set_prop "passwordResetBy" (session_username req)
                         (<["passwordChangedAt" :=
                              VStr (toISOString (now (env w) (tick (env w))))]>
                            (<["passwordHash" := VStr h]> user))]> users))))).
Proof.
  intros Hauth r new named. subst r new.
  unfold POST_users_reset_password, requireAuth, try_catch. rewrite Hauth. cbv zeta. split.
  - intros ->. done.
  - intros p -> Hp%truthy_string. rewrite Hp. cbn [negb].
    rewrite (bind_ok _ _ _ _ _ (shorter_than_8_string p w)). split.
    { intros Hlen. assert ((Z.of_nat (utf16_length p) <? 8) = true) as -> by lia. done. }
    intros f users Hlen Hf Hd.
    assert ((Z.of_nat (utf16_length p) <? 8) = false) as -> by lia.
    rewrite (bind_ok _ _ _ _ _ (readFile_parse_users w f users Hf Hd)). fold named. split.
    { intros Hnone. by rewrite (findIndex_none named users Hnone). }
    intros i user h Hi Hnamed Hfirst Hh.
    rewrite (findIndex_first named users i user Hi Hnamed Hfirst), Hi.
    change (default ∅ (Some user)) with user.
    rewrite (bind_ok _ _ _ _ _
      (await_hash_ok _ h (with_env (record_io (ReadFile (path_name USERS_FILE)) (env w)) w)
         Hh)).
    split; reflexivity.
Qed.

End Passwords.

Lemma change_password_outcomes_witness :
  let req := from_admin {[ "currentPassword" := VStr "changeme123";
                           "newPassword" := VStr "newpassword1" ]} in
  isAuthenticated (session req) = true
  ∧ users_json (files toy_server) = Some (File (Some toy_users) 1002)
  ∧ toy_compare (Some (VStr "changeme123")) (Some (VStr "$toy$changeme123")) = Some true
  ∧ toy_hash (tick (env toy_server)) (Some (VStr "newpassword1")) = Some "$toy$newpassword1"
  ∧ (POST_auth_change_password toy_compare toy_hash toy_date req toy_server).1
    = Ok (ok_response (VObj {[ "success" := VBool true;
                               "message" := VStr "Password changed successfully" ]})).
Proof.
  intros req. split_and!; [reflexivity..|].
  destruct (change_password_outcomes toy_compare toy_hash toy_date req toy_server eq_refl)
    as [_ Hrest].
  destruct (Hrest "changeme123" "newpassword1" eq_refl eq_refl) as [_ Hread];
    [discriminate..|].
  destruct (Hread (File (Some toy_users) 1002) toy_users) as [_ Hfound];
    [simpl; lia|reflexivity..|].
  destruct (Hfound 0%nat (default ∅ (head toy_users)) eq_refl eq_refl) as [_ Hok].
  { intros j x Hj. lia. }
  destruct (Hok "$toy$newpassword1" eq_refl eq_refl) as [Hr _]. exact Hr.
Defined.

Lemma reset_password_outcomes_witness :
  let req := from_admin {[ "newPassword" := VStr "newpassword1" ]} in
  isAuthenticated (session req) = true
  ∧ users_json (files toy_server) = Some (File (Some toy_users) 1002)
  ∧ toy_hash (tick (env toy_server)) (Some (VStr "newpassword1")) = Some "$toy$newpassword1"
  ∧ (POST_users_reset_password toy_hash toy_date "guest" req toy_server).1
    = Ok (ok_response (VObj {[ "success" := VBool true;
                               "message" := VStr "Password reset successfully" ]})).
Proof.
  intros req. split_and!; [reflexivity..|].
  destruct (reset_password_outcomes toy_hash toy_date "guest" req toy_server eq_refl)
    as [_ Hrest].
  destruct (Hrest "newpassword1" eq_refl) as [_ Hread]; [discriminate|].
  destruct (Hread (File (Some toy_users) 1002) toy_users) as [_ Hfound];
    [simpl; lia|reflexivity..|].
  assert (toy_users !! 1%nat = Some (default ∅ (toy_users !! 1%nat))) as Hguest
    by reflexivity.
  destruct (Hfound 1%nat (default ∅ (toy_users !! 1%nat)) "$toy$newpassword1"
              Hguest eq_refl) as [Hr _]; [|reflexivity|exact Hr].
  intros j x Hj Hx. assert (j = 0%nat) as -> by lia.
  injection Hx as <-. reflexivity.
Defined.

(** X22.  A reset takes effect: after it, a login with the name and the new
    password, which [bcrypt.compare] accepts against the new hash, answers
    200 and leaves the session authenticated under that name. *)
Theorem reset_password_takes_effect
    (bcrypt_compare : option value → option value → option bool)
    (bcrypt_hash : nat → option value → option string) (toISOString : Z → string)
    (name p h : string) (req login : Request) (w : World) (f : file (list obj))
    (users : list obj) (i : nat) (user : obj) :
  let named := λ x : obj, strict_eq (x !! "username") (Some (VStr name)) in
  isAuthenticated (session req) = true →
  body_prop (body req) "newPassword" = Some (VStr p) →
  name ≠ "" → (8 ≤ utf16_length p)%nat →
  users_json (files w) = Some f → data f = Some users →
  users !! i = Some user → named user = true →
  (∀ j x, (j < i)%nat → users !! j = Some x → named x = false) →
  bcrypt_hash (tick (env w)) (Some (VStr p)) = Some h →
  bcrypt_compare (Some (VStr p)) (Some (VStr h)) = Some true →
  body_prop (body login) "username" = Some (VStr name) →
  body_prop (body login) "password" = Some (VStr p) →
  let r := POST_users_reset_password bcrypt_hash toISOString name req w in
  (POST_auth_login bcrypt_compare login r.2).1
  = Ok (ok_response (VObj {[ "success" := VBool true;
                             "message" := VStr "Login successful";
                             "username" := VStr name ]}),
        {| isAuthenticated := true; username := Some (VStr name) |}).
Proof.
  intros named Hauth Hnew Hne Hlen Hf Hd Hi Hnamed Hfirst Hh Hcmp Hlu Hlp r.
  assert (p ≠ "") as Hpne by (intros ->; simpl in Hlen; lia).
  destruct (reset_password_run bcrypt_hash toISOString name req w p f users i user h
              Hauth Hnew Hpne Hlen Hf Hd Hi Hnamed Hfirst Hh) as [_ Hfile].
  fold r in Hfile.
  destruct (users_json (files r.2)) as [f'|] eqn:Hf'; [|done].
  simpl in Hfile. injection Hfile as Hd'.
  unfold POST_auth_login, try_catch. cbv zeta. rewrite Hlu, Hlp.
  rewrite (proj2 (truthy_string name) Hne), (proj2 (truthy_string p) Hpne). cbn [negb orb].
  rewrite (bind_ok _ _ _ _ _ (readFile_parse_users r.2 f' _ Hf' Hd')).
  set (user' := set_prop "passwordResetBy" (session_username req) _).
  assert (user' !! "username" = user !! "username") as Hname'.
  { subst user'. destruct (session_username req); cbn [set_prop].
    - by rewrite !lookup_insert_ne.
    - by rewrite lookup_delete_ne, !lookup_insert_ne. }
  assert (user' !! "passwordHash" = Some (VStr h)) as Hhash'.
  { subst user'. destruct (session_username req); cbn [set_prop].
    - by rewrite lookup_insert_ne, lookup_insert_ne, lookup_insert_eq.
    - by rewrite lookup_delete_ne, lookup_insert_ne, lookup_insert_eq. }
  rewrite (find_first named _ i user').
  - unfold await_compare. rewrite Hhash', Hcmp. reflexivity.
  - apply list_lookup_insert_eq. by eapply lookup_lt_Some.
  - unfold named. by rewrite Hname'.
  - intros j x Hj Hx. rewrite list_lookup_insert_ne in Hx by lia. by apply (Hfirst j).
Qed.

Lemma reset_password_takes_effect_witness :
  let req := from_admin {[ "newPassword" := VStr "newpassword1" ]} in
  let login := credentials "guest" "newpassword1" in
  users_json (files toy_server) = Some (File (Some toy_users) 1002)
  ∧ toy_compare (Some (VStr "newpassword1")) (Some (VStr "$toy$newpassword1")) = Some true
  ∧ (POST_auth_login toy_compare login
       (POST_users_reset_password toy_hash toy_date "guest" req toy_server).2).1
    = Ok (ok_response (VObj {[ "success" := VBool true;
                               "message" := VStr "Login successful";
                               "username" := VStr "guest" ]}),
          {| isAuthenticated := true; username := Some (VStr "guest") |}).
Proof.
  intros req login. split_and!; [reflexivity..|].
  apply (reset_password_takes_effect toy_compare toy_hash toy_date "guest" "newpassword1"
           "$toy$newpassword1" req login toy_server (File (Some toy_users) 1002) toy_users
           1%nat (default ∅ (toy_users !! 1%nat)));
    first [reflexivity | discriminate | (simpl; lia) | idtac].
  intros j x Hj Hx. assert (j = 0%nat) as -> by lia.
  injection Hx as <-. reflexivity.
Defined.

(** ** The users file stays in good order *)

Lemma users_in_order_files w w' : files w' = files w → users_in_order w → users_in_order w'.
Proof. intros Hf (f & users & ?). exists f, users. by rewrite Hf. Qed.

Lemma users_in_order_write users' w :
  users' ≠ [] → NoDup (usernames users') →
  users_in_order (writeFile_stringify USERS_FILE users' w).2.
Proof. intros Hne Hnd. eexists _, users'. split_and!; [reflexivity..|done|done]. Qed.

Lemma in_order_requireAuth req (next : M Response) w :
  (users_in_order w → users_in_order (next w).2) →
  users_in_order w → users_in_order (requireAuth req next w).2.
Proof. unfold requireAuth. destruct (isAuthenticated _); [done|]. by intros _. Qed.

Lemma in_order_try_catch {A} (m : M A) msg (a : A) w :
  users_in_order (m w).2 →
  users_in_order (try_catch m (console_error msg ;; ret a) w).2.
Proof.
  unfold try_catch. destruct (m w) as [[?| |] w1]; simpl; [done| |done].
  by apply users_in_order_files.
Qed.

Lemma shorter_than_8_world v w : (shorter_than_8 v w).2 = w.
Proof. unfold shorter_than_8. by repeat case_match. Qed.

Lemma test_username_world v w : (test_username v w).2 = w.
Proof. unfold test_username. by repeat case_match. Qed.

Lemma string_name_truthy req :
  string_name req → truthy (body_prop (body req) "username") = true →
  ∃ u, body_prop (body req) "username" = Some (VStr u).
Proof.
  unfold string_name. destruct (body_prop (body req) "username") as [[]|]; try done. eauto.
Qed.

Lemma usernames_insert_same users i user user' :
  users !! i = Some user → user' !! "username" = user !! "username" →
  usernames (<[i := user']> users) = usernames users.
Proof.
  intros Hi Hname. unfold usernames. rewrite list_fmap_insert, Hname.
  apply list_insert_id. by rewrite list_lookup_fmap, Hi.
Qed.

Lemma usernames_filter_NoDup (g : obj → bool) users :
  NoDup (usernames users) → NoDup (usernames (List.filter g users)).
Proof.
  unfold usernames. induction users as [|x users IH]; simpl; [done|].
  intros [Hnotin Hnd]%NoDup_cons. destruct (g x); simpl; [|by apply IH].
  apply NoDup_cons. split; [|by apply IH].
  intros (y & Hy & Hin)%list_elem_of_fmap. apply Hnotin.
  apply list_elem_of_fmap. exists y. split; [done|].
  apply list_elem_of_In in Hin. apply List.filter_In in Hin as [Hin _].
  by apply list_elem_of_In.
Qed.

Lemma filter_one_name (name : option value) users :
  NoDup (usernames users) →
  (length users ≤ S (length (List.filter
     (λ u : obj, negb (strict_eq (u !! "username") name)) users)))%nat.
Proof.
  unfold usernames. induction users as [|x users IH]; simpl; [lia|].
  intros [Hnotin Hnd]%NoDup_cons. specialize (IH Hnd).
  destruct (strict_eq (x !! "username") name) eqn:E; simpl; [|lia].
  rewrite filter_all; [lia|].
  intros y Hy. apply negb_true_iff, not_true_iff_false. intros E'.
  apply Hnotin. apply list_elem_of_fmap. exists y. split; [|done].
  clear -E E'. destruct (x !! "username") as [[]|], name as [[]|], (y !! "username") as [[]|];
    simpl in *; try done.
  all: apply bool_decide_eq_true in E; apply bool_decide_eq_true in E'; congruence.
Qed.

Section InOrder.

Context (bcrypt_compare : option value → option value → option bool)
        (bcrypt_hash : nat → option value → option string) (toISOString : Z → string).

Lemma POST_users_in_order req w :
  string_name req →
  users_in_order w → users_in_order (POST_users bcrypt_hash toISOString req w).2.
Proof.
  intros Hstr Hok. unfold POST_users. apply in_order_requireAuth; [|done]. intros _.
  apply in_order_try_catch. cbv zeta.
  destruct (negb (truthy (body_prop (body req) "username")) || _) eqn:Hcred; [done|].
  apply orb_false_iff in Hcred as [Hu%negb_false_iff _].
  destruct (string_name_truthy req Hstr Hu) as [u Hv].
  unfold bind at 1. pose proof (shorter_than_8_world (body_prop (body req) "password") w).
  destruct (shorter_than_8 _ w) as [[[]| |] w0]; simpl in *; subst w0; [done| |done..].
  unfold bind at 1. pose proof (test_username_world (body_prop (body req) "username") w).
  destruct (test_username _ w) as [[[]| |] w0]; simpl in *; subst w0; [|done..].
  cbn [negb].
  destruct Hok as (f & users & Hf & Hd & Hne & Hnd).
  rewrite (bind_ok _ _ _ _ _ (readFile_parse_users w f users Hf Hd)).
  destruct (List.find _ users) eqn:Hfind.
  { apply users_in_order_files with w; [done|]. by exists f, users. }
  unfold bind at 1, await_hash. wsimpl.
  destruct (bcrypt_hash _ _) as [h|]; [|by exists f, users].
  unfold new_Date_toISOString, bind, Date_now, ret. wsimpl.
  apply users_in_order_write; [by destruct users|].
  unfold usernames. rewrite fmap_app. apply NoDup_app. split_and!; [done| |].
  - intros a Ha ->%list_elem_of_singleton.
    apply list_elem_of_fmap in Ha as (x & Hx & Hin).
    assert (object_literal
      [("username", body_prop (body req) "username"); ("passwordHash", Some (VStr h));
       ("createdAt", Some (VStr (toISOString (now (env w) (tick (env w))))));
       ("createdBy", session_username req)] !! "username" = Some (VStr u)) as Hnew.
    { rewrite Hv. destruct (session_username req); reflexivity. }
    rewrite Hnew in Hx.
    apply list_elem_of_In in Hin. pose proof (List.find_none _ _ Hfind x Hin) as Hno.
    simpl in Hno. rewrite Hv in Hno. symmetry in Hx.
    apply (proj2 (strict_eq_string _ _)) in Hx. congruence.
  - apply NoDup_singleton.
Qed.

Lemma DELETE_user_in_order name req w :
  users_in_order w → users_in_order (DELETE_user name req w).2.
Proof.
  intros Hok. unfold DELETE_user. apply in_order_requireAuth; [|done]. intros _.
  apply in_order_try_catch.
  destruct (strict_eq _ _); [done|].
  destruct Hok as (f & users & Hf & Hd & Hne & Hnd).
  rewrite (bind_ok _ _ _ _ _ (readFile_parse_users w f users Hf Hd)).
  destruct (length users <=? 1)%nat eqn:Hlen.
  { apply users_in_order_files with w; [done|]. by exists f, users. }
  apply Nat.leb_gt in Hlen. cbv zeta.
  destruct (_ =? _)%nat.
  { apply users_in_order_files with w; [done|]. by exists f, users. }
  unfold bind, ret. apply users_in_order_write.
  - pose proof (filter_one_name (Some (VStr name)) users Hnd) as Hone.
    intros E. rewrite E in Hone. simpl in Hone. lia.
  - by apply usernames_filter_NoDup.
Qed.

Lemma reset_password_in_order name req w :
  users_in_order w →
  users_in_order (POST_users_reset_password bcrypt_hash toISOString name req w).2.
Proof.
  intros Hok. unfold POST_users_reset_password. apply in_order_requireAuth; [|done].
  intros _. apply in_order_try_catch. cbv zeta.
  destruct (negb _); [done|].
  unfold bind at 1. pose proof (shorter_than_8_world (body_prop (body req) "newPassword") w).
  destruct (shorter_than_8 _ w) as [[[]| |] w0]; simpl in *; subst w0; [done| |done..].
  destruct Hok as (f & users & Hf & Hd & Hne & Hnd).
  rewrite (bind_ok _ _ _ _ _ (readFile_parse_users w f users Hf Hd)).
  unfold findIndex.
  destruct (list_find _ users) as [[i user]|] eqn:Hfind;
    cbn [fmap option_fmap option_map fst].
  2:{ apply users_in_order_files with w; [done|]. by exists f, users. }
  apply list_find_Some in Hfind as (Hi & _). rewrite Hi.
  change (default ∅ (Some user)) with user.
  unfold bind at 1, await_hash. wsimpl.
  destruct (bcrypt_hash _ _) as [h|]; [|by exists f, users].
  unfold new_Date_toISOString, bind, Date_now, ret. wsimpl.
  apply users_in_order_write.
  - intros E. apply (f_equal length) in E. rewrite length_insert in E. by destruct users.
  - rewrite (usernames_insert_same users i user); [done..|].
    destruct (session_username req); cbn [set_prop].
    + by rewrite !lookup_insert_ne.
    + by rewrite lookup_delete_ne, !lookup_insert_ne.
Qed.

Lemma change_password_in_order req w :
  users_in_order w →
  users_in_order
    (POST_auth_change_password bcrypt_compare bcrypt_hash toISOString req w).2.
Proof.
  intros Hok. unfold POST_auth_change_password. apply in_order_requireAuth; [|done].
  intros _. apply in_order_try_catch. cbv zeta.
  destruct (negb _ || _); [done|].
  unfold bind at 1. pose proof (shorter_than_8_world (body_prop (body req) "newPassword") w).
  destruct (shorter_than_8 _ w) as [[[]| |] w0]; simpl in *; subst w0; [done| |done..].
  destruct Hok as (f & users & Hf & Hd & Hne & Hnd).
  rewrite (bind_ok _ _ _ _ _ (readFile_parse_users w f users Hf Hd)).
  unfold findIndex.
  destruct (list_find _ users) as [[i user]|] eqn:Hfind;
    cbn [fmap option_fmap option_map fst].
  2:{ apply users_in_order_files with w; [done|]. by exists f, users. }
  apply list_find_Some in Hfind as (Hi & _). rewrite Hi.
  change (default ∅ (Some user)) with user.
  unfold bind at 1, await_compare.
  destruct (bcrypt_compare _ _) as [[]|]; [|by exists f, users..].
  unfold ret at 1. cbn [negb].
  unfold bind at 1, await_hash. wsimpl.
  destruct (bcrypt_hash _ _) as [h|]; [|by exists f, users].
  unfold new_Date_toISOString, bind, Date_now, ret. wsimpl.
  apply users_in_order_write.
  - intros E. apply (f_equal length) in E. rewrite length_insert in E. by destruct users.
  - rewrite (usernames_insert_same users i user); [done..|].
    by rewrite !lookup_insert_ne.
Qed.

End InOrder.

Lemma login_files bcrypt_compare req w :
  files (POST_auth_login bcrypt_compare req w).2 = files w.
Proof.
  unfold POST_auth_login, try_catch, await_compare. cbv zeta.
  destruct (negb _ || _); [done|].
  unfold bind, readFile_parse, console_error, ret, throw. cbn [lookup_file].
  repeat case_match; simplify_eq/=; done.
Qed.

Lemma GET_users_files req w : files (GET_users req w).2 = files w.
Proof.
  unfold GET_users, requireAuth, try_catch. destruct (isAuthenticated _); [|done].
  unfold bind, readFile_parse, console_error, ret. cbn [lookup_file].
  repeat case_match; simplify_eq/=; done.
Qed.

(** X23.  The users file stays in good order.  If it parses, holds at least
    one account and no two accounts of the same user name, it is so again
    after any sequence of requests to the login and user routes (list,
    create, delete, reset password, change password) in which the user
    names of the create requests are strings, whatever the sessions and
    the rest of the bodies, and however each request ends. *)
Theorem users_file_stays_in_order
    (bcrypt_compare : option value → option value → option bool)
    (bcrypt_hash : nat → option value → option string) (toISOString : Z → string)
    (os : list account_op) (w : World) :
  Forall creates_string_names os →
  users_in_order w →
  users_in_order (run_account_ops bcrypt_compare bcrypt_hash toISOString os w).2.
Proof.
  intros Hos. revert w. induction Hos as [|o os Ho _ IH]; intros w Hok; [done|].
  assert (users_in_order (run_account_op bcrypt_compare bcrypt_hash toISOString o w).2)
    as Hstep.
  { destruct o; cbn [run_account_op creates_string_names] in *.
    - unfold bind. pose proof (login_files bcrypt_compare req w) as Hf.
      destruct (POST_auth_login _ req w) as [[?| |] w1]; simpl in *;
        by apply users_in_order_files with w.
    - apply users_in_order_files with w; [apply GET_users_files|done].
    - by apply POST_users_in_order.
    - by apply DELETE_user_in_order.
    - by apply reset_password_in_order.
    - by apply change_password_in_order. }
  cbn [run_account_ops]. unfold bind at 1.
  destruct (run_account_op _ _ _ o w) as [[r| |] w1]; simpl in *; [|done..].
  specialize (IH w1 Hstep). unfold bind, ret.
  destruct (run_account_ops _ _ _ os w1) as [[rs| |] w2]; simpl in *; done.
Qed.

Lemma toy_server_in_order : users_in_order toy_server.
Proof.
  exists (File (Some toy_users) 1002), toy_users. split_and!; [reflexivity..|done|].
  unfold usernames, toy_users. cbn [fmap list_fmap].
  apply NoDup_cons. split; [|apply NoDup_singleton].
  intros Hin%list_elem_of_singleton. vm_compute in Hin. discriminate.
Qed.

Lemma users_file_stays_in_order_witness :
  let os :=
    [ AddUser (from_admin {[ "username" := VStr "eve"; "password" := VStr "longenough" ]});
      RemoveUser "guest" (from_admin ∅);
      RemoveUser "admin" (from_admin ∅);
      ResetPassword "eve" (from_admin {[ "newPassword" := VStr "evenlonger1" ]}) ] in
  Forall creates_string_names os
  ∧ users_in_order toy_server
  ∧ users_in_order (run_account_ops toy_compare toy_hash toy_date os toy_server).2
  ∧ (usernames <$> (users_json
       (files (run_account_ops toy_compare toy_hash toy_date os toy_server).2) ≫= data))
    = Some [Some (VStr "admin"); Some (VStr "eve")].
Proof.
  intros os.
  assert (Forall creates_string_names os) as Hos by (repeat constructor).
  split_and!; [exact Hos|exact toy_server_in_order| |vm_compute; reflexivity].
  apply (users_file_stays_in_order toy_compare toy_hash toy_date os toy_server Hos).
  exact toy_server_in_order.
Defined.

(** The condition on the user names is needed: an array such as [["eve"]]
    passes the pattern test through its conversion to a string and is
    [===] to no stored name, so a second creation with it is not refused. *)
Example array_user_name_is_added_twice :
  let req := from_admin {[ "username" := VArr [VStr "eve"]; "password" := VStr "longenough" ]} in
  let w2 := (run_account_ops toy_compare toy_hash toy_date [AddUser req; AddUser req]
               toy_server).2 in
  (usernames <$> (users_json (files w2) ≫= data))
  = Some [Some (VStr "admin"); Some (VStr "guest");
          Some (VArr [VStr "eve"]); Some (VArr [VStr "eve"])].
Proof. vm_compute. reflexivity. Qed.

(** ** The user routes on an unreadable users file *)

Lemma readFile_parse_unreadable w :
  users_json (files w) = None ∨ (∃ f, users_json (files w) = Some f ∧ data f = None) →
  ∃ e, readFile_parse USERS_FILE w
       = (Throw e, with_env (record_io (ReadFile (path_name USERS_FILE)) (env w)) w).
Proof.
  unfold readFile_parse. cbn [lookup_file].
  intros [-> | (f & -> & ->)]; eauto.
Qed.

Lemma bind_throw {A B} (m : M A) (k : A → M B) w e w1 :
  m w = (Throw e, w1) → bind m k w = (Throw e, w1).
Proof. unfold bind. by intros ->. Qed.

(** X24.  The user routes catch what they throw.  With a users file that is
    missing or does not parse, a logged-in request that passes the checks
    made before the file is read is answered 500 with the message of its
    route, and no file is written. *)
Theorem user_routes_answer_500
    (bcrypt_compare : option value → option value → option bool)
    (bcrypt_hash : nat → option value → option string) (toISOString : Z → string)
    (name : string) (req : Request) (w : World) :
  isAuthenticated (session req) = true →
  users_json (files w) = None ∨ (∃ f, users_json (files w) = Some f ∧ data f = None) →
  let failed (r : result Response * World) msg :=
    r.1 = Ok (error_response 500 msg) ∧ files r.2 = files w ∧ vars r.2 = vars w in
  failed (GET_users req w) "Failed to get users"
  ∧ (strict_eq (Some (VStr name)) (username (session req)) = false →
       failed (DELETE_user name req w) "Failed to delete user")
  ∧ (∀ u p, body_prop (body req) "username" = Some (VStr u) →
            body_prop (body req) "password" = Some (VStr p) →
            (8 ≤ utf16_length p)%nat → username_pattern u = true →
       failed (POST_users bcrypt_hash toISOString req w) "Failed to create user")
  ∧ (∀ p, body_prop (body req) "newPassword" = Some (VStr p) → (8 ≤ utf16_length p)%nat →
       failed (POST_users_reset_password bcrypt_hash toISOString name req w)
         "Failed to reset password")
  ∧ (∀ c p, body_prop (body req) "currentPassword" = Some (VStr c) → c ≠ "" →
            body_prop (body req) "newPassword" = Some (VStr p) → (8 ≤ utf16_length p)%nat →
       failed (POST_auth_change_password bcrypt_compare bcrypt_hash toISOString req w)
         "Failed to change password").
Proof.
  intros Hauth Hfile failed. subst failed.
  destruct (readFile_parse_unreadable w Hfile) as (e & Hthrow).
  assert (∀ p, (8 ≤ utf16_length p)%nat → p ≠ "") as Hlong.
  { intros p Hlen ->. simpl in Hlen. lia. }
  assert (∀ p, (8 ≤ utf16_length p)%nat → (Z.of_nat (utf16_length p) <? 8) = false)
    as Hnotshort by (intros; lia).
  assert (∀ u, username_pattern u = true → u ≠ "") as Hpat by (by intros ? ? ->).
  unfold GET_users, DELETE_user, POST_users, POST_users_reset_password,
    POST_auth_change_password, requireAuth, try_catch. rewrite Hauth. cbv zeta.
  split; [|split; [|split; [|split]]].
  - by rewrite (bind_throw _ _ _ _ _ Hthrow).
  - intros ->. by rewrite (bind_throw _ _ _ _ _ Hthrow).
  - intros u p -> -> Hlen Hu.
    rewrite (proj2 (truthy_string u) (Hpat u Hu)), (proj2 (truthy_string p) (Hlong p Hlen)).
    cbn [negb orb].
    rewrite (bind_ok _ _ _ _ _ (shorter_than_8_string p w)), (Hnotshort p Hlen).
    rewrite (bind_ok _ _ _ _ _ (test_username_string u w)), Hu. cbn [negb].
    by rewrite (bind_throw _ _ _ _ _ Hthrow).
  - intros p -> Hlen. rewrite (proj2 (truthy_string p) (Hlong p Hlen)). cbn [negb].
    rewrite (bind_ok _ _ _ _ _ (shorter_than_8_string p w)), (Hnotshort p Hlen).
    by rewrite (bind_throw _ _ _ _ _ Hthrow).
  - intros c p -> Hc -> Hlen.
    rewrite (proj2 (truthy_string c) Hc), (proj2 (truthy_string p) (Hlong p Hlen)).
    cbn [negb orb].
    rewrite (bind_ok _ _ _ _ _ (shorter_than_8_string p w)), (Hnotshort p Hlen).
    by rewrite (bind_throw _ _ _ _ _ Hthrow).
Qed.

Lemma user_routes_answer_500_witness :
  isAuthenticated (session (from_admin ∅)) = true
  ∧ users_json (files (blank ticking)) = None
  ∧ (GET_users (from_admin ∅) (blank ticking)).1
    = Ok (error_response 500 "Failed to get users").
Proof.
  split; [reflexivity|]. split; [reflexivity|].
  destruct (user_routes_answer_500 reject_all toy_hash toy_date "guest" (from_admin ∅)
              (blank ticking) eq_refl (or_introl eq_refl)) as ((Hr & _) & _).
  exact Hr.
Defined.

(** ** After a user is deleted *)

(** X25.  A deleted user cannot log in: after a deletion that succeeded, a
    login under the deleted name is answered 401 with [Invalid credentials],
    whatever the password. *)
Theorem deleted_user_cannot_log_in
    (bcrypt_compare : option value → option value → option bool)
    (name : string) (req login : Request) (w : World) (f : file (list obj))
    (users : list obj) (u : obj) :
  isAuthenticated (session req) = true →
  strict_eq (Some (VStr name)) (username (session req)) = false →
  users_json (files w) = Some f → data f = Some users →
  (1 < length users)%nat →
  u ∈ users → u !! "username" = Some (VStr name) →
  body_prop (body login) "username" = Some (VStr name) →
  truthy (body_prop (body login) "username") = true →
  truthy (body_prop (body login) "password") = true →
  let r := DELETE_user name req w in
  r.1 = Ok (ok_response (VObj {[ "success" := VBool true;
                                 "message" := VStr "User deleted successfully" ]}))
  ∧ (POST_auth_login bcrypt_compare login r.2).1
    = Ok (error_response 401 "Invalid credentials", session login).
Proof.
  intros Hauth Hself Hf Hd Hlen Hu Hname Hlu Htu Htp r. subst r.
  set (others := List.filter
    (λ x : obj, negb (strict_eq (x !! "username") (Some (VStr name)))) users).
  assert (∃ w', DELETE_user name req w
            = (Ok (ok_response (VObj {[ "success" := VBool true;
                                        "message" := VStr "User deleted successfully" ]})), w')
            ∧ users_json (files w') = Some (File (Some others) (mtime (env w) (tick (env w)))))
    as (w' & -> & Hf').
  { unfold DELETE_user, requireAuth, try_catch. rewrite Hauth, Hself.
    rewrite (bind_ok _ _ _ _ _ (readFile_parse_users w f users Hf Hd)).
    apply Nat.leb_gt in Hlen. rewrite Hlen. cbv zeta. fold others.
    assert ((length others =? length users)%nat = false) as ->.
    { apply Nat.eqb_neq.
      assert (length others < length users)%nat; [|lia].
      apply (filter_length_lt _ users u Hu). rewrite Hname.
      apply negb_false_iff. by apply strict_eq_string. }
    eexists. split; reflexivity. }
  split; [done|]. cbn [snd].
  unfold POST_auth_login, try_catch. cbv zeta. rewrite Htu, Htp. cbn [negb orb].
  rewrite (bind_ok _ _ _ _ _ (readFile_parse_users w' _ others Hf' eq_refl)).
  rewrite find_none; [done|].
  intros x Hx. rewrite Hlu. unfold others in Hx.
  apply list_elem_of_In, List.filter_In in Hx as [_ Hx]. by apply negb_true_iff.
Qed.

Lemma deleted_user_cannot_log_in_witness :
  let req := from_admin ∅ in
  let login := credentials "guest" "guestguest" in
  users_json (files toy_server) = Some (File (Some toy_users) 1002)
  ∧ (∃ u, u ∈ toy_users ∧ u !! "username" = Some (VStr "guest"))
  ∧ (POST_auth_login toy_compare login (DELETE_user "guest" req toy_server).2).1
    = Ok (error_response 401 "Invalid credentials", session login).
Proof.
  intros req login.
  assert (default ∅ (toy_users !! 1%nat) ∈ toy_users) as Hin by (right; left).
  split; [reflexivity|]. split; [eexists; split; [exact Hin|reflexivity]|].
  destruct (deleted_user_cannot_log_in toy_compare "guest" req login toy_server
              (File (Some toy_users) 1002) toy_users (default ∅ (toy_users !! 1%nat))
              eq_refl eq_refl eq_refl eq_refl) as [_ Hlogin];
    [simpl; lia|exact Hin|reflexivity..|exact Hlogin].
Defined.

(** ** An update that says nothing *)

(** X26.  An update whose body is the empty object, or names only the id,
    changes no record: the answer is the record as it was and the
    collection written to cache and file is the collection as it was. *)
Theorem update_without_fields_changes_nothing (id : string) (req : Request)
    (w w1 : World) (l : list obj) (i : nat) (r : obj) :
  isAuthenticated (session req) = true →
  readSpeakersCached w = (Ok l, w1) →
  l !! i = Some r → has_id (parseInt id) r = true →
  (∀ j r0, (j < i)%nat → l !! j = Some r0 → has_id (parseInt id) r0 = false) →
  (∀ k, k ≠ "id" → spread (body req) !! k = None) →
  ∃ w2,
    PUT_speaker id req w = (Ok (ok_response (VObj r)), w2)
    ∧ speakersCache (vars w2) = Some l
    ∧ (data <$> speakers_json (files w2)) = Some (Some l).
Proof.
  intros Hauth Hread Hi Hid Hfirst Hempty.
  destruct (PUT_speaker_run id req w l w1 i r Hauth Hread Hi Hid Hfirst)
    as (n & w2 & Hn & Hrun & _ & _ & Hv & Hd).
  cbv zeta in *.
  assert (<["id" := VNum n]> (spread (body req) ∪ r) = r) as Hsame.
  { apply map_eq. intros k. destruct (decide (k = "id")) as [->|Hk].
    - rewrite lookup_insert_eq. rewrite Hn in Hid. by apply has_id_Int in Hid.
    - rewrite lookup_insert_ne, lookup_union, (Hempty k Hk) by done.
      by destruct (r !! k). }
  rewrite Hsame in Hrun, Hv, Hd. rewrite (list_insert_id l i r Hi) in Hv, Hd.
  by exists w2.
Qed.

Lemma update_without_fields_changes_nothing_witness :
  let w := serving [ada] in
  let req := request (BObject {[ "id" := VNum 99 ]}) in
  isAuthenticated (session req) = true
  ∧ readSpeakersCached w = (Ok [ada], (readSpeakersCached w).2)
  ∧ (∀ k, k ≠ "id" → spread (body req) !! k = None)
  ∧ ∃ w2, PUT_speaker "1" req w = (Ok (ok_response (VObj ada)), w2)
          ∧ speakersCache (vars w2) = Some [ada].
Proof.
  intros w req.
  assert (readSpeakersCached w = (Ok [ada], (readSpeakersCached w).2)) as Hread
    by (vm_compute; reflexivity).
  assert (∀ k, k ≠ "id" → spread (body req) !! k = None) as Hempty.
  { intros k Hk. simpl. by apply lookup_singleton_ne. }
  split_and!; [reflexivity|exact Hread|exact Hempty|].
  destruct (update_without_fields_changes_nothing "1" req w _ [ada] 0%nat ada eq_refl Hread
              eq_refl eq_refl) as (w2 & Hrun & Hcache & _);
    [intros j r0 Hj; lia|exact Hempty|].
  exists w2. split; [exact Hrun|exact Hcache].
Defined.

(** ** More records than arguments *)

(** X27.  A logged-in creation on a collection of more records than the
    engine accepts as arguments of one call: [Math.max(...)] throws a
    [RangeError], the handler answers nothing, and neither the cache nor a
    file is changed. *)
Theorem creation_fails_past_the_argument_limit (req : Request) (w w1 : World)
    (l : list obj) :
  isAuthenticated (session req) = true →
  readSpeakersCached w = (Ok l, w1) →
  (arguments_limit w < N.of_nat (length l))%N →
  POST_speakers req w = (Throw "RangeError", w1)
  ∧ files w1 = files w ∧ vars w1 = vars w.
Proof.
  intros Hauth Hread Hmany. split; [by apply POST_speakers_too_many with l|].
  destruct (readSpeakersCached_frame w) as [Hv Hf]. rewrite Hread in Hv, Hf. done.
Qed.

Lemma creation_fails_past_the_argument_limit_witness :
  let w := with_env (with_max_arguments 1 ticking) (serving [ada; ada]) in
  let req := request (BObject {[ "name" := VStr "Grace" ]}) in
  isAuthenticated (session req) = true
  ∧ readSpeakersCached w = (Ok [ada; ada], (readSpeakersCached w).2)
  ∧ (arguments_limit w < N.of_nat (length [ada; ada]))%N
  ∧ (POST_speakers req w).1 = Throw "RangeError"
  ∧ files (POST_speakers req w).2 = files w.
Proof.
  intros w req.
  assert (readSpeakersCached w = (Ok [ada; ada], (readSpeakersCached w).2)) as Hread
    by (vm_compute; reflexivity).
  assert (arguments_limit w < N.of_nat (length [ada; ada]))%N as Hmany by reflexivity.
  destruct (creation_fails_past_the_argument_limit req w _ [ada; ada] eq_refl Hread Hmany)
    as (Hrun & Hf & _).
  split_and!; [reflexivity|exact Hread|exact Hmany|by rewrite Hrun|by rewrite Hrun].
Defined.
